(** * Swap progression in wallet-core: a shallow embedding

    The development follows the TypeScript sources:
    - [BN]: the part of bignumber.js the swap providers use;
    - [Store]: the per-chain lock table of the store utilities
      ([attemptToLockAsset], [unlockAsset]);
    - [Liquality]: the HTLC swap provider ([LiqualitySwapProvider]);
    - [Thorchain]: the vault-deposit swap provider ([ThorchainSwapProvider]);
    - [Fees], [Address], [UnusedAddresses]: the fee and address utilities
      and the bookkeeping of unused addresses.

    Asynchronous methods are written in a state-and-exception monad over an
    abstract world [W]: every call to an external collaborator (chain client,
    agent, thornode, clock) is a function of the world that may fail with a
    JavaScript error, and every such call is recorded in a trace. *)

From Stdlib Require Import ZArith QArith Qround Qcanon Ascii String DecimalString List Lia.
From stdpp Require Import gmap strings.

Open Scope Z_scope.

(** ** JavaScript values shared by the modules *)

Definition Asset := string.
Definition Network := string.
Definition WalletId := string.
Definition AccountId := string.

(** A thrown [Error]: handlers dispatch on [e.name]. *)
Record JsError := {
  name : string;
  message : string;
  response_error : option string   (* e.response.data.error of an axios failure *)
}.

(** [new Error(text)] *)
Definition Error (text : string) : JsError :=
  {| name := "Error"; message := text; response_error := None |}.

Inductive Result (A : Type) :=
| Ok (a : A)
| Throw (e : JsError).
Arguments Ok {A} a.
Arguments Throw {A} e.

(** Reading a property of [undefined]. *)
Definition TypeError : JsError :=
  {| name := "TypeError";
     message := "Cannot read properties of undefined";
     response_error := None |}.

Record Transaction := { hash : string; confirmations : option Z }.
Record Block := { timestamp : Z }.

(** Entries of the asset and chain catalogues ([cryptoassets], [chains] of
    @liquality/cryptoassets); the catalogues themselves are parameters. *)
Record AssetInfo := {
  chain : string;
  code : string;
  decimals : Z;
  contractAddress : option string
}.

Record ChainInfo := {
  safeConfirmations : Z;
  nativeAsset : string;
  formatAddress : string -> Network -> string
}.

Record Catalog := {
  cryptoassets : gmap string AssetInfo;
  chains : gmap string ChainInfo;
  isERC20 : Asset -> bool
}.

(** ** bignumber.js

    A BigNumber is a finite decimal; it is modelled by a rational. [NaN] and
    the infinities are outside the model: amounts are well-formed numerals. *)
Module BN.

Definition t := Q.

(** The two rounding modes the providers meet: [ROUND_DOWN] (towards zero)
    is passed explicitly, [ROUND_HALF_UP] (nearest, halves away from zero)
    is the library default [ROUNDING_MODE]. *)
Inductive RoundingMode := ROUND_DOWN | ROUND_HALF_UP.

Definition ROUNDING_MODE : RoundingMode := ROUND_HALF_UP.
Definition DECIMAL_PLACES : Z := 20.

Definition round (rm : RoundingMode) (x : t) : Z :=
  let n := Qnum x in
  let d := Zpos (Qden x) in
  match rm with
  | ROUND_DOWN => Z.quot n d
  | ROUND_HALF_UP => Z.sgn n * ((2 * Z.abs n + d) / (2 * d))
  end.

(** [x.decimalPlaces(dp, rm)], written [x.dp(dp, rm)] as well. *)
Definition decimalPlaces (dp : Z) (rm : RoundingMode) (x : t) : t :=
  (inject_Z (round rm (x * inject_Z (10 ^ dp))) / inject_Z (10 ^ dp))%Q.

Definition dp (places : Z) (x : t) : t := decimalPlaces places ROUNDING_MODE x.

Definition minus (a b : t) : t := (a - b)%Q.
Definition times (a b : t) : t := (a * b)%Q.
Definition multipliedBy (a b : t) : t := (a * b)%Q.

(** Division keeps [DECIMAL_PLACES] decimals, rounded by [ROUNDING_MODE]. *)
Definition dividedBy (a b : t) : t :=
  decimalPlaces DECIMAL_PLACES ROUNDING_MODE (a / b)%Q.

Definition lt (a b : t) : bool := negb (Qle_bool b a).

Definition plus (a b : t) : t := (a + b)%Q.
Definition gte (a b : t) : bool := Qle_bool b a.
Definition lte (a b : t) : bool := Qle_bool a b.

End BN.

(** ** The trace of external calls *)

Record ClientId := {
  c_network : Network;
  c_walletId : WalletId;
  c_asset : Asset;
  c_accountId : AccountId
}.

(** The terms of an HTLC as the swap client takes them. *)
Record SwapParams := {
  value : BN.t;
  recipientAddress : string;
  refundAddress : string;
  sp_secretHash : string;
  expiration : Z
}.

(** The terms listed in the message from which the secret is generated. *)
Record SwapTerms := {
  st_fromAmount : BN.t;
  st_from : Asset;
  st_toAmount : BN.t;
  st_to : Asset;
  st_fromAddress : string;
  st_toAddress : string;
  st_fromCounterPartyAddress : string;
  st_toCounterPartyAddress : string;
  st_swapExpiration : Z
}.

(** A transaction request of [client.chain.sendTransaction]. *)
Record TransactionRequest := {
  tr_to : string;
  tr_value : BN.t;
  tr_data : string;
  tr_fee : Z
}.

(** One event per call to a collaborator, in the order the calls are made.
    [EvEnter] is a ghost event: it records that the body of a method of the
    provider starts, so that a property can say whether the method ran. *)
Inductive Event :=
| EvNow                                                   (* Date.now() *)
| EvWait (millis : Z)                                     (* wait(millis) *)
| EvWarn (e : JsError)                                    (* console.warn(e) *)
| EvAgentOrder (from to : Asset) (fromAmount : BN.t)      (* POST agent/api/swap/order *)
| EvAgentUpdateOrder (orderId : string)                   (* POST agent/api/swap/order/id *)
| EvGetSwapAddress (asset : Asset) (accountId : AccountId)
| EvUpdateBalances (assets : list Asset)
| EvLedgerNotification (accountId : AccountId) (text : string)
| EvGenerateSecret (c : ClientId)
| EvInitiateSwap (c : ClientId) (p : SwapParams)
| EvFundSwap (c : ClientId) (p : SwapParams)
| EvClaimSwap (c : ClientId) (p : SwapParams)
| EvRefundSwap (c : ClientId) (p : SwapParams)
| EvFindInitiateSwapTransaction (c : ClientId) (p : SwapParams)
| EvVerifyInitiateSwapTransaction (c : ClientId) (txHash : string)
| EvFindFundSwapTransaction (c : ClientId) (txHash : string)
| EvGetTransactionByHash (c : ClientId) (txHash : string)
| EvGetBlockHeight (c : ClientId)
| EvGetBlockByNumber (c : ClientId) (n : Z)
| EvSendTransaction (c : ClientId) (req : TransactionRequest)
| EvThornodeTx (txHash : string)                          (* GET thornode/thorchain/tx/hash *)
| EvThornodeInboundAddresses                              (* GET thornode/thorchain/inbound_addresses *)
| EvAllowance (asset : Asset) (owner : string)            (* erc20.allowance *)
| EvUuid                                                  (* uuidv4() *)
| EvEnter (method : string).

(** The calls that put a transaction on a chain. *)
Definition is_submission (ev : Event) : bool :=
  match ev with
  | EvInitiateSwap _ _ | EvFundSwap _ _ | EvClaimSwap _ _ | EvRefundSwap _ _
  | EvSendTransaction _ _ => true
  | _ => false
  end.

(** ** The monad of asynchronous methods *)
Section Monad.
Context {W : Type}.

Definition St : Type := W * list Event.
Definition M (A : Type) : Type := St -> Result A * St.

Definition ret {A} (a : A) : M A := fun s => (Ok a, s).
Definition throw {A} (e : JsError) : M A := fun s => (Throw e, s).

Definition bind {A B} (m : M A) (k : A -> M B) : M B :=
  fun s =>
    match m s with
    | (Ok a, s') => k a s'
    | (Throw e, s') => (Throw e, s')
    end.

(** [try { m } catch (e) { h e }] *)
Definition catch {A} (m : M A) (h : JsError -> M A) : M A :=
  fun s =>
    match m s with
    | (Ok a, s') => (Ok a, s')
    | (Throw e, s') => h e s'
    end.

Definition emit (ev : Event) : M unit :=
  fun s => (Ok tt, (fst s, snd s ++ [ev])).

(** An external call: recorded, then answered by the world. *)
Definition call {A} (ev : Event) (f : W -> Result A * W) : M A :=
  fun s =>
    let (r, w') := f (fst s) in
    (r, (w', snd s ++ [ev])).

(** A synchronous computation that may throw. *)
Definition lift {A} (r : Result A) : M A :=
  fun s => (r, s).

(** Running a method from a world, with an empty trace. *)
Definition run {A} (m : M A) (w : W) : Result A * St := m (w, []).
Definition result_of {A} (x : Result A * St) : Result A := fst x.
Definition trace_of {A} (x : Result A * St) : list Event := snd (snd x).
End Monad.
Arguments St : clear implicits.
Arguments M : clear implicits.

Declare Scope js_scope.
Delimit Scope js_scope with js.
Notation "x <- m ;; k" := (bind m (fun x => k))
  (at level 100, m at next level, right associativity) : js_scope.
Notation "m ;;; k" := (bind m (fun _ => k))
  (at level 100, right associativity) : js_scope.
Open Scope js_scope.

(** What thornode answers: an observed transaction, and an inbound
    address. *)
Record ThorchainTx := { memo : string }.
Record ThorchainObservedTx := {
  ot_tx : option ThorchainTx;
  out_hashes : option (list string)
}.
Record ThorchainTransactionResponse := { observed_tx : option ThorchainObservedTx }.
Record ThorchainInboundAddress := {
  ia_chain : string;
  ia_address : string;
  ia_gas_rate : string;
  ia_router : option string
}.

(** The agent's answer to an order request: the order fields it fixes. *)
Record LockedQuote := {
  lq_orderId : string;
  lq_from : Asset;
  lq_to : Asset;
  lq_fromAmount : BN.t;
  lq_toAmount : BN.t;
  lq_fromCounterPartyAddress : string;
  lq_toCounterPartyAddress : string;
  lq_expiresAt : Z;
  lq_swapExpiration : Z;
  lq_nodeSwapExpiration : Z
}.

(** The collaborators the providers call, over a world [W]: each call takes
    the world and gives its answer, or the error it raises, with the world
    after the call. Amounts are passed as the BigNumber they denote. *)
Record Collaborators (W : Type) := {
  now : W -> Z * W;
  sleep : Z -> W -> W;
  getSwapAddress : Network -> WalletId -> Asset -> AccountId -> W -> Result string * W;
  updateBalances : Network -> WalletId -> list Asset -> W -> W;
  sendLedgerNotification : AccountId -> string -> W -> Result unit * W;
  (* chain client *)
  chain_getTransactionByHash : ClientId -> string -> W -> Result (option Transaction) * W;
  chain_getBlockHeight : ClientId -> W -> Result Z * W;
  chain_getBlockByNumber : ClientId -> Z -> W -> Result (option Block) * W;
  chain_sendTransaction : ClientId -> TransactionRequest -> W -> Result Transaction * W;
  (* swap client *)
  swap_generateSecret : ClientId -> SwapTerms -> W -> Result string * W;
  swap_initiateSwap : ClientId -> SwapParams -> Z -> W -> Result Transaction * W;
  swap_fundSwap : ClientId -> SwapParams -> string -> Z -> W -> Result (option Transaction) * W;
  swap_claimSwap : ClientId -> SwapParams -> string -> string -> Z -> W -> Result Transaction * W;
  swap_refundSwap : ClientId -> SwapParams -> string -> Z -> W -> Result Transaction * W;
  swap_findInitiateSwapTransaction : ClientId -> SwapParams -> W -> Result (option Transaction) * W;
  swap_verifyInitiateSwapTransaction : ClientId -> SwapParams -> string -> W -> Result bool * W;
  swap_findFundSwapTransaction : ClientId -> SwapParams -> string -> W -> Result (option Transaction) * W;
  (* the Liquality agent *)
  agentOrder : Asset -> Asset -> BN.t -> W -> Result LockedQuote * W;
  agentUpdateOrder : string -> W -> Result unit * W;
  (* thornode, ethers, uuid *)
  thornodeTx : string -> W -> Result (option ThorchainTransactionResponse) * W;
  thornodeInboundAddresses : W -> Result (list ThorchainInboundAddress) * W;
  allowance : Asset -> string -> Result string -> W -> Result Z * W;
  uuidv4 : W -> string * W
}.
Arguments now {W} _.
Arguments sleep {W} _.
Arguments getSwapAddress {W} _.
Arguments updateBalances {W} _.
Arguments sendLedgerNotification {W} _.
Arguments chain_getTransactionByHash {W} _.
Arguments chain_getBlockHeight {W} _.
Arguments chain_getBlockByNumber {W} _.
Arguments chain_sendTransaction {W} _.
Arguments swap_generateSecret {W} _.
Arguments swap_initiateSwap {W} _.
Arguments swap_fundSwap {W} _.
Arguments swap_claimSwap {W} _.
Arguments swap_refundSwap {W} _.
Arguments swap_findInitiateSwapTransaction {W} _.
Arguments swap_verifyInitiateSwapTransaction {W} _.
Arguments swap_findFundSwapTransaction {W} _.
Arguments agentOrder {W} _.
Arguments agentUpdateOrder {W} _.
Arguments thornodeTx {W} _.
Arguments thornodeInboundAddresses {W} _.
Arguments allowance {W} _.
Arguments uuidv4 {W} _.

(** ** The store utilities: the lock table *)
Module Store.

(** [CHAIN_LOCK] and the names emitted on [emitter], oldest first. *)
Record State := {
  CHAIN_LOCK : gmap string bool;
  emitted : list string
}.

Record LockAttempt := { key : string; success : bool }.

(** [CHAIN_LOCK[key]] in a condition: a missing key is [undefined]. *)
Definition locked (table : gmap string bool) (k : string) : bool :=
  match table !! k with
  | Some b => b
  | None => false
  end.

Definition lockKey (network : Network) (walletId : WalletId) (chain : string) : string :=
  String.concat "-" [network; walletId; chain].

Definition attemptToLockAsset (cat : Catalog)
    (network : Network) (walletId : WalletId) (asset : Asset)
    (st : State) : Result LockAttempt * State :=
  match cryptoassets cat !! asset with
  | None => (Throw TypeError, st)
  | Some info =>
      let chain := chain info in
      let key := lockKey network walletId chain in
      if locked (CHAIN_LOCK st) key then
        (Ok {| key := key; success := false |}, st)
      else
        (Ok {| key := key; success := true |},
         {| CHAIN_LOCK := <[key := true]> (CHAIN_LOCK st); emitted := emitted st |})
  end.

Definition unlockAsset (key : string) (st : State) : State :=
  {| CHAIN_LOCK := <[key := false]> (CHAIN_LOCK st);
     emitted := emitted st ++ ["unlock:" +:+ key] |}.

End Store.

(** ** Helpers for JavaScript conditions *)

(** A number used as a condition: [undefined] and [0] are falsy. *)
Definition truthyNum (o : option Z) : bool :=
  match o with
  | Some c => negb (c =? 0)
  | None => false
  end.

(** [o && o > bound], resp. [o && o >= bound], on an optional number. *)
Definition gtNum (o : option Z) (bound : Z) : bool :=
  match o with
  | Some c => c >? bound
  | None => false
  end.

Definition geNum (o : option Z) (bound : Z) : bool :=
  match o with
  | Some c => c >=? bound
  | None => false
  end.

(** [tx && tx.confirmations && tx.confirmations > 0] *)
Definition hasConfirmations (tx : option Transaction) : bool :=
  match tx with
  | Some t => truthyNum (confirmations t) && gtNum (confirmations t) 0
  | None => false
  end.

(** A boolean that may be [undefined], used as a condition. *)
Definition truthy (o : option bool) : bool :=
  match o with
  | Some b => b
  | None => false
  end.

Section Common.
Context {W : Type} (E : Collaborators W).

Definition getClient (network : Network) (walletId : WalletId)
    (asset : Asset) (accountId : AccountId) : ClientId :=
  {| c_network := network; c_walletId := walletId;
     c_asset := asset; c_accountId := accountId |}.

(** [Date.now()], also [timestamp()] of the store utilities. *)
Definition dateNow : M W Z :=
  fun s => let (t, w') := now E (fst s) in (Ok t, (w', snd s ++ [EvNow])).

(** [wait(millis)] of the store utilities. *)
Definition wait (millis : Z) : M W unit :=
  fun s => (Ok tt, (sleep E millis (fst s), snd s ++ [EvWait millis])).

Definition consoleWarn (e : JsError) : M W unit := emit (EvWarn e).

(** [uuidv4()] *)
Definition freshUuid : M W string :=
  fun s => let (u, w') := uuidv4 E (fst s) in (Ok u, (w', snd s ++ [EvUuid])).

(** [this.updateBalances(...)] is not awaited: it only starts the refresh. *)
Definition startUpdateBalances (network : Network) (walletId : WalletId)
    (assets : list Asset) : M W unit :=
  fun s => (Ok tt, (updateBalances E network walletId assets (fst s),
                    snd s ++ [EvUpdateBalances assets])).

Definition chainGetTransactionByHash (c : ClientId) (h : string)
    : M W (option Transaction) :=
  call (EvGetTransactionByHash c h) (chain_getTransactionByHash E c h).

(** [chains[cryptoassets[asset].chain].safeConfirmations] *)
Definition safeConfirmationsOf (cat : Catalog) (asset : Asset) : Result Z :=
  match cryptoassets cat !! asset with
  | None => Throw TypeError
  | Some info =>
      match chains cat !! chain info with
      | None => Throw TypeError
      | Some c => Ok (safeConfirmations c)
      end
  end.
End Common.

(** ** @liquality/cryptoassets: amounts in currency and in base units *)

(** [unitToCurrency(asset, value)]: [value / 10 ** asset.decimals]. *)
Definition unitToCurrency (info : AssetInfo) (value : BN.t) : BN.t :=
  BN.dividedBy value (inject_Z (10 ^ decimals info)).

(** [currencyToUnit(asset, value)]: [value * 10 ** asset.decimals]. *)
Definition currencyToUnit (info : AssetInfo) (value : BN.t) : BN.t :=
  BN.times value (inject_Z (10 ^ decimals info)).

(** ** Fee utilities ([utils/fees])

    A fee price is a JavaScript number that [new BN(feePrice)] reads
    exactly; [isEthereumChain] of [utils/asset] and the [sendGasLimit] of an
    asset of the catalogue are passed in. *)
Module Fees.

(** [{ [asset]: number }]: gas (or byte) units per asset. *)
Definition FeeUnits := gmap string Z.

Section Fees.
Context (cat : Catalog).
Context (isEthereumChain : Asset -> bool).
Context (sendGasLimit : AssetInfo -> Z).

Definition feePriceInUnit (asset : Asset) (feePrice : BN.t) : BN.t :=
  if isEthereumChain asset
  then BN.times feePrice 1000000000%Q (* ETH fee price is in gwei *)
  else feePrice.

Definition getSendFee (asset : Asset) (feePrice : BN.t) : Result BN.t :=
  match cryptoassets cat !! asset with
  | None => Throw TypeError
  | Some assetInfo =>
      let fee := BN.times (inject_Z (sendGasLimit assetInfo))
                   (feePriceInUnit asset feePrice) in
      Ok (unitToCurrency assetInfo fee)
  end.

(** The fee is a BigNumber that may be [NaN] (here [None]): units that the
    table does not list are [undefined]. *)
Definition getTxFee (units : FeeUnits) (_asset : Asset) (_feePrice : BN.t)
    : Result (option BN.t) :=
  match cryptoassets cat !! _asset with
  | None => Throw TypeError
  | Some info =>
      let chainId := chain info in
      match chains cat !! chainId with
      | None => Throw TypeError
      | Some chainInfo =>
          let nativeAsset := nativeAsset chainInfo in
          let asset := if isERC20 cat _asset then "ERC20" else _asset in
          (* Terra ERC20 assets use gas equal to Terra Native assets *)
          let feeUnits :=
            if String.eqb chainId "terra" then units !! "LUNA" else units !! asset in
          let fee :=
            match feeUnits with
            | Some n => Some (BN.times (inject_Z n) (feePriceInUnit _asset _feePrice))
            | None => None
            end in
          match cryptoassets cat !! nativeAsset with
          | None => Throw TypeError
          | Some nativeInfo =>
              Ok match fee with
                 | Some f => Some (unitToCurrency nativeInfo f)
                 | None => None
                 end
          end
      end
  end.

End Fees.
End Fees.

(** ** Address utilities ([utils/address])

    The characters of a [string] stand for the code units of a JavaScript
    string. *)
Module Address.

(** [s.startsWith(prefix)] *)
Definition startsWith (prefix s : string) : bool := String.prefix prefix s.

(** [s.replace(pattern, '')] for a string pattern that is not empty: the
    first occurrence is removed. *)
Fixpoint removeFirst (pattern s : string) : string :=
  if String.prefix pattern s
  then String.substring (String.length pattern) (String.length s - String.length pattern) s
  else match s with
       | EmptyString => EmptyString
       | String c rest => String c (removeFirst pattern rest)
       end.

(** [s.substring(0, n)] *)
Definition firstChars (n : nat) (s : string) : string := String.substring 0 n s.

(** [s.substring(s.length - n)]: a negative start counts as 0. *)
Definition lastChars (n : nat) (s : string) : string :=
  String.substring (String.length s - n) n s.

Definition shortenAddress (address : string) : string :=
  let prefix := if startsWith "0x" address then "0x" else "" in
  let isTerra := startsWith "terra" address in
  prefix
  +:+ firstChars (if String.eqb prefix "" then 6 else 4) (removeFirst "0x" address)
  +:+ "..."
  +:+ lastChars (if isTerra then 6 else 4) address.

End Address.

(** ** The unused addresses of an account ([store/actions/getUnusedAddresses])

    [getUnusedAddresses] maps one function over the assets with
    [Bluebird.map] at concurrency 1, which runs one call at a time in an
    order that Bluebird does not specify; the function mapped is modelled. Its
    world is the wallet behind [getters.client]; the accounts it reads from
    the state are an argument, and the mutation it commits is part of its
    result. *)
Module UnusedAddresses.

(** An account of [state.accounts[walletId][network]]. *)
Record Account := {
  id : AccountId;
  chain : string;
  addresses : list string
}.

(** The payload of [commit.UPDATE_ACCOUNT_ADDRESSES]. *)
Record AddressUpdate := {
  au_network : Network;
  au_accountId : AccountId;
  au_walletId : WalletId;
  au_addresses : list string
}.

(** [ChainId.Bitcoin] *)
Definition ChainId_Bitcoin : string := "bitcoin".

Definition accountsMissing : JsError :=
  Error "getUnusedAddresses: Accounts not found ".

(** [list.includes(x)] *)
Definition includes (x : string) (l : list string) : bool :=
  existsb (String.eqb x) l.

Section Mapper.
Context {W : Type}.
(** [client.wallet.getUnusedAddress()], read at [.address]. *)
Context (getUnusedAddress : ClientId -> W -> Result string * W).
Context (isEthereumChain : Asset -> bool).
Context (network : Network) (walletId : WalletId) (accountId : AccountId).

(** The function mapped over [assets]: the address returned, and the
    mutation committed on the way, if any. *)
Definition mapper (accounts : option (list Account)) (asset : Asset) (w : W)
    : Result (string * option AddressUpdate) * W :=
  match accounts with
  | None => (Throw accountsMissing, w)
  | Some accounts =>
      match List.find (fun a => String.eqb (id a) accountId) accounts with
      | Some account =>
          if negb (String.eqb asset "") then
            match getUnusedAddress (getClient network walletId asset (id account)) w with
            | (Ok result, w') =>
                (* TODO: Should not require removing 0x *)
                let address :=
                  if isEthereumChain asset then Address.removeFirst "0x" result
                  else result in
                let updatedAddresses :=
                  if String.eqb (chain account) ChainId_Bitcoin then
                    if negb (includes address (addresses account))
                    then addresses account ++ [address]
                    else addresses account
                  else [address] in
                (Ok (address,
                     Some {| au_network := network; au_accountId := id account;
                             au_walletId := walletId;
                             au_addresses := updatedAddresses |}), w')
            | (Throw e, w') => (Throw e, w')
            end
          else (Ok ("", None), w)
      | None => (Ok ("", None), w)
      end
  end.
End Mapper.
End UnusedAddresses.

(** ** LiqualitySwapProvider *)
Module Liquality.

Record SwapHistoryItem := {
  from : Asset;
  to : Asset;
  fromAmount : BN.t;
  toAmount : BN.t;
  fromAccountId : AccountId;
  toAccountId : AccountId;
  fee : Z;
  claimFee : Z;
  status : string;
  orderId : string;
  fromAddress : string;
  toAddress : string;
  fromCounterPartyAddress : string;
  toCounterPartyAddress : string;
  secretHash : string;
  secret : string;
  expiresAt : Z;
  swapExpiration : Z;
  nodeSwapExpiration : Z;
  fromFundHash : string;
  fromFundTx : option Transaction;
  refundHash : string;
  toClaimHash : string;
  toFundHash : string
}.

(** The partial update a handler returns; [None] is an absent field. *)
Record Updates := {
  upd_status : option string;
  upd_endTime : option Z;
  upd_toFundHash : option string;
  upd_fundTxHash : option string;
  upd_refundHash : option string;
  upd_refundTx : option Transaction;
  upd_toClaimHash : option string;
  upd_toClaimTx : option Transaction
}.

(** [{ status }] *)
Definition statusOnly (s : string) : Updates :=
  {| upd_status := Some s; upd_endTime := None; upd_toFundHash := None;
     upd_fundTxHash := None; upd_refundHash := None; upd_refundTx := None;
     upd_toClaimHash := None; upd_toClaimTx := None |}.

(** [{ endTime, status }] *)
Definition finished (t : Z) (s : string) : Updates :=
  {| upd_status := Some s; upd_endTime := Some t; upd_toFundHash := None;
     upd_fundTxHash := None; upd_refundHash := None; upd_refundTx := None;
     upd_toClaimHash := None; upd_toClaimTx := None |}.

Record SwapStatus := {
  step : Z;
  label : string;
  filterStatus : string;
  notification : bool   (* whether the entry has a notification() *)
}.

(** How [performNextSwapAction] hands an action to the scheduler. *)
Inductive Scheduling :=
| Direct                      (* return this.action(...) *)
| WithInterval                (* withInterval(async () => action) *)
| WithLock (asset : Asset).   (* withLock(store, {asset}, async () => action) *)

(** [{ ..._quote, ...lockedQuote }] *)
Definition mergeQuote (q : SwapHistoryItem) (l : LockedQuote) : SwapHistoryItem :=
  {| from := lq_from l;
     to := lq_to l;
     fromAmount := lq_fromAmount l;
     toAmount := lq_toAmount l;
     fromAccountId := fromAccountId q;
     toAccountId := toAccountId q;
     fee := fee q;
     claimFee := claimFee q;
     status := status q;
     orderId := lq_orderId l;
     fromAddress := fromAddress q;
     toAddress := toAddress q;
     fromCounterPartyAddress := lq_fromCounterPartyAddress l;
     toCounterPartyAddress := lq_toCounterPartyAddress l;
     secretHash := secretHash q;
     secret := secret q;
     expiresAt := lq_expiresAt l;
     swapExpiration := lq_swapExpiration l;
     nodeSwapExpiration := lq_nodeSwapExpiration l;
     fromFundHash := fromFundHash q;
     fromFundTx := fromFundTx q;
     refundHash := refundHash q;
     toClaimHash := toClaimHash q;
     toFundHash := toFundHash q |}.

(** [quote.fromAddress = ...; quote.toAddress = ...] *)
Definition withAddresses (q : SwapHistoryItem) (fromAddr toAddr : string)
    : SwapHistoryItem :=
  {| from := from q; to := to q; fromAmount := fromAmount q; toAmount := toAmount q;
     fromAccountId := fromAccountId q; toAccountId := toAccountId q;
     fee := fee q; claimFee := claimFee q; status := status q;
     orderId := orderId q;
     fromAddress := fromAddr;
     toAddress := toAddr;
     fromCounterPartyAddress := fromCounterPartyAddress q;
     toCounterPartyAddress := toCounterPartyAddress q;
     secretHash := secretHash q; secret := secret q;
     expiresAt := expiresAt q; swapExpiration := swapExpiration q;
     nodeSwapExpiration := nodeSwapExpiration q;
     fromFundHash := fromFundHash q; fromFundTx := fromFundTx q;
     refundHash := refundHash q; toClaimHash := toClaimHash q;
     toFundHash := toFundHash q |}.

(** [{ ...quote, status: 'INITIATED', secret, secretHash, fromFundHash, fromFundTx }] *)
Definition initiated (q : SwapHistoryItem) (sec secHash : string)
    (fundTx : Transaction) : SwapHistoryItem :=
  {| from := from q; to := to q; fromAmount := fromAmount q; toAmount := toAmount q;
     fromAccountId := fromAccountId q; toAccountId := toAccountId q;
     fee := fee q; claimFee := claimFee q;
     status := "INITIATED";
     orderId := orderId q;
     fromAddress := fromAddress q; toAddress := toAddress q;
     fromCounterPartyAddress := fromCounterPartyAddress q;
     toCounterPartyAddress := toCounterPartyAddress q;
     secretHash := secHash;
     secret := sec;
     expiresAt := expiresAt q; swapExpiration := swapExpiration q;
     nodeSwapExpiration := nodeSwapExpiration q;
     fromFundHash := hash fundTx;
     fromFundTx := Some fundTx;
     refundHash := refundHash q; toClaimHash := toClaimHash q;
     toFundHash := toFundHash q |}.

(** The terms of our HTLC on the [from] chain. *)
Definition fromParams (swap : SwapHistoryItem) : SwapParams :=
  {| value := fromAmount swap;
     recipientAddress := fromCounterPartyAddress swap;
     refundAddress := fromAddress swap;
     sp_secretHash := secretHash swap;
     expiration := swapExpiration swap |}.

(** The terms of the counterparty's HTLC on the [to] chain. *)
Definition toParams (swap : SwapHistoryItem) : SwapParams :=
  {| value := toAmount swap;
     recipientAddress := toAddress swap;
     refundAddress := toCounterPartyAddress swap;
     sp_secretHash := secretHash swap;
     expiration := nodeSwapExpiration swap |}.

Definition termsOf (quote : SwapHistoryItem) : SwapTerms :=
  {| st_fromAmount := fromAmount quote; st_from := from quote;
     st_toAmount := toAmount quote; st_to := to quote;
     st_fromAddress := fromAddress quote; st_toAddress := toAddress quote;
     st_fromCounterPartyAddress := fromCounterPartyAddress quote;
     st_toCounterPartyAddress := toCounterPartyAddress quote;
     st_swapExpiration := swapExpiration quote |}.

Definition maxTries : nat := 3.

Definition slippageError : JsError :=
  Error "The quote slippage is too high (> 0.5%). Try again.".
Definition expiredError : JsError := Error "The quote is expired.".
Definition fundingNullError : JsError := Error "Funding transaction returned null".

(** The names [findCounterPartyInitiation] tolerates. *)
Definition notYetVisible (e : JsError) : bool :=
  bool_decide (name e ∈ ["BlockNotFoundError"; "PendingTxError"; "TxNotFoundError"]).

Definition isTxNotFound (e : JsError) : bool :=
  String.eqb (name e) "TxNotFoundError".

Section Provider.
Context {W : Type} (E : Collaborators W) (cat : Catalog).
Context (sha256 : string -> string).
Context (network : Network) (walletId : WalletId).

Definition _getQuote (from to : Asset) (amount : BN.t) : M W LockedQuote :=
  catch
    (call (EvAgentOrder from to amount) (agentOrder E from to amount))
    (fun e =>
       (* if (e?.response?.data?.error): an empty text is not truthy *)
       match response_error e with
       | Some text => if String.eqb text "" then throw e else throw (Error text)
       | None => throw e
       end).

Definition hasQuoteExpired (swap : SwapHistoryItem) : M W bool :=
  t <- dateNow E ;;
  ret (t >=? expiresAt swap).

Definition newSwap (_quote : SwapHistoryItem) : M W SwapHistoryItem :=
  lockedQuote <- _getQuote (from _quote) (to _quote) (fromAmount _quote) ;;
  if BN.lt (lq_toAmount lockedQuote) (BN.times (toAmount _quote) 0.995%Q)
  then throw slippageError
  else
    let quote := mergeQuote _quote lockedQuote in
    expired <- hasQuoteExpired quote ;;
    if expired then throw expiredError
    else
      fromAddr <- call (EvGetSwapAddress (from quote) (fromAccountId quote))
                    (getSwapAddress E network walletId (from quote) (fromAccountId quote)) ;;
      toAddr <- call (EvGetSwapAddress (to quote) (toAccountId quote))
                  (getSwapAddress E network walletId (to quote) (toAccountId quote)) ;;
      let quote := withAddresses quote fromAddr toAddr in
      let fromClient := getClient network walletId (from quote) (fromAccountId quote) in
      secret <- call (EvGenerateSecret fromClient)
                  (swap_generateSecret E fromClient (termsOf quote)) ;;
      let secretHash := sha256 secret in
      fromFundTx <- call (EvInitiateSwap fromClient
                            {| value := fromAmount quote;
                               recipientAddress := fromCounterPartyAddress quote;
                               refundAddress := fromAddress quote;
                               sp_secretHash := secretHash;
                               expiration := swapExpiration quote |})
                      (swap_initiateSwap E fromClient
                            {| value := fromAmount quote;
                               recipientAddress := fromCounterPartyAddress quote;
                               refundAddress := fromAddress quote;
                               sp_secretHash := secretHash;
                               expiration := swapExpiration quote |}
                            (fee quote)) ;;
      ret (initiated quote secret secretHash fromFundTx).

Definition updateOrder (order : SwapHistoryItem) : M W unit :=
  call (EvAgentUpdateOrder (orderId order)) (agentUpdateOrder E (orderId order)).

(** One pass of the [while (tries < maxTries)] loop per unit of [fuel];
    [maxTries] passes are the most the loop can make. *)
Fixpoint hasChainTimePassed_loop (fuel : nat) (client : ClientId)
    (timestamp0 : Z) (tries : nat) : M W (option bool) :=
  match fuel with
  | O => ret None
  | S fuel' =>
      if (tries <? maxTries)%nat then
        catch
          (blockNumber <- call (EvGetBlockHeight client) (chain_getBlockHeight E client) ;;
           latestBlock <- call (EvGetBlockByNumber client blockNumber)
                            (chain_getBlockByNumber E client blockNumber) ;;
           match latestBlock with
           | Some b => ret (Some (timestamp b >? timestamp0))
           | None => throw TypeError
           end)
          (fun e =>
             let tries := S tries in
             if (maxTries <=? tries)%nat then throw e
             else
               consoleWarn e ;;;
               wait E 2000 ;;;
               hasChainTimePassed_loop fuel' client timestamp0 tries)
      else ret None
  end.

Definition hasChainTimePassed (asset : Asset) (timestamp0 : Z)
    (accountId : AccountId) : M W (option bool) :=
  let client := getClient network walletId asset accountId in
  hasChainTimePassed_loop maxTries client timestamp0 0.

Definition canRefund (swap : SwapHistoryItem) : M W (option bool) :=
  hasChainTimePassed (from swap) (swapExpiration swap) (fromAccountId swap).

Definition hasSwapExpired (swap : SwapHistoryItem) : M W (option bool) :=
  hasChainTimePassed (to swap) (nodeSwapExpiration swap) (toAccountId swap).

Definition handleExpirations (swap : SwapHistoryItem) : M W (option Updates) :=
  emit (EvEnter "handleExpirations") ;;;
  refundable <- canRefund swap ;;
  if truthy refundable then ret (Some (statusOnly "GET_REFUND"))
  else
    expired <- hasSwapExpired swap ;;
    if truthy expired then ret (Some (statusOnly "WAITING_FOR_REFUND"))
    else ret None.

Definition waitForClaimConfirmations (swap : SwapHistoryItem) : M W (option Updates) :=
  let toClient := getClient network walletId (to swap) (toAccountId swap) in
  done <- catch
            (tx <- chainGetTransactionByHash E toClient (toClaimHash swap) ;;
             if hasConfirmations tx then
               startUpdateBalances E network walletId [to swap; from swap] ;;;
               t <- dateNow E ;;
               ret (Some (finished t "SUCCESS"))
             else ret None)
            (fun e => if isTxNotFound e then consoleWarn e ;;; ret None else throw e) ;;
  match done with
  | Some updates => ret (Some updates)
  | None =>
      (* Expiration check should only happen if tx not found *)
      expirationUpdates <- handleExpirations swap ;;
      ret expirationUpdates
  end.

Definition waitForRefund (swap : SwapHistoryItem) : M W (option Updates) :=
  refundable <- canRefund swap ;;
  if truthy refundable then ret (Some (statusOnly "GET_REFUND")) else ret None.

Definition waitForRefundConfirmations (swap : SwapHistoryItem) : M W (option Updates) :=
  let fromClient := getClient network walletId (from swap) (fromAccountId swap) in
  catch
    (tx <- chainGetTransactionByHash E fromClient (refundHash swap) ;;
     if hasConfirmations tx then
       t <- dateNow E ;;
       ret (Some (finished t "REFUNDED"))
     else ret None)
    (fun e => if isTxNotFound e then consoleWarn e ;;; ret None else throw e).

Definition refundSwap (swap : SwapHistoryItem) : M W (option Updates) :=
  let fromClient := getClient network walletId (from swap) (fromAccountId swap) in
  call (EvLedgerNotification (fromAccountId swap) "Signing required to refund the swap.")
    (sendLedgerNotification E (fromAccountId swap) "Signing required to refund the swap.") ;;;
  refundTx <- call (EvRefundSwap fromClient (fromParams swap))
                (swap_refundSwap E fromClient (fromParams swap) (fromFundHash swap) (fee swap)) ;;
  ret (Some {| upd_status := Some "WAITING_FOR_REFUND_CONFIRMATIONS";
               upd_endTime := None; upd_toFundHash := None; upd_fundTxHash := None;
               upd_refundHash := Some (hash refundTx);
               upd_refundTx := Some refundTx;
               upd_toClaimHash := None; upd_toClaimTx := None |}).

Definition fundSwap (swap : SwapHistoryItem) : M W (option Updates) :=
  expired <- hasQuoteExpired swap ;;
  if expired then ret (Some (statusOnly "QUOTE_EXPIRED"))
  else if negb (isERC20 cat (from swap)) then ret (Some (statusOnly "FUNDED"))
  else
    let fromClient := getClient network walletId (from swap) (fromAccountId swap) in
    call (EvLedgerNotification (fromAccountId swap) "Signing required to fund the swap.")
      (sendLedgerNotification E (fromAccountId swap) "Signing required to fund the swap.") ;;;
    fundTx <- call (EvFundSwap fromClient (fromParams swap))
                (swap_fundSwap E fromClient (fromParams swap) (fromFundHash swap) (fee swap)) ;;
    match fundTx with
    | None => throw fundingNullError
    | Some fundTx =>
        ret (Some {| upd_status := Some "FUNDED";
                     upd_endTime := None; upd_toFundHash := None;
                     upd_fundTxHash := Some (hash fundTx);
                     upd_refundHash := None; upd_refundTx := None;
                     upd_toClaimHash := None; upd_toClaimTx := None |})
    end.

Definition reportInitiation (swap : SwapHistoryItem) : M W (option Updates) :=
  expired <- hasQuoteExpired swap ;;
  if expired then ret (Some (statusOnly "WAITING_FOR_REFUND"))
  else
    updateOrder swap ;;;
    ret (Some (statusOnly "INITIATION_REPORTED")).

Definition findCounterPartyInitiation (swap : SwapHistoryItem) : M W (option Updates) :=
  let toClient := getClient network walletId (to swap) (toAccountId swap) in
  found <- catch
             (tx <- call (EvFindInitiateSwapTransaction toClient (toParams swap))
                      (swap_findInitiateSwapTransaction E toClient (toParams swap)) ;;
              match tx with
              | Some tx =>
                  let toFundHash := hash tx in
                  isVerified <- call (EvVerifyInitiateSwapTransaction toClient toFundHash)
                                  (swap_verifyInitiateSwapTransaction E toClient
                                     (toParams swap) toFundHash) ;;
                  (* ERC20 swaps have separate funding tx. Ensures funding tx has
                     enough confirmations *)
                  fundingTransaction <- call (EvFindFundSwapTransaction toClient toFundHash)
                                          (swap_findFundSwapTransaction E toClient
                                             (toParams swap) toFundHash) ;;
                  fundingConfirmed <-
                    match fundingTransaction with
                    | Some ft =>
                        if truthyNum (confirmations ft) then
                          safe <- lift (safeConfirmationsOf cat (to swap)) ;;
                          ret (geNum (confirmations ft) safe)
                        else ret false
                    | None => ret true
                    end ;;
                  if isVerified && fundingConfirmed then
                    ret (Some {| upd_status := Some "CONFIRM_COUNTER_PARTY_INITIATION";
                                 upd_endTime := None;
                                 upd_toFundHash := Some toFundHash;
                                 upd_fundTxHash := None;
                                 upd_refundHash := None; upd_refundTx := None;
                                 upd_toClaimHash := None; upd_toClaimTx := None |})
                  else ret None
              | None => ret None
              end)
             (fun e => if notYetVisible e then consoleWarn e ;;; ret None else throw e) ;;
  match found with
  | Some updates => ret (Some updates)
  | None =>
      (* Expiration check should only happen if tx not found *)
      expirationUpdates <- handleExpirations swap ;;
      ret expirationUpdates
  end.

Definition confirmInitiation (swap : SwapHistoryItem) : M W (option Updates) :=
  (* Jump the step if counter party has already accepted the initiation *)
  counterPartyInitiation <- findCounterPartyInitiation swap ;;
  match counterPartyInitiation with
  | Some updates => ret (Some updates)
  | None =>
      let fromClient := getClient network walletId (from swap) (fromAccountId swap) in
      catch
        (tx <- chainGetTransactionByHash E fromClient (fromFundHash swap) ;;
         if hasConfirmations tx then ret (Some (statusOnly "INITIATION_CONFIRMED"))
         else ret None)
        (fun e => if isTxNotFound e then consoleWarn e ;;; ret None else throw e)
  end.

Definition confirmCounterPartyInitiation (swap : SwapHistoryItem)
    : M W (option Updates) :=
  let toClient := getClient network walletId (to swap) (toAccountId swap) in
  tx <- chainGetTransactionByHash E toClient (toFundHash swap) ;;
  ready <-
    match tx with
    | Some t =>
        if truthyNum (confirmations t) then
          safe <- lift (safeConfirmationsOf cat (to swap)) ;;
          ret (geNum (confirmations t) safe)
        else ret false
    | None => ret false
    end ;;
  if (ready : bool) then ret (Some (statusOnly "READY_TO_CLAIM"))
  else
    (* Expiration check should only happen if tx not found *)
    expirationUpdates <- handleExpirations swap ;;
    ret expirationUpdates.

Definition claimSwap (swap : SwapHistoryItem) : M W (option Updates) :=
  expirationUpdates <- handleExpirations swap ;;
  match expirationUpdates with
  | Some updates => ret (Some updates)
  | None =>
      let toClient := getClient network walletId (to swap) (toAccountId swap) in
      call (EvLedgerNotification (toAccountId swap) "Signing required to claim the swap.")
        (sendLedgerNotification E (toAccountId swap) "Signing required to claim the swap.") ;;;
      toClaimTx <- call (EvClaimSwap toClient (toParams swap))
                     (swap_claimSwap E toClient (toParams swap) (toFundHash swap)
                        (secret swap) (claimFee swap)) ;;
      ret (Some {| upd_status := Some "WAITING_FOR_CLAIM_CONFIRMATIONS";
                   upd_endTime := None; upd_toFundHash := None; upd_fundTxHash := None;
                   upd_refundHash := None; upd_refundTx := None;
                   upd_toClaimHash := Some (hash toClaimTx);
                   upd_toClaimTx := Some toClaimTx |})
  end.

(** The [switch (swap.status)]: the action chosen and the wrapper it is
    handed to. The wrappers ([withInterval], [withLock]) belong to the
    store; a status without a case yields nothing. *)
Definition performNextSwapAction (swap : SwapHistoryItem)
    : option (Scheduling * M W (option Updates)) :=
  let s := status swap in
  if String.eqb s "INITIATED" then
    Some (Direct, reportInitiation swap)
  else if String.eqb s "INITIATION_REPORTED" then
    Some (WithInterval, confirmInitiation swap)
  else if String.eqb s "INITIATION_CONFIRMED" then
    Some (WithLock (from swap), fundSwap swap)
  else if String.eqb s "FUNDED" then
    Some (WithInterval, findCounterPartyInitiation swap)
  else if String.eqb s "CONFIRM_COUNTER_PARTY_INITIATION" then
    Some (WithInterval, confirmCounterPartyInitiation swap)
  else if String.eqb s "READY_TO_CLAIM" then
    Some (WithLock (to swap), claimSwap swap)
  else if String.eqb s "WAITING_FOR_CLAIM_CONFIRMATIONS" then
    Some (WithInterval, waitForClaimConfirmations swap)
  else if String.eqb s "WAITING_FOR_REFUND" then
    Some (WithInterval, waitForRefund swap)
  else if String.eqb s "GET_REFUND" then
    Some (WithLock (from swap), refundSwap swap)
  else if String.eqb s "WAITING_FOR_REFUND_CONFIRMATIONS" then
    Some (WithInterval, waitForRefundConfirmations swap)
  else None.

(** One evaluation of the action selected for the swap's status. *)
Definition transition (swap : SwapHistoryItem) : M W (option Updates) :=
  match performNextSwapAction swap with
  | Some (_, action) => action
  | None => ret None
  end.
End Provider.

Definition pending (n : Z) (text : string) (notify : bool) : SwapStatus :=
  {| step := n; label := text; filterStatus := "PENDING"; notification := notify |}.

Definition _getStatuses : gmap string SwapStatus :=
  list_to_map
    [ ("INITIATED", pending 0 "Locking {from}" false);
      ("INITIATION_REPORTED", pending 0 "Locking {from}" true);
      ("INITIATION_CONFIRMED", pending 0 "Locking {from}" false);
      ("FUNDED", pending 1 "Locking {to}" false);
      ("CONFIRM_COUNTER_PARTY_INITIATION", pending 1 "Locking {to}" true);
      ("READY_TO_CLAIM", pending 2 "Claiming {to}" true);
      ("WAITING_FOR_CLAIM_CONFIRMATIONS", pending 2 "Claiming {to}" false);
      ("WAITING_FOR_REFUND", pending 2 "Pending Refund" false);
      ("GET_REFUND", pending 2 "Refunding {from}" false);
      ("WAITING_FOR_REFUND_CONFIRMATIONS", pending 2 "Refunding {from}" false);
      ("REFUNDED",
        {| step := 3; label := "Refunded"; filterStatus := "REFUNDED";
           notification := true |});
      ("SUCCESS",
        {| step := 3; label := "Completed"; filterStatus := "COMPLETED";
           notification := true |});
      ("QUOTE_EXPIRED",
        {| step := 3; label := "Quote Expired"; filterStatus := "REFUNDED";
           notification := false |}) ].

Definition _totalSteps : Z := 4.

(** *** Markets, quotes and fee estimates

    The agent's market list ([getMarketInfo], an HTTP request) and the
    store's market data ([getMarketData]) are passed in; amounts that the
    source prints with [toFixed()] are kept as numbers. *)

Inductive LiqualityTxTypes := SWAP_INITIATION | SWAP_CLAIM.

(** An entry of the agent's [/api/swap/marketinfo]. *)
Record LiqualityMarketData := {
  lm_from : Asset;
  lm_to : Asset;
  lm_min : BN.t;
  lm_max : BN.t;
  lm_rate : BN.t
}.

(** An entry of the store's market data ([getMarketData(network)]). *)
Record MarketData := {
  md_provider : string;
  md_from : Asset;
  md_to : Asset;
  md_min : BN.t;
  md_max : BN.t;
  md_rate : BN.t
}.

Record Pair := {
  p_from : Asset;
  p_to : Asset;
  p_min : BN.t;
  p_max : BN.t;
  p_rate : BN.t;
  p_provider : string
}.

Record Quote := {
  q_from : Asset;
  q_to : Asset;
  q_fromAmount : BN.t;
  q_toAmount : BN.t
}.

(** [EstimateFeeResponse], a record keyed by numbers
    [{ [price: number]: BigNumber }], is a [gmap Qc (option BN.t)]: equal
    numbers are one key, and a fee may be [NaN] (here [None]). *)

(** The transactions handed to the client's [getTotalFees]. *)
Record FeeRequest := { fr_value : option BN.t; fr_fee : BN.t }.

Definition feeUnits (txType : LiqualityTxTypes) : option Fees.FeeUnits :=
  match txType with
  | SWAP_INITIATION =>
      Some (list_to_map
              [ ("ETH", 165000); ("RBTC", 165000); ("BNB", 165000);
                ("NEAR", 10000000000000); ("SOL", 2); ("LUNA", 800000);
                ("UST", 800000); ("MATIC", 165000);
                ("ERC20", 600000 + 94500); (* Contract creation + erc20 transfer *)
                ("ARBETH", 2400000); ("AVAX", 165000) ])
  | SWAP_CLAIM =>
      Some (list_to_map
              [ ("BTC", 143); ("ETH", 45000); ("RBTC", 45000); ("BNB", 45000);
                ("MATIC", 45000); ("NEAR", 8000000000000); ("SOL", 1);
                ("LUNA", 800000); ("UST", 800000); ("ERC20", 100000);
                ("ARBETH", 680000); ("AVAX", 45000) ])
  end.

Definition _txTypes_eqb (a b : LiqualityTxTypes) : bool :=
  match a, b with
  | SWAP_INITIATION, SWAP_INITIATION | SWAP_CLAIM, SWAP_CLAIM => true
  | _, _ => false
  end.

Definition _fromTxType : option LiqualityTxTypes := Some SWAP_INITIATION.
Definition _toTxType : option LiqualityTxTypes := Some SWAP_CLAIM.
Definition _timelineDiagramSteps : list string :=
  ["INITIATION"; "AGENT_INITIATION"; "CLAIM_OR_REFUND"].

Section Quotes.
Context {W : Type} (cat : Catalog).
Context (isEthereumChain : Asset -> bool).
Context (providerId : string).                        (* this.config.providerId *)
Context (network : Network) (walletId : WalletId).

(** [markets.filter(...)] of [getSupportedPairs] *)
Definition listed (market : LiqualityMarketData) : bool :=
  bool_decide (is_Some (cryptoassets cat !! lm_from market))
  && bool_decide (is_Some (cryptoassets cat !! lm_to market)).

(** The function mapped over the markets kept. *)
Definition pairOf (market : LiqualityMarketData) : Result Pair :=
  match cryptoassets cat !! lm_from market with
  | Some fromInfo =>
      Ok {| p_from := lm_from market;
            p_to := lm_to market;
            p_min := unitToCurrency fromInfo (lm_min market);
            p_max := unitToCurrency fromInfo (lm_max market);
            p_rate := lm_rate market;
            p_provider := providerId |}
  | None => Throw TypeError
  end.

(** [xs.map(f)] for an [f] that may throw. *)
Fixpoint mapResult {A B} (f : A -> Result B) (xs : list A) : Result (list B) :=
  match xs with
  | [] => Ok []
  | x :: rest =>
      match f x with
      | Ok y =>
          match mapResult f rest with
          | Ok ys => Ok (y :: ys)
          | Throw e => Throw e
          end
      | Throw e => Throw e
      end
  end.

Definition supportedPairs (markets : list LiqualityMarketData) : Result (list Pair) :=
  mapResult pairOf (List.filter listed markets).

Definition getSupportedPairs (getMarketInfo : M W (list LiqualityMarketData))
    : M W (list Pair) :=
  markets <- getMarketInfo ;;
  lift (supportedPairs markets).

Definition getQuote (marketData : list MarketData) (from to : Asset) (amount : BN.t)
    : Result (option Quote) :=
  (* Quotes are retrieved using market data because direct quotes take a long
     time for BTC swaps (agent takes long to generate new address) *)
  match List.find
          (fun market =>
             String.eqb (md_provider market) providerId
             && String.eqb (md_to market) to
             && String.eqb (md_from market) from
             && BN.gte amount (md_min market)
             && BN.lte amount (md_max market))
          marketData with
  | None => Ok None
  | Some market =>
      match cryptoassets cat !! from with
      | None => Throw TypeError
      | Some fromInfo =>
          let fromAmount := currencyToUnit fromInfo amount in
          match cryptoassets cat !! to with
          | None => Throw TypeError
          | Some toInfo =>
              let toAmount := currencyToUnit toInfo (BN.times amount (md_rate market)) in
              Ok (Some {| q_from := from; q_to := to;
                          q_fromAmount := fromAmount; q_toAmount := toAmount |})
          end
      end
  end.

(** [for (const feePrice of feePrices) fees[feePrice] = fee(feePrice)] *)
Fixpoint feesFor (fee : BN.t -> Result (option BN.t)) (feePrices : list BN.t)
    (fees : gmap Qc (option BN.t)) : Result (gmap Qc (option BN.t)) :=
  match feePrices with
  | [] => Ok fees
  | feePrice :: rest =>
      match fee feePrice with
      | Ok f => feesFor fee rest (<[Q2Qc feePrice := f]> fees)
      | Throw e => Throw e
      end
  end.

Definition estimateFees
    (getTotalFees : ClientId -> list FeeRequest -> bool -> M W (gmap Qc BN.t))
    (asset : Asset) (txType : LiqualityTxTypes)
    (quote : SwapHistoryItem) (feePrices : list BN.t) (max : bool)
    : M W (gmap Qc (option BN.t)) :=
  if _txTypes_eqb txType SWAP_INITIATION && String.eqb asset "BTC" then
    let client := getClient network walletId asset (fromAccountId quote) in
    let value := if max then None else Some (fromAmount quote) in
    let txs := List.map (fun fee => {| fr_value := value; fr_fee := fee |}) feePrices in
    totalFees <- getTotalFees client txs max ;;
    if decide (totalFees = ∅) then ret ∅
    else
      match cryptoassets cat !! asset with
      | Some info => ret ((fun f => Some (unitToCurrency info f)) <$> totalFees)
      | None => throw TypeError
      end
  else if _txTypes_eqb txType SWAP_INITIATION && String.eqb asset "NEAR" then
    (* default storage fee recommended by NEAR dev team
       It leaves 0.02$ dust in the wallet on max value *)
    let storageFee := 0.00125%Q in
    match feeUnits txType with
    | Some units =>
        lift (feesFor
                (fun feePrice =>
                   match Fees.getTxFee cat isEthereumChain units asset feePrice with
                   | Ok fee => Ok (match fee with
                                   | Some f => Some (BN.plus f storageFee)
                                   | None => None
                                   end)
                   | Throw e => Throw e
                   end)
                feePrices ∅)
    | None => if decide (feePrices = []) then ret ∅ else throw TypeError
    end
  else
    match feeUnits txType with
    | Some units =>
        lift (feesFor (Fees.getTxFee cat isEthereumChain units asset) feePrices ∅)
    | None =>
        lift (feesFor (fun _ => Ok (Some 0%Q)) feePrices ∅)
    end.
End Quotes.

End Liquality.

(** ** ThorchainSwapProvider *)
Module Thorchain.

(** Pool balances are denominated with 8 decimals *)
Definition THORCHAIN_DECIMAL : Z := 8.

(** [BaseAmount] of @xchainjs/xchain-util: [baseAmount(value, decimal)] keeps
    an integral amount, [fixedBN(value, 0)]. *)
Record BaseAmount := { amount : Z; decimal : Z }.

Definition baseAmount (v : BN.t) (decimal : Z) : BaseAmount :=
  {| amount := BN.round BN.ROUNDING_MODE v; decimal := decimal |}.

(** [Asset] of xchain-util, as [assetFromString] parses it. *)
Record ThorAsset := { ta_chain : string; ta_symbol : string; ta_ticker : string }.

(** Library functions the provider calls and the network table. *)
Record Libs := {
  assetFromString : string -> option ThorAsset;
  getSwapMemo : ThorAsset -> string -> BaseAmount -> string;
  toUpperCase : string -> string;
  hexEncode : string -> string;                              (* Buffer.from(s).toString('hex') *)
  chainIdOf : string -> Network -> option Z;                 (* ChainNetworks[chain][network].chainId *)
  encodeApprove : Result string -> Z -> Result string;       (* erc20 approve(router, amount) *)
  encodeDeposit : string -> string -> Z -> string -> Result string
                                                             (* router deposit(vault, asset, amount, memo) *)
}.

Record SwapHistoryItem := {
  from : Asset;
  to : Asset;
  fromAmount : BN.t;
  toAmount : BN.t;
  fromAccountId : AccountId;
  toAccountId : AccountId;
  fee : Z;
  status : string;
  receiveFee : BN.t;
  slippage : BN.t;
  maxFeeSlippageMultiplier : Z;
  approveTxHash : string;
  fromFundHash : string
}.

Record Updates := {
  upd_status : option string;
  upd_endTime : option Z;
  upd_approveTx : option Transaction;
  upd_approveTxHash : option string;
  upd_fromFundTx : option Transaction;
  upd_fromFundHash : option string;
  upd_receiveTxHash : option string;
  upd_receiveTx : option Transaction
}.

(** [{ status }] *)
Definition statusOnly (s : string) : Updates :=
  {| upd_status := Some s; upd_endTime := None;
     upd_approveTx := None; upd_approveTxHash := None;
     upd_fromFundTx := None; upd_fromFundHash := None;
     upd_receiveTxHash := None; upd_receiveTx := None |}.

(** [{ endTime, status }] *)
Definition stamped (t : Z) (s : string) : Updates :=
  {| upd_status := Some s; upd_endTime := Some t;
     upd_approveTx := None; upd_approveTxHash := None;
     upd_fromFundTx := None; upd_fromFundHash := None;
     upd_receiveTxHash := None; upd_receiveTx := None |}.

(** [{ id, fee, slippage, ...updates }] *)
Record NewSwap := {
  ns_id : string;
  ns_fee : Z;
  ns_slippage : BN.t;
  ns_updates : Updates
}.

Record SwapStatus := {
  step : Z;
  label : string;
  filterStatus : string;
  notification : bool
}.

Inductive Scheduling :=
| WithInterval
| WithLock (asset : Asset).

(** [OUT_MEMO_TO_STATUS[memoAction]] *)
Definition OUT_MEMO_TO_STATUS (memoAction : string) : option string :=
  if String.eqb memoAction "OUT" then Some "SUCCESS"
  else if String.eqb memoAction "REFUND" then Some "REFUNDED"
  else None.

(** [memo.split(':')[0]] *)
Fixpoint beforeColon (s : string) : string :=
  match s with
  | EmptyString => EmptyString
  | String c rest =>
      if Ascii.eqb c ":"%char then EmptyString else String c (beforeColon rest)
  end.

Definition convertBaseAmountDecimal (a : BaseAmount) (decimal : Z) : BaseAmount :=
  let decimalDiff := decimal - Thorchain.decimal a in
  let amountBN :=
    if decimalDiff <? 0 then
      BN.decimalPlaces 0 BN.ROUND_DOWN
        (BN.dividedBy (inject_Z (amount a)) (inject_Z (10 ^ (decimalDiff * -1))))
    else BN.multipliedBy (inject_Z (amount a)) (inject_Z (10 ^ decimalDiff)) in
  baseAmount amountBN decimal.

(** Lines 407-412 of [makeMemo]: the floor on the output, in units of the
    [to] asset. *)
Definition minimumOutput (toAmount receiveFee slippage : BN.t) (decimals : Z) : BN.t :=
  (* Substract swap.receiveFee from toAmount as this is the minimum limit
     that you are going to receive *)
  let baseOutputAmount := baseAmount (BN.minus toAmount receiveFee) decimals in
  let slippageCoefficient := BN.minus 1%Q slippage in
  BN.dp 0 (BN.multipliedBy (inject_Z (amount baseOutputAmount)) slippageCoefficient).

(** Line 413: the limit handed to [getSwapMemo]. *)
Definition memoLimit (swap : SwapHistoryItem) (decimals : Z) : BaseAmount :=
  convertBaseAmountDecimal
    (baseAmount (minimumOutput (toAmount swap) (receiveFee swap) (slippage swap) decimals)
       decimals)
    8.

Definition inboundMissing (chain : string) : JsError :=
  Error ("ThorchainSwapProvider: Inbound address for chain " +:+ chain +:+ " not found").
Definition routerMissing (chain : string) : JsError :=
  Error ("ThorchainSwapProvider: Router address for chain " +:+ chain +:+ " not found").
Definition assetMissing : JsError := Error "Thorchain asset does not exist".
Definition notSent : JsError :=
  Error "ThorchainSwapProvider: Did not send swap transaction".
Definition unknownMemoAction (memoAction : string) : JsError :=
  Error ("ThorchainSwapProvider: Unknown memo action " +:+ memoAction +:+ ".").
Definition invalidBigNumber : JsError :=
  {| name := "Error"; message := "invalid BigNumber string"; response_error := None |}.

Definition isTxNotFound (e : JsError) : bool :=
  String.eqb (name e) "TxNotFoundError".

(** [ethers.BigNumber.from(new BN(x).toFixed())]: integers only. *)
Definition ethersBigNumberFrom (x : BN.t) : Result Z :=
  let r := Qred x in
  if Pos.eqb (Qden r) 1 then Ok (Qnum r) else Throw invalidBigNumber.

Section Provider.
Context {W : Type} (E : Collaborators W) (cat : Catalog) (lib : Libs).
Context (network : Network) (walletId : WalletId).

Definition assetInfo (asset : Asset) : Result AssetInfo :=
  match cryptoassets cat !! asset with
  | Some info => Ok info
  | None => Throw TypeError
  end.

Definition chainInfo (chain : string) : Result ChainInfo :=
  match chains cat !! chain with
  | Some info => Ok info
  | None => Throw TypeError
  end.

(** [cryptoassets[asset].contractAddress!] where a string is required *)
Definition contractAddressOf (asset : Asset) : Result string :=
  match assetInfo asset with
  | Ok info =>
      match contractAddress info with
      | Some a => Ok a
      | None => Throw TypeError
      end
  | Throw e => Throw e
  end.

Definition toThorchainAsset (asset : Asset) : Result string :=
  if isERC20 cat asset then
    match contractAddressOf asset with
    | Ok a => Ok ("ETH." +:+ asset +:+ "-" +:+ toUpperCase lib a)
    | Throw e => Throw e
    end
  else Ok (asset +:+ "." +:+ asset).

(** [assetFromString(toThorchainAsset(asset))] with its null check *)
Definition thorchainAssetOf (asset : Asset) : M W ThorAsset :=
  text <- lift (toThorchainAsset asset) ;;
  match assetFromString lib text with
  | Some a => ret a
  | None => throw assetMissing
  end.

(** An async call that is not awaited: the request goes out, its
    outcome stays inside the promise. *)
Definition promise {A} (m : M W A) : M W (Result A) :=
  fun s => let (r, s') := m s in (Ok r, s').

Definition _getInboundAddresses : M W (list ThorchainInboundAddress) :=
  call EvThornodeInboundAddresses (thornodeInboundAddresses E).

Definition _getTransaction (txHash : string)
    : M W (option ThorchainTransactionResponse) :=
  catch (call (EvThornodeTx txHash) (thornodeTx E txHash))
    (fun _ => (* Error means tx not found *) ret None).

Definition getInboundAddress (chain : string) : M W ThorchainInboundAddress :=
  inboundAddresses <- _getInboundAddresses ;;
  match List.find (fun inbound => String.eqb (ia_chain inbound) chain) inboundAddresses with
  | Some inboundAddress => ret inboundAddress
  | None => throw (inboundMissing chain)
  end.

Definition getRouterAddress (chain : string) : M W string :=
  inboundAddress <- getInboundAddress chain ;;
  match ia_router inboundAddress with
  | Some router => if String.eqb router "" then throw (routerMissing chain) else ret router
  | None => throw (routerMissing chain)
  end.

Definition approveTokens (swap : SwapHistoryItem) : M W Updates :=
  info <- lift (assetInfo (from swap)) ;;
  let fromChain := chain info in
  _ <- lift (match chainIdOf lib fromChain network with
             | Some id => Ok id
             | None => Throw TypeError
             end) ;;
  token <- lift (contractAddressOf (from swap)) ;;
  fromThorchainAsset <- thorchainAssetOf (from swap) ;;
  routerAddress <- promise (getRouterAddress (ta_chain fromThorchainAsset)) ;;
  fromAddressRaw <- call (EvGetSwapAddress (from swap) (toAccountId swap))
                      (getSwapAddress E network walletId (from swap) (toAccountId swap)) ;;
  fromChainInfo <- lift (chainInfo fromChain) ;;
  let fromAddress := formatAddress fromChainInfo fromAddressRaw network in
  allowed <- call (EvAllowance (from swap) fromAddress)
               (allowance E (from swap) fromAddress routerAddress) ;;
  inputAmount <- lift (ethersBigNumberFrom (fromAmount swap)) ;;
  if allowed >=? inputAmount then ret (statusOnly "APPROVE_CONFIRMED")
  else
    encodedData <- lift (encodeApprove lib routerAddress inputAmount) ;;
    let client := getClient network walletId (from swap) (fromAccountId swap) in
    let request := {| tr_to := token; tr_value := 0%Q; tr_data := encodedData;
                      tr_fee := fee swap |} in
    approveTx <- call (EvSendTransaction client request)
                   (chain_sendTransaction E client request) ;;
    ret {| upd_status := Some "WAITING_FOR_APPROVE_CONFIRMATIONS";
           upd_endTime := None;
           upd_approveTx := Some approveTx;
           upd_approveTxHash := Some (hash approveTx);
           upd_fromFundTx := None; upd_fromFundHash := None;
           upd_receiveTxHash := None; upd_receiveTx := None |}.

Definition sendBitcoinSwap (quote : SwapHistoryItem) (memo : string)
    : M W Transaction :=
  call (EvLedgerNotification (fromAccountId quote) "Signing required to complete the swap.")
    (sendLedgerNotification E (fromAccountId quote)
       "Signing required to complete the swap.") ;;;
  fromThorchainAsset <- thorchainAssetOf (from quote) ;;
  inbound <- getInboundAddress (ta_chain fromThorchainAsset) ;;
  let to := ia_address inbound in (* Will be `router` for ETH *)
  let value := fromAmount quote in
  let encodedMemo := hexEncode lib memo in
  let client := getClient network walletId (from quote) (fromAccountId quote) in
  let request := {| tr_to := to; tr_value := value; tr_data := encodedMemo;
                    tr_fee := fee quote |} in
  call (EvSendTransaction client request) (chain_sendTransaction E client request).

Definition sendEthereumSwap (quote : SwapHistoryItem) (memo : string)
    : M W Transaction :=
  call (EvLedgerNotification (fromAccountId quote) "Signing required to complete the swap.")
    (sendLedgerNotification E (fromAccountId quote)
       "Signing required to complete the swap.") ;;;
  fromThorchainAsset <- thorchainAssetOf (from quote) ;;
  routerAddress <- getRouterAddress (ta_chain fromThorchainAsset) ;;
  info <- lift (assetInfo (from quote)) ;;
  _ <- lift (match chainIdOf lib (chain info) network with
             | Some id => Ok id
             | None => Throw TypeError
             end) ;;
  tokenAddress <- (if isERC20 cat (from quote)
                   then lift (contractAddressOf (from quote))
                   else ret "0x0000000000000000000000000000000000000000") ;;
  amountHex <- lift (ethersBigNumberFrom (fromAmount quote)) ;;
  inbound <- getInboundAddress (ta_chain fromThorchainAsset) ;;
  let to := ia_address inbound in
  encodedData <- lift (encodeDeposit lib to tokenAddress amountHex memo) ;;
  let value := if isERC20 cat (from quote) then 0%Q else fromAmount quote in
  let client := getClient network walletId (from quote) (fromAccountId quote) in
  let request := {| tr_to := routerAddress; tr_value := value; tr_data := encodedData;
                    tr_fee := fee quote |} in
  call (EvSendTransaction client request) (chain_sendTransaction E client request).

Definition makeMemo (swap : SwapHistoryItem) : M W string :=
  toInfo <- lift (assetInfo (to swap)) ;;
  let toChain := chain toInfo in
  toAddressRaw <- call (EvGetSwapAddress (to swap) (toAccountId swap))
                    (getSwapAddress E network walletId (to swap) (toAccountId swap)) ;;
  toChainInfo <- lift (chainInfo toChain) ;;
  let toAddress := formatAddress toChainInfo toAddressRaw network in
  let limit := memoLimit swap (decimals toInfo) in
  thorchainAsset <- thorchainAssetOf (to swap) ;;
  ret (getSwapMemo lib thorchainAsset toAddress limit).

Definition sendSwap (swap : SwapHistoryItem) : M W Updates :=
  memo <- makeMemo swap ;;
  fromFundTx <-
    (if String.eqb (from swap) "BTC" then
       sent <- sendBitcoinSwap swap memo ;; ret (Some sent)
     else if String.eqb (from swap) "ETH" || isERC20 cat (from swap) then
       sent <- sendEthereumSwap swap memo ;; ret (Some sent)
     else ret None) ;;
  match fromFundTx with
  | None => throw notSent
  | Some fromFundTx =>
      ret {| upd_status := Some "WAITING_FOR_SEND_CONFIRMATIONS";
             upd_endTime := None;
             upd_approveTx := None; upd_approveTxHash := None;
             upd_fromFundTx := Some fromFundTx;
             upd_fromFundHash := Some (hash fromFundTx);
             upd_receiveTxHash := None; upd_receiveTx := None |}
  end.

Definition newSwap (quote : SwapHistoryItem) : M W NewSwap :=
  let approvalRequired := isERC20 cat (from quote) in
  updates <- (if approvalRequired then approveTokens quote else sendSwap quote) ;;
  id <- freshUuid E ;;
  ret {| ns_id := id;
         ns_fee := fee quote;
         ns_slippage := 50%Q;
         ns_updates := updates |}.

Definition waitForApproveConfirmations (swap : SwapHistoryItem)
    : M W (option Updates) :=
  let client := getClient network walletId (from swap) (fromAccountId swap) in
  catch
    (tx <- chainGetTransactionByHash E client (approveTxHash swap) ;;
     if hasConfirmations tx then
       t <- dateNow E ;;
       ret (Some (stamped t "APPROVE_CONFIRMED"))
     else ret None)
    (fun e => if isTxNotFound e then consoleWarn e ;;; ret None else throw e).

Definition waitForSendConfirmations (swap : SwapHistoryItem)
    : M W (option Updates) :=
  let client := getClient network walletId (from swap) (fromAccountId swap) in
  catch
    (tx <- chainGetTransactionByHash E client (fromFundHash swap) ;;
     if hasConfirmations tx then
       t <- dateNow E ;;
       ret (Some (stamped t "WAITING_FOR_RECEIVE"))
     else ret None)
    (fun e => if isTxNotFound e then consoleWarn e ;;; ret None else throw e).

(** [thorchainTx?.observed_tx?.out_hashes?.[0]], when truthy *)
Definition firstOutHash (t : option ThorchainTransactionResponse) : option string :=
  match t with
  | Some r =>
      match observed_tx r with
      | Some o =>
          match out_hashes o with
          | Some (h :: _) => if String.eqb h "" then None else Some h
          | _ => None
          end
      | None => None
      end
  | None => None
  end.

(** [thorchainReceiveTx.observed_tx?.tx?.memo] *)
Definition memoOf (r : ThorchainTransactionResponse) : option string :=
  match observed_tx r with
  | Some o =>
      match ot_tx o with
      | Some t => Some (memo t)
      | None => None
      end
  | None => None
  end.

Definition waitForReceive (swap : SwapHistoryItem) : M W (option Updates) :=
  catch
    (thorchainTx <- _getTransaction (fromFundHash swap) ;;
     match firstOutHash thorchainTx with
     | Some receiveHash =>
         thorchainReceiveTx <- _getTransaction receiveHash ;;
         match thorchainReceiveTx with
         | Some thorchainReceiveTx =>
             memo <- lift (match memoOf thorchainReceiveTx with
                           | Some m => Ok m
                           | None => Throw TypeError
                           end) ;;
             let memoAction := beforeColon memo in
             target <-
               (if String.eqb memoAction "OUT" then
                  ret (to swap, toAccountId swap)
                else if String.eqb memoAction "REFUND" then
                  ret (from swap, fromAccountId swap)
                else throw (unknownMemoAction memoAction)) ;;
             let asset := fst target in
             let accountId := snd target in
             let client := getClient network walletId asset accountId in
             receiveTx <- chainGetTransactionByHash E client receiveHash ;;
             if hasConfirmations receiveTx then
               match receiveTx with
               | Some receiveTx =>
                   startUpdateBalances E network walletId [asset] ;;;
                   let status := OUT_MEMO_TO_STATUS memoAction in
                   t <- dateNow E ;;
                   ret (Some {| upd_status := status;
                                upd_endTime := Some t;
                                upd_approveTx := None; upd_approveTxHash := None;
                                upd_fromFundTx := None; upd_fromFundHash := None;
                                upd_receiveTxHash := Some (hash receiveTx);
                                upd_receiveTx := Some receiveTx |})
               | None => throw TypeError
               end
             else
               match receiveTx with
               | Some receiveTx =>
                   ret (Some {| upd_status := None;
                                upd_endTime := None;
                                upd_approveTx := None; upd_approveTxHash := None;
                                upd_fromFundTx := None; upd_fromFundHash := None;
                                upd_receiveTxHash := Some (hash receiveTx);
                                upd_receiveTx := Some receiveTx |})
               | None => throw TypeError
               end
         | None => ret None
         end
     | None => ret None
     end)
    (fun e => if isTxNotFound e then consoleWarn e ;;; ret None else throw e).

(** The [switch (swap.status)]: the action chosen and the store wrapper
    it is handed to; a status without a case yields nothing. *)
Definition performNextSwapAction (swap : SwapHistoryItem)
    : option (Scheduling * M W (option Updates)) :=
  let s := status swap in
  if String.eqb s "WAITING_FOR_APPROVE_CONFIRMATIONS" then
    Some (WithInterval, waitForApproveConfirmations swap)
  else if String.eqb s "APPROVE_CONFIRMED" then
    Some (WithLock (from swap), updates <- sendSwap swap ;; ret (Some updates))
  else if String.eqb s "WAITING_FOR_SEND_CONFIRMATIONS" then
    Some (WithInterval, waitForSendConfirmations swap)
  else if String.eqb s "WAITING_FOR_RECEIVE" then
    Some (WithInterval, waitForReceive swap)
  else None.

(** One evaluation of the action selected for the swap's status. *)
Definition transition (swap : SwapHistoryItem) : M W (option Updates) :=
  match performNextSwapAction swap with
  | Some (_, action) => action
  | None => ret None
  end.
End Provider.

Definition pending (n : Z) (text : string) (notify : bool) : SwapStatus :=
  {| step := n; label := text; filterStatus := "PENDING"; notification := notify |}.

Definition _getStatuses : gmap string SwapStatus :=
  list_to_map
    [ ("WAITING_FOR_APPROVE_CONFIRMATIONS", pending 0 "Approving {from}" true);
      ("APPROVE_CONFIRMED", pending 1 "Swapping {from}" false);
      ("WAITING_FOR_SEND_CONFIRMATIONS", pending 1 "Swapping {from}" true);
      ("WAITING_FOR_RECEIVE", pending 2 "Swapping {from}" false);
      ("SUCCESS",
        {| step := 3; label := "Completed"; filterStatus := "COMPLETED";
           notification := true |});
      ("REFUNDED",
        {| step := 3; label := "Refunded"; filterStatus := "REFUNDED";
           notification := true |}) ].

Definition _totalSteps : Z := 4.

End Thorchain.

(** ** Assertions on methods *)
Section Assertions.
Context {W : Type}.

(** [triple P m Q]: along every run of [m], if the events so far satisfy
    [P] then so do the events after it, and its outcome satisfies [Q]. *)
Definition triple {A} (P : Event -> Prop) (m : M W A) (Q : Result A -> Prop) : Prop :=
  forall w tr r w' tr',
    m (w, tr) = (r, (w', tr')) -> Forall P tr -> Q r /\ Forall P tr'.

(** A condition on the value of a method that returns. *)
Definition returning {A} (Q : A -> Prop) (r : Result A) : Prop :=
  match r with
  | Ok a => Q a
  | Throw _ => True
  end.
End Assertions.

Definition not_submission (ev : Event) : Prop := is_submission ev = false.

(** A trace condition that holds of every event that puts nothing on a
    chain. *)
Definition passive (P : Event -> Prop) : Prop :=
  forall ev, is_submission ev = false -> P ev.

(** ** Transition paths *)

(** [s'] is reachable from [s] in one step when, in some world, the action
    selected for a swap in status [s] returns an update to status [s']. *)
Definition liquality_edge (s s' : string) : Prop :=
  exists (W : Type) (E : Collaborators W) (cat : Catalog)
         (network : Network) (walletId : WalletId)
         (swap : Liquality.SwapHistoryItem) (st st' : St W) (u : Liquality.Updates),
    Liquality.status swap = s
    /\ Liquality.transition E cat network walletId swap st = (Ok (Some u), st')
    /\ Liquality.upd_status u = Some s'.

Definition thorchain_edge (s s' : string) : Prop :=
  exists (W : Type) (E : Collaborators W) (cat : Catalog) (lib : Thorchain.Libs)
         (network : Network) (walletId : WalletId)
         (swap : Thorchain.SwapHistoryItem) (st st' : St W) (u : Thorchain.Updates),
    Thorchain.status swap = s
    /\ Thorchain.transition E cat lib network walletId swap st = (Ok (Some u), st')
    /\ Thorchain.upd_status u = Some s'.

(** Step indices read off the status tables; a status outside the table has
    none. *)
Definition liquality_step (s : string) : option Z :=
  Liquality.step <$> Liquality._getStatuses !! s.

Definition thorchain_step (s : string) : option Z :=
  Thorchain.step <$> Thorchain._getStatuses !! s.

(** A status of the table from which no action is selected. *)
Definition liquality_terminal (s : string) : Prop :=
  is_Some (Liquality._getStatuses !! s)
  /\ forall (W : Type) (E : Collaborators W) cat network walletId swap,
       Liquality.status swap = s ->
       Liquality.performNextSwapAction E cat network walletId swap = None.

Definition thorchain_terminal (s : string) : Prop :=
  is_Some (Thorchain._getStatuses !! s)
  /\ forall (W : Type) (E : Collaborators W) cat lib network walletId swap,
       Thorchain.status swap = s ->
       Thorchain.performNextSwapAction E cat lib network walletId swap = None.

(** The statuses an update may carry; an update without a status, or no
    update, carries none. *)
Definition liquality_statusIn (l : list string) (o : option Liquality.Updates) : Prop :=
  match o with
  | Some u => match Liquality.upd_status u with Some s => s ∈ l | None => True end
  | None => True
  end.

Definition thorchain_statusIn (l : list string) (o : option Thorchain.Updates) : Prop :=
  match o with
  | Some u => match Thorchain.upd_status u with Some s => s ∈ l | None => True end
  | None => True
  end.

(** An update that sets [endTime] carries a final status. *)
Definition liquality_final_if_ended (o : option Liquality.Updates) : Prop :=
  match o with
  | Some u =>
      match Liquality.upd_endTime u with
      | Some _ => Liquality.upd_status u = Some "SUCCESS"
                  \/ Liquality.upd_status u = Some "REFUNDED"
      | None => True
      end
  | None => True
  end.

Definition thorchain_final_if_ended (o : option Thorchain.Updates) : Prop :=
  match o with
  | Some u =>
      match Thorchain.upd_endTime u with
      | Some _ => Thorchain.upd_status u = Some "SUCCESS"
                  \/ Thorchain.upd_status u = Some "REFUNDED"
      | None => True
      end
  | None => True
  end.

(** The statuses the handler selected for a status can move the swap to,
    read off the [return] statements of the handlers; the lemmas on the
    statuses returned show that no other status can be returned. *)
Definition liquality_targets (s : string) : list string :=
  if String.eqb s "INITIATED" then ["WAITING_FOR_REFUND"; "INITIATION_REPORTED"]
  else if String.eqb s "INITIATION_REPORTED" then
    ["CONFIRM_COUNTER_PARTY_INITIATION"; "GET_REFUND"; "WAITING_FOR_REFUND";
     "INITIATION_CONFIRMED"]
  else if String.eqb s "INITIATION_CONFIRMED" then ["QUOTE_EXPIRED"; "FUNDED"]
  else if String.eqb s "FUNDED" then
    ["CONFIRM_COUNTER_PARTY_INITIATION"; "GET_REFUND"; "WAITING_FOR_REFUND"]
  else if String.eqb s "CONFIRM_COUNTER_PARTY_INITIATION" then
    ["READY_TO_CLAIM"; "GET_REFUND"; "WAITING_FOR_REFUND"]
  else if String.eqb s "READY_TO_CLAIM" then
    ["GET_REFUND"; "WAITING_FOR_REFUND"; "WAITING_FOR_CLAIM_CONFIRMATIONS"]
  else if String.eqb s "WAITING_FOR_CLAIM_CONFIRMATIONS" then
    ["SUCCESS"; "GET_REFUND"; "WAITING_FOR_REFUND"]
  else if String.eqb s "WAITING_FOR_REFUND" then ["GET_REFUND"]
  else if String.eqb s "GET_REFUND" then ["WAITING_FOR_REFUND_CONFIRMATIONS"]
  else if String.eqb s "WAITING_FOR_REFUND_CONFIRMATIONS" then ["REFUNDED"]
  else [].

Definition thorchain_targets (s : string) : list string :=
  if String.eqb s "WAITING_FOR_APPROVE_CONFIRMATIONS" then ["APPROVE_CONFIRMED"]
  else if String.eqb s "APPROVE_CONFIRMED" then ["WAITING_FOR_SEND_CONFIRMATIONS"]
  else if String.eqb s "WAITING_FOR_SEND_CONFIRMATIONS" then ["WAITING_FOR_RECEIVE"]
  else if String.eqb s "WAITING_FOR_RECEIVE" then ["SUCCESS"; "REFUNDED"]
  else [].

(** ** The bounded retry, after the contract

    One chain read is the block height followed by the block at that
    height. The contract of [hasChainTimePassed]: up to three reads, each
    failure but the last followed by a warning and a wait of two seconds; the
    first read that succeeds decides, and the third failure is raised. *)
Section Retry.
Context {W : Type} (E : Collaborators W).

Definition chainRead (client : ClientId) : M W Block :=
  blockNumber <- call (EvGetBlockHeight client) (chain_getBlockHeight E client) ;;
  latestBlock <- call (EvGetBlockByNumber client blockNumber)
                   (chain_getBlockByNumber E client blockNumber) ;;
  match latestBlock with
  | Some b => ret b
  | None => throw TypeError
  end.

Definition backoff (e : JsError) (s : St W) : St W :=
  (sleep E 2000 (fst s), snd s ++ [EvWarn e; EvWait 2000]).

Definition hasChainTimePassed_contract (client : ClientId) (timestamp0 : Z)
    : M W (option bool) :=
  fun s0 =>
    match chainRead client s0 with
    | (Ok b, s1) => (Ok (Some (timestamp b >? timestamp0)), s1)
    | (Throw e1, s1) =>
        match chainRead client (backoff e1 s1) with
        | (Ok b, s2) => (Ok (Some (timestamp b >? timestamp0)), s2)
        | (Throw e2, s2) =>
            match chainRead client (backoff e2 s2) with
            | (Ok b, s3) => (Ok (Some (timestamp b >? timestamp0)), s3)
            | (Throw e3, s3) => (Throw e3, s3)
            end
        end
    end.
End Retry.

(** Whether [handleExpirations] was entered in a trace. *)
Definition expiration_checked (tr : list Event) : bool :=
  existsb (fun ev => match ev with
                     | EvEnter method => String.eqb method "handleExpirations"
                     | _ => false
                     end) tr.

(** The chain reads started, and the waits made, in a trace. *)
Definition is_read (ev : Event) : bool :=
  match ev with
  | EvGetBlockHeight _ => true
  | _ => false
  end.

Definition is_wait (ev : Event) : bool :=
  match ev with
  | EvWait _ => true
  | _ => false
  end.

Definition reads (tr : list Event) : nat := length (List.filter is_read tr).
Definition waits (tr : list Event) : list Event := List.filter is_wait tr.

(** ** Ticks without news *)
Section Quiet.
Context {W : Type} (E : Collaborators W).

(** The outcome of a handler whose lookup of [h] raised [e] and that does
    nothing else: no result after a warning for a not-found, the error
    otherwise. *)
Definition tickAfter (c : ClientId) (h : string) (e : JsError) (w' : W)
    (tr : list Event) {A} : Result (option A) * St W :=
  if String.eqb (name e) "TxNotFoundError"
  then (Ok None, (w', (tr ++ [EvGetTransactionByHash c h]) ++ [EvWarn e]))
  else (Throw e, (w', tr ++ [EvGetTransactionByHash c h])).

(** A lookup without news: the transaction is not found (the client
    raises [TxNotFoundError] or answers null), or it is found with no
    confirmation yet. *)
Definition no_news (r : Result (option Transaction)) : Prop :=
  match r with
  | Throw e => name e = "TxNotFoundError"
  | Ok None => True
  | Ok (Some t) => confirmations t = Some 0 \/ confirmations t = None
  end.

Definition quiet_chain : Prop :=
  forall c h w, no_news (fst (chain_getTransactionByHash E c h w)).

(** The counterparty's HTLC is not visible. *)
Definition no_counterparty : Prop :=
  forall c p w,
    match fst (swap_findInitiateSwapTransaction E c p w) with
    | Ok None => True
    | Ok (Some _) => False
    | Throw e => Liquality.notYetVisible e = true
    end.

(** The chains answer, and their clocks have not passed the expirations
    of the swap. *)
Definition before_expirations (swap : Liquality.SwapHistoryItem) : Prop :=
  (forall c w, exists n, fst (chain_getBlockHeight E c w) = Ok n)
  /\ (forall c n w, exists b,
        fst (chain_getBlockByNumber E c n w) = Ok (Some b)
        /\ timestamp b <= Liquality.swapExpiration swap
        /\ timestamp b <= Liquality.nodeSwapExpiration swap).

(** Thornode reports no outbound transaction. *)
Definition no_outbound : Prop :=
  forall h w,
    match fst (thornodeTx E h w) with
    | Ok t => Thorchain.firstOutHash t = None
    | Throw _ => True
    end.

(** Thornode reports the outbound transaction [out] with memo [text], and
    the chain has it without a confirmation. *)
Definition outbound_unconfirmed (out text : string) : Prop :=
  (forall h w, exists t,
      fst (thornodeTx E h w) = Ok (Some t)
      /\ Thorchain.firstOutHash (Some t) = Some out
      /\ Thorchain.memoOf t = Some text)
  /\ (Thorchain.beforeColon text = "OUT" \/ Thorchain.beforeColon text = "REFUND")
  /\ (forall c h w, exists t,
        fst (chain_getTransactionByHash E c h w) = Ok (Some t)
        /\ hasConfirmations (Some t) = false).

(** [m] returns [a] from every state. *)
Definition yields {A} (m : M W A) (a : A) : Prop :=
  forall st, exists st', m st = (Ok a, st').
End Quiet.

(** The outcome of a tick without news whose lookup is not inside a [try]
    block: nothing when the client answered, the client's error otherwise. *)
Definition unguarded (lookup : Result (option Transaction))
    : Result (option Liquality.Updates) :=
  match lookup with
  | Ok _ => Ok None
  | Throw e => Throw e
  end.

(** The nearest integer, with halves away from zero. *)
Definition nearest (x : Q) : Z :=
  if Qle_bool 0 x then Qfloor (x + (1 # 2)) else - Qfloor (- x + (1 # 2)).

(** [{ receiveTxHash, receiveTx }] *)
Definition pendingReceipt (t : Transaction) : Thorchain.Updates :=
  {| Thorchain.upd_status := None;
     Thorchain.upd_endTime := None;
     Thorchain.upd_approveTx := None; Thorchain.upd_approveTxHash := None;
     Thorchain.upd_fromFundTx := None; Thorchain.upd_fromFundHash := None;
     Thorchain.upd_receiveTxHash := Some (hash t);
     Thorchain.upd_receiveTx := Some t |}.

(** ** Scripted worlds

    A world that counts the block-height reads made so far; the other
    answers are fixed by a script. *)
Module Scenario.

Record Script := {
  sc_clock : Z;                                   (* Date.now() *)
  sc_lookup : string -> Result (option Transaction);
                                                  (* getTransactionByHash, by hash *)
  sc_failedReads : nat;                           (* block-height reads that fail first *)
  sc_chainTime : Z;                               (* timestamp of the latest block *)
  sc_agent : Result LockedQuote;                  (* the agent's order *)
  sc_counterParty : Result (option Transaction);  (* findInitiateSwapTransaction *)
  sc_thornode : string -> Result (option ThorchainTransactionResponse);
  sc_allowance : Z
}.

Definition rpcError : JsError :=
  {| name := "NodeError"; message := "timeout"; response_error := None |}.

Definition txNotFound : JsError :=
  {| name := "TxNotFoundError"; message := "Transaction not found"; response_error := None |}.

Definition world (sc : Script) : Collaborators nat :=
  {| now := fun w => (sc_clock sc, w);
     sleep := fun _ w => w;
     getSwapAddress := fun _ _ asset _ w => (Ok ("addr-" +:+ asset), w);
     updateBalances := fun _ _ _ w => w;
     sendLedgerNotification := fun _ _ w => (Ok tt, w);
     chain_getTransactionByHash := fun _ h w => (sc_lookup sc h, w);
     chain_getBlockHeight := fun _ w =>
       (if (w <? sc_failedReads sc)%nat then Throw rpcError else Ok 100, S w);
     chain_getBlockByNumber := fun _ _ w =>
       (Ok (Some {| timestamp := sc_chainTime sc |}), w);
     chain_sendTransaction := fun _ _ w =>
       (Ok {| hash := "sent"; confirmations := None |}, w);
     swap_generateSecret := fun _ _ w => (Ok "secret", w);
     swap_initiateSwap := fun _ _ _ w =>
       (Ok {| hash := "fund"; confirmations := None |}, w);
     swap_fundSwap := fun _ _ _ _ w =>
       (Ok (Some {| hash := "erc20fund"; confirmations := None |}), w);
     swap_claimSwap := fun _ _ _ _ _ w =>
       (Ok {| hash := "claim"; confirmations := None |}, w);
     swap_refundSwap := fun _ _ _ _ w =>
       (Ok {| hash := "refund"; confirmations := None |}, w);
     swap_findInitiateSwapTransaction := fun _ _ w => (sc_counterParty sc, w);
     swap_verifyInitiateSwapTransaction := fun _ _ _ w => (Ok true, w);
     swap_findFundSwapTransaction := fun _ _ _ w => (Ok None, w);
     agentOrder := fun _ _ _ w => (sc_agent sc, w);
     agentUpdateOrder := fun _ w => (Ok tt, w);
     thornodeTx := fun h w => (sc_thornode sc h, w);
     thornodeInboundAddresses := fun w =>
       (Ok [ {| ia_chain := "BTC"; ia_address := "bc1vault"; ia_gas_rate := "10";
                ia_router := None |};
             {| ia_chain := "ETH"; ia_address := "0xvault"; ia_gas_rate := "30";
                ia_router := Some "0xrouter" |} ], w);
     allowance := fun _ _ _ w => (Ok (sc_allowance sc), w);
     uuidv4 := fun w => ("4b7a6f0e-0000-4000-8000-000000000001", w) |}.

Definition catalog : Catalog :=
  {| cryptoassets :=
       list_to_map
         [ ("BTC", {| chain := "bitcoin"; code := "BTC"; decimals := 8;
                      contractAddress := None |});
           ("ETH", {| chain := "ethereum"; code := "ETH"; decimals := 18;
                      contractAddress := None |});
           ("DAI", {| chain := "ethereum"; code := "DAI"; decimals := 18;
                      contractAddress := Some "0x6b17" |}) ];
     chains :=
       list_to_map
         [ ("bitcoin", {| safeConfirmations := 1; nativeAsset := "BTC";
                          formatAddress := fun a _ => a |});
           ("ethereum", {| safeConfirmations := 3; nativeAsset := "ETH";
                           formatAddress := fun a _ => a |}) ];
     isERC20 := fun asset => String.eqb asset "DAI" |}.

(** The text before, and after, the first dot of a [CHAIN.SYMBOL] name. *)
Definition chainPart (s : string) : string :=
  match String.index 0 "." s with
  | Some i => String.substring 0 i s
  | None => s
  end.

Definition symbolPart (s : string) : string :=
  match String.index 0 "." s with
  | Some i => String.substring (S i) (String.length s - S i) s
  | None => ""
  end.

(** The error of ethers' ABI coder for an address that is not a string. *)
Definition invalidAddress : JsError :=
  {| name := "Error"; message := "invalid address"; response_error := None |}.

(** The libraries: [getSwapMemo] writes [=:CHAIN.SYMBOL:address:limit];
    [encodeFunctionData('approve', ...)] is handed the router address as a
    promise that was not awaited, which the ABI coder refuses. *)
Definition libs : Thorchain.Libs :=
  {| Thorchain.assetFromString := fun s =>
       match String.index 0 "." s with
       | Some _ => Some {| Thorchain.ta_chain := chainPart s;
                           Thorchain.ta_symbol := symbolPart s;
                           Thorchain.ta_ticker := symbolPart s |}
       | None => None
       end;
     Thorchain.getSwapMemo := fun asset address limit =>
       "=:" +:+ Thorchain.ta_chain asset +:+ "." +:+ Thorchain.ta_symbol asset
         +:+ ":" +:+ address +:+ ":"
         +:+ NilZero.string_of_int (Z.to_int (Thorchain.amount limit));
     Thorchain.toUpperCase := fun s => s;
     Thorchain.hexEncode := fun s => s;
     Thorchain.chainIdOf := fun _ _ => Some 1;
     Thorchain.encodeApprove := fun _ _ => Throw invalidAddress;
     Thorchain.encodeDeposit := fun _ _ _ memo => Ok ("deposit:" +:+ memo) |}.

Definition calm : Script :=
  {| sc_clock := 1000;
     sc_lookup := fun _ => Throw txNotFound;
     sc_failedReads := 0;
     sc_chainTime := 5000;
     sc_agent := Throw rpcError;
     sc_counterParty := Ok None;
     sc_thornode := fun _ => Ok None;
     sc_allowance := 0 |}.

Definition withLookup (f : string -> Result (option Transaction)) (sc : Script) : Script :=
  {| sc_clock := sc_clock sc; sc_lookup := f;
     sc_failedReads := sc_failedReads sc; sc_chainTime := sc_chainTime sc;
     sc_agent := sc_agent sc; sc_counterParty := sc_counterParty sc;
     sc_thornode := sc_thornode sc; sc_allowance := sc_allowance sc |}.

Definition withFailedReads (n : nat) (sc : Script) : Script :=
  {| sc_clock := sc_clock sc; sc_lookup := sc_lookup sc;
     sc_failedReads := n; sc_chainTime := sc_chainTime sc;
     sc_agent := sc_agent sc; sc_counterParty := sc_counterParty sc;
     sc_thornode := sc_thornode sc; sc_allowance := sc_allowance sc |}.

Definition withChainTime (t : Z) (sc : Script) : Script :=
  {| sc_clock := sc_clock sc; sc_lookup := sc_lookup sc;
     sc_failedReads := sc_failedReads sc; sc_chainTime := t;
     sc_agent := sc_agent sc; sc_counterParty := sc_counterParty sc;
     sc_thornode := sc_thornode sc; sc_allowance := sc_allowance sc |}.

Definition withAgent (r : Result LockedQuote) (sc : Script) : Script :=
  {| sc_clock := sc_clock sc; sc_lookup := sc_lookup sc;
     sc_failedReads := sc_failedReads sc; sc_chainTime := sc_chainTime sc;
     sc_agent := r; sc_counterParty := sc_counterParty sc;
     sc_thornode := sc_thornode sc; sc_allowance := sc_allowance sc |}.

Definition withThornode (f : string -> Result (option ThorchainTransactionResponse))
    (sc : Script) : Script :=
  {| sc_clock := sc_clock sc; sc_lookup := sc_lookup sc;
     sc_failedReads := sc_failedReads sc; sc_chainTime := sc_chainTime sc;
     sc_agent := sc_agent sc; sc_counterParty := sc_counterParty sc;
     sc_thornode := f; sc_allowance := sc_allowance sc |}.

(** Every looked-up transaction is there, with the given confirmations. *)
Definition found (n : option Z) : Script :=
  withLookup (fun h => Ok (Some {| hash := h; confirmations := n |})) calm.

(** The chain clock is past both expirations of [htlcSwap]. *)
Definition expired : Script := withChainTime 9500 calm.

(** The agent locks the order at the given output amount. *)
Definition locked (toAmount : BN.t) : LockedQuote :=
  {| lq_orderId := "order-1"; lq_from := "BTC"; lq_to := "ETH";
     lq_fromAmount := 100000000%Q; lq_toAmount := toAmount;
     lq_fromCounterPartyAddress := "cp-BTC"; lq_toCounterPartyAddress := "cp-ETH";
     lq_expiresAt := 2000; lq_swapExpiration := 9000; lq_nodeSwapExpiration := 8000 |}.

(** Thornode has observed the deposit and an outbound transaction with
    the given memo. *)
Definition observed (text : string) : Script :=
  withThornode
    (fun _ => Ok (Some {| observed_tx :=
                            Some {| ot_tx := Some {| memo := text |};
                                    out_hashes := Some ["outbound"] |} |}))
    (found (Some 0)).

(** An HTLC swap of 1 BTC for 15 ETH. *)
Definition htlcSwap (s : string) : Liquality.SwapHistoryItem :=
  {| Liquality.from := "BTC"; Liquality.to := "ETH";
     Liquality.fromAmount := 100000000%Q; Liquality.toAmount := 15000%Q;
     Liquality.fromAccountId := "acc-btc"; Liquality.toAccountId := "acc-eth";
     Liquality.fee := 5; Liquality.claimFee := 30;
     Liquality.status := s;
     Liquality.orderId := "order-1";
     Liquality.fromAddress := "addr-BTC"; Liquality.toAddress := "addr-ETH";
     Liquality.fromCounterPartyAddress := "cp-BTC";
     Liquality.toCounterPartyAddress := "cp-ETH";
     Liquality.secretHash := "hash-of-secret"; Liquality.secret := "secret";
     Liquality.expiresAt := 2000;
     Liquality.swapExpiration := 9000;
     Liquality.nodeSwapExpiration := 8000;
     Liquality.fromFundHash := "fund"; Liquality.fromFundTx := None;
     Liquality.refundHash := "refund"; Liquality.toClaimHash := "claim";
     Liquality.toFundHash := "cpfund" |}.

(** A vault-deposit swap to BTC with the given output terms. *)
Definition vaultSwap (source : Asset) (s : string)
    (toAmount receiveFee slippage : BN.t) : Thorchain.SwapHistoryItem :=
  {| Thorchain.from := source; Thorchain.to := "BTC";
     Thorchain.fromAmount := 2000000%Q; Thorchain.toAmount := toAmount;
     Thorchain.fromAccountId := "acc-from"; Thorchain.toAccountId := "acc-btc";
     Thorchain.fee := 7;
     Thorchain.status := s;
     Thorchain.receiveFee := receiveFee;
     Thorchain.slippage := slippage;
     Thorchain.maxFeeSlippageMultiplier := 3;
     Thorchain.approveTxHash := "approve";
     Thorchain.fromFundHash := "deposit" |}.

End Scenario.

(** ** Further scripted worlds *)
Module Cases.

Definition withClock (t : Z) (sc : Scenario.Script) : Scenario.Script :=
  {| Scenario.sc_clock := t; Scenario.sc_lookup := Scenario.sc_lookup sc;
     Scenario.sc_failedReads := Scenario.sc_failedReads sc;
     Scenario.sc_chainTime := Scenario.sc_chainTime sc;
     Scenario.sc_agent := Scenario.sc_agent sc;
     Scenario.sc_counterParty := Scenario.sc_counterParty sc;
     Scenario.sc_thornode := Scenario.sc_thornode sc;
     Scenario.sc_allowance := Scenario.sc_allowance sc |}.

Definition withCounterParty (r : Result (option Transaction)) (sc : Scenario.Script)
    : Scenario.Script :=
  {| Scenario.sc_clock := Scenario.sc_clock sc;
     Scenario.sc_lookup := Scenario.sc_lookup sc;
     Scenario.sc_failedReads := Scenario.sc_failedReads sc;
     Scenario.sc_chainTime := Scenario.sc_chainTime sc;
     Scenario.sc_agent := Scenario.sc_agent sc;
     Scenario.sc_counterParty := r;
     Scenario.sc_thornode := Scenario.sc_thornode sc;
     Scenario.sc_allowance := Scenario.sc_allowance sc |}.

(** The agent locks the order, but the wallet's clock is past the quote. *)
Definition late : Scenario.Script :=
  withClock 3000 (Scenario.withAgent (Ok (Scenario.locked 15000%Q)) Scenario.calm).

(** The agent locks the order in time. *)
Definition prompt : Scenario.Script :=
  Scenario.withAgent (Ok (Scenario.locked 15000%Q)) Scenario.calm.

(** The counterparty's HTLC is on the chain. *)
Definition funded : Scenario.Script :=
  withCounterParty (Ok (Some {| hash := "cpfund"; confirmations := Some 1 |}))
    Scenario.calm.

(** Thornode has sent the outbound transaction, and it is confirmed. *)
Definition settled (text : string) : Scenario.Script :=
  Scenario.withThornode
    (fun _ => Ok (Some {| observed_tx :=
                            Some {| ot_tx := Some {| memo := text |};
                                    out_hashes := Some ["outbound"] |} |}))
    (Scenario.found (Some 1)).

(** A catalogue with tokens of two chains. *)
Definition tokens : Catalog :=
  {| cryptoassets :=
       list_to_map
         [ ("BTC", {| chain := "bitcoin"; code := "BTC"; decimals := 8;
                      contractAddress := None |});
           ("ETH", {| chain := "ethereum"; code := "ETH"; decimals := 18;
                      contractAddress := None |});
           ("DAI", {| chain := "ethereum"; code := "DAI"; decimals := 18;
                      contractAddress := Some "0x6b17" |});
           ("USDT", {| chain := "ethereum"; code := "USDT"; decimals := 6;
                       contractAddress := Some "0xdac1" |}) ];
     chains :=
       list_to_map
         [ ("bitcoin", {| safeConfirmations := 1; nativeAsset := "BTC";
                          formatAddress := fun a _ => a |});
           ("ethereum", {| safeConfirmations := 3; nativeAsset := "ETH";
                           formatAddress := fun a _ => a |}) ];
     isERC20 := fun asset => String.eqb asset "DAI" || String.eqb asset "USDT" |}.

Definition isEthereumChain (asset : Asset) : bool :=
  String.eqb asset "ETH" || String.eqb asset "DAI" || String.eqb asset "USDT".

(** The agent's markets: one of them names an asset the wallet does not know. *)
Definition markets : list Liquality.LiqualityMarketData :=
  [ {| Liquality.lm_from := "BTC"; Liquality.lm_to := "ETH";
       Liquality.lm_min := 100000%Q; Liquality.lm_max := 500000000%Q;
       Liquality.lm_rate := 15%Q |};
    {| Liquality.lm_from := "BTC"; Liquality.lm_to := "XYZ";
       Liquality.lm_min := 100000%Q; Liquality.lm_max := 500000000%Q;
       Liquality.lm_rate := 2%Q |} ].

Definition marketData : list Liquality.MarketData :=
  [ {| Liquality.md_provider := "thorchain"; Liquality.md_from := "BTC";
       Liquality.md_to := "ETH"; Liquality.md_min := 0%Q; Liquality.md_max := 9%Q;
       Liquality.md_rate := 14%Q |};
    {| Liquality.md_provider := "liquality"; Liquality.md_from := "BTC";
       Liquality.md_to := "ETH"; Liquality.md_min := 0.001%Q; Liquality.md_max := 5%Q;
       Liquality.md_rate := 15%Q |} ].

End Cases.

(** ** Vocabulary of the further properties *)

(** Whether a name holds the separator of lock keys. *)
Fixpoint hasHyphen (s : string) : bool :=
  match s with
  | EmptyString => false
  | String c rest => Ascii.eqb c "-"%char || hasHyphen rest
  end.

(** Whether a character occurs in a string. *)
Fixpoint hasChar (c : ascii) (s : string) : bool :=
  match s with
  | EmptyString => false
  | String d rest => Ascii.eqb d c || hasChar c rest
  end.

(** The chain behind client [c] answers its reads, with a latest block
    whose timestamp satisfies [P]. *)
Definition chain_time {W : Type} (E : Collaborators W) (c : ClientId)
    (P : Z -> Prop) : Prop :=
  (forall w, exists n, fst (chain_getBlockHeight E c w) = Ok n)
  /\ (forall n w, exists b,
        fst (chain_getBlockByNumber E c n w) = Ok (Some b) /\ P (timestamp b)).

(** [{ toFundHash, status: 'CONFIRM_COUNTER_PARTY_INITIATION' }] *)
Definition counterPartyFound (toFundHash : string) : Liquality.Updates :=
  {| Liquality.upd_status := Some "CONFIRM_COUNTER_PARTY_INITIATION";
     Liquality.upd_endTime := None;
     Liquality.upd_toFundHash := Some toFundHash;
     Liquality.upd_fundTxHash := None;
     Liquality.upd_refundHash := None; Liquality.upd_refundTx := None;
     Liquality.upd_toClaimHash := None; Liquality.upd_toClaimTx := None |}.

(** [fundingTransaction ? fundingTransaction.confirmations &&
    fundingTransaction.confirmations >= safe : true] *)
Definition fundingConfirmed (fundingTransaction : option Transaction) (safe : Z) : bool :=
  match fundingTransaction with
  | Some ft => truthyNum (confirmations ft) && geNum (confirmations ft) safe
  | None => true
  end.

(** What a handler may return once the refund is due: it moves on to the
    counterparty's HTLC, or it asks for the refund. *)
Definition jumps_or_refunds (r : Result (option Liquality.Updates)) : Prop :=
  match r with
  | Ok (Some u) =>
      (exists toFundHash, u = counterPartyFound toFundHash)
      \/ u = Liquality.statusOnly "GET_REFUND"
  | Ok None => False
  | Throw _ => True
  end.

(** The client through which an event puts a transaction on a chain. *)
Definition submitter (ev : Event) : option ClientId :=
  match ev with
  | EvInitiateSwap c _ | EvFundSwap c _ | EvClaimSwap c _ | EvRefundSwap c _
  | EvSendTransaction c _ => Some c
  | _ => None
  end.

(** Every submission is made by the client of [asset] in the given wallet. *)
Definition submits_for (network : Network) (walletId : WalletId) (asset : Asset)
    (ev : Event) : Prop :=
  match submitter ev with
  | Some c => c_network c = network /\ c_walletId c = walletId /\ c_asset c = asset
  | None => True
  end.

(** The value a deposit carries: the amount of an ERC20 deposit rides in
    the call data of the router. *)
Definition depositValue (cat : Catalog) (swap : Thorchain.SwapHistoryItem) : BN.t :=
  if String.eqb (Thorchain.from swap) "BTC" then Thorchain.fromAmount swap
  else if isERC20 cat (Thorchain.from swap) then 0%Q
  else Thorchain.fromAmount swap.

(** [{ status: 'WAITING_FOR_SEND_CONFIRMATIONS', fromFundTx, fromFundHash }] *)
Definition depositSent (fromFundTx : Transaction) : Thorchain.Updates :=
  {| Thorchain.upd_status := Some "WAITING_FOR_SEND_CONFIRMATIONS";
     Thorchain.upd_endTime := None;
     Thorchain.upd_approveTx := None; Thorchain.upd_approveTxHash := None;
     Thorchain.upd_fromFundTx := Some fromFundTx;
     Thorchain.upd_fromFundHash := Some (hash fromFundTx);
     Thorchain.upd_receiveTxHash := None; Thorchain.upd_receiveTx := None |}.

(** [{ status: 'WAITING_FOR_APPROVE_CONFIRMATIONS', approveTx, approveTxHash }] *)
Definition approvalSent (approveTx : Transaction) : Thorchain.Updates :=
  {| Thorchain.upd_status := Some "WAITING_FOR_APPROVE_CONFIRMATIONS";
     Thorchain.upd_endTime := None;
     Thorchain.upd_approveTx := Some approveTx;
     Thorchain.upd_approveTxHash := Some (hash approveTx);
     Thorchain.upd_fromFundTx := None; Thorchain.upd_fromFundHash := None;
     Thorchain.upd_receiveTxHash := None; Thorchain.upd_receiveTx := None |}.

(** What [approveTokens] does once the allowance is read. *)
Definition afterAllowance {W : Type} (E : Collaborators W) (lib : Thorchain.Libs)
    (client : ClientId) (token : string) (fee : Z)
    (routerAddress : Result string) (allowed inputAmount : Z)
    (w3 : W) (before : list Event) : Result Thorchain.Updates * St W :=
  if allowed >=? inputAmount
  then (Ok (Thorchain.statusOnly "APPROVE_CONFIRMED"), (w3, before))
  else
    match Thorchain.encodeApprove lib routerAddress inputAmount with
    | Throw e => (Throw e, (w3, before))
    | Ok data =>
        let request := {| tr_to := token; tr_value := 0%Q; tr_data := data;
                          tr_fee := fee |} in
        match chain_sendTransaction E client request w3 with
        | (Ok approveTx, w4) =>
            (Ok (approvalSent approveTx),
             (w4, before ++ [EvSendTransaction client request]))
        | (Throw e, w4) =>
            (Throw e, (w4, before ++ [EvSendTransaction client request]))
        end
    end.

(** [{ receiveTxHash, receiveTx, endTime, status }] *)
Definition received (receiveTx : Transaction) (endTime : Z) (s : string)
    : Thorchain.Updates :=
  {| Thorchain.upd_status := Some s;
     Thorchain.upd_endTime := Some endTime;
     Thorchain.upd_approveTx := None; Thorchain.upd_approveTxHash := None;
     Thorchain.upd_fromFundTx := None; Thorchain.upd_fromFundHash := None;
     Thorchain.upd_receiveTxHash := Some (hash receiveTx);
     Thorchain.upd_receiveTx := Some receiveTx |}.

(** * Properties *)

(** ** The lock table *)

Lemma locked_false_iff (table : gmap string bool) (k : string) :
  Store.locked table k = false <-> table !! k ≠ Some true.
Proof.
  unfold Store.locked. destruct (table !! k) as [[|]|]; split; intros H; congruence.
Qed.

Lemma lockKey_joined (network walletId c : string) :
  Store.lockKey network walletId c = network +:+ "-" +:+ walletId +:+ "-" +:+ c.
Proof. reflexivity. Qed.

(** C3. [attemptToLockAsset] returns at once (it is a total function of the
    lock table); for an asset of the catalogue it succeeds exactly when the
    key [network-walletId-chain] was not locked, and then marks the key
    locked, while a failed attempt leaves the table as it was. [unlockAsset]
    marks the key unlocked and emits [unlock:key] whatever the table held,
    and unlocking twice leaves the same table as unlocking once. *)
Theorem attemptToLockAsset_unlockAsset_contract :
  forall (cat : Catalog) (network : Network) (walletId : WalletId) (asset : Asset)
         (info : AssetInfo) (st : Store.State),
    cryptoassets cat !! asset = Some info ->
    let k := network +:+ "-" +:+ walletId +:+ "-" +:+ chain info in
    (exists r st',
        Store.attemptToLockAsset cat network walletId asset st = (Ok r, st')
        /\ Store.key r = k
        /\ (Store.success r = true <-> Store.CHAIN_LOCK st !! k ≠ Some true)
        /\ (Store.success r = true ->
            Store.CHAIN_LOCK st' = <[k := true]> (Store.CHAIN_LOCK st)
            /\ Store.CHAIN_LOCK st' !! k = Some true
            /\ Store.emitted st' = Store.emitted st)
        /\ (Store.success r = false -> st' = st))
    /\ (forall key st0,
          Store.CHAIN_LOCK (Store.unlockAsset key st0) !! key = Some false
          /\ Store.emitted (Store.unlockAsset key st0)
             = Store.emitted st0 ++ ["unlock:" +:+ key]
          /\ Store.CHAIN_LOCK (Store.unlockAsset key (Store.unlockAsset key st0))
             = Store.CHAIN_LOCK (Store.unlockAsset key st0)).
Proof.
  intros cat network walletId asset info st Hinfo k.
  split.
  - unfold Store.attemptToLockAsset. rewrite Hinfo.
    rewrite lockKey_joined. fold k.
    destruct (Store.locked (Store.CHAIN_LOCK st) k) eqn:Hlocked.
    + eexists _, _. split; [reflexivity|]. simpl.
      repeat split; try discriminate.
      * intros Hnot. apply locked_false_iff in Hnot. congruence.
    + eexists _, _. split; [reflexivity|]. simpl.
      repeat split; try discriminate.
      * intros _. by apply locked_false_iff.
      * apply lookup_insert_eq.
  - intros key st0. unfold Store.unlockAsset. simpl.
    split; [apply lookup_insert_eq|]. split; [reflexivity|].
    apply insert_insert_eq.
Qed.

Lemma attemptToLockAsset_unlockAsset_contract_witness :
  cryptoassets Scenario.catalog !! "ETH"
  = Some {| chain := "ethereum"; code := "ETH"; decimals := 18; contractAddress := None |}
  /\ exists r st',
      Store.attemptToLockAsset Scenario.catalog "mainnet" "w1" "ETH"
        {| Store.CHAIN_LOCK := ∅; Store.emitted := [] |} = (Ok r, st')
      /\ Store.key r = "mainnet-w1-ethereum".
Proof.
  assert (Hinfo : cryptoassets Scenario.catalog !! "ETH"
                  = Some {| chain := "ethereum"; code := "ETH"; decimals := 18;
                            contractAddress := None |})
    by (vm_compute; reflexivity).
  split; [exact Hinfo|].
  destruct (attemptToLockAsset_unlockAsset_contract Scenario.catalog "mainnet" "w1" "ETH"
              _ {| Store.CHAIN_LOCK := ∅; Store.emitted := [] |} Hinfo)
    as [(r & st' & Hrun & Hkey & _) _].
  exists r, st'. split; [exact Hrun | exact Hkey].
Defined.

(** ** Rounding *)

Lemma round_half_up_quotient (a b c d : Z) :
  0 < b -> 0 < d -> a * d = c * b -> a / b = c / d.
Proof.
  intros Hb Hd Heq.
  rewrite <- (Z.div_mul_cancel_r a b d) by lia.
  rewrite Heq. rewrite (Z.mul_comm b d).
  apply Z.div_mul_cancel_r; lia.
Qed.

Lemma round_comp (rm : BN.RoundingMode) (x y : Q) :
  (x == y)%Q -> BN.round rm x = BN.round rm y.
Proof.
  destruct x as [n1 d1], y as [n2 d2]. unfold Qeq, BN.round. simpl. intros H.
  destruct rm.
  - rewrite <- (Z.quot_mul_cancel_r n1 (Z.pos d1) (Z.pos d2)) by lia.
    rewrite H. rewrite (Z.mul_comm (Z.pos d1)).
    apply Z.quot_mul_cancel_r; lia.
  - assert (Hs : Z.sgn n1 = Z.sgn n2).
    { destruct (Z.sgn_spec n1) as [[? ->]|[[? ->]|[? ->]]],
               (Z.sgn_spec n2) as [[? ->]|[[? ->]|[? ->]]]; try reflexivity; nia. }
    rewrite Hs. f_equal.
    apply round_half_up_quotient; lia.
Qed.

Lemma round_half_up_integer (z : Z) : BN.round BN.ROUND_HALF_UP (inject_Z z) = z.
Proof.
  unfold BN.round, inject_Z. simpl Qnum. simpl Qden.
  replace ((2 * Z.abs z + 1) / (2 * 1)) with (Z.abs z).
  - lia.
  - apply Z.div_unique with (r := 1); lia.
Qed.

(** For a value that is not negative, the default rounding is the nearest
    integer with halves up: the floor of the value plus one half. *)
Lemma round_half_up_nearest (x : Q) :
  (0 <= x)%Q -> BN.round BN.ROUND_HALF_UP x = Qfloor (x + (1 # 2)).
Proof.
  destruct x as [n d]. unfold Qle, BN.round, Qfloor, Qplus. simpl. intros Hn.
  assert (Hn' : 0 <= n) by lia.
  rewrite Z.abs_eq by exact Hn'.
  destruct (Z.eq_dec n 0) as [->|Hne].
  - simpl Z.sgn. rewrite Z.mul_0_l. simpl.
    symmetry. apply Z.div_small. lia.
  - rewrite Z.sgn_pos by lia. rewrite Z.mul_1_l.
    f_equal; lia.
Qed.

Lemma dp0_round (x : Q) :
  BN.round BN.ROUND_HALF_UP (BN.dp 0 x) = BN.round BN.ROUND_HALF_UP x.
Proof.
  unfold BN.dp, BN.decimalPlaces.
  rewrite (round_comp _ _ (inject_Z (BN.round BN.ROUNDING_MODE (x * inject_Z (10 ^ 0))%Q))).
  - rewrite round_half_up_integer. apply round_comp.
    change (inject_Z (10 ^ 0)) with 1%Q. ring.
  - change (inject_Z (10 ^ 0)) with 1%Q. field.
Qed.

Lemma convertBaseAmountDecimal_up (r d : Z) :
  d <= 8 ->
  Thorchain.convertBaseAmountDecimal {| Thorchain.amount := r; Thorchain.decimal := d |} 8
  = {| Thorchain.amount := r * 10 ^ (8 - d); Thorchain.decimal := 8 |}.
Proof.
  intros Hd. unfold Thorchain.convertBaseAmountDecimal. simpl.
  destruct (8 - d <? 0) eqn:Hlt; [apply Z.ltb_lt in Hlt; lia|].
  unfold Thorchain.baseAmount, BN.multipliedBy. f_equal.
  rewrite (round_comp _ _ (inject_Z (r * 10 ^ (8 - d)))).
  - apply round_half_up_integer.
  - rewrite inject_Z_mult. reflexivity.
Qed.

(** The default rounding of bignumber.js is the nearest integer, halves
    away from zero. *)
Lemma round_half_up_opp (x : Q) :
  BN.round BN.ROUND_HALF_UP (- x)%Q = - BN.round BN.ROUND_HALF_UP x.
Proof.
  destruct x as [n d]. unfold BN.round, Qopp. simpl.
  rewrite Z.abs_opp, Z.sgn_opp. lia.
Qed.

Lemma round_half_up_is_nearest (x : Q) : BN.round BN.ROUND_HALF_UP x = nearest x.
Proof.
  unfold nearest. destruct (Qle_bool 0 x) eqn:Hle.
  - apply round_half_up_nearest. by apply Qle_bool_iff.
  - assert (Hneg : (0 <= - x)%Q).
    { destruct (Qlt_le_dec x 0) as [Hlt|Hge].
      - apply Qlt_le_weak in Hlt. apply Qopp_le_compat in Hlt. exact Hlt.
      - apply Qle_bool_iff in Hge. congruence. }
    rewrite <- (round_half_up_nearest (- x) Hneg), round_half_up_opp. lia.
Qed.

Lemma nearest_comp (x y : Q) : (x == y)%Q -> nearest x = nearest y.
Proof.
  intros H. rewrite <- !round_half_up_is_nearest. by apply round_comp.
Qed.

Lemma nearest_integer (z : Z) : nearest (inject_Z z) = z.
Proof. rewrite <- round_half_up_is_nearest. apply round_half_up_integer. Qed.

(** The amount [makeMemo] hands to [getSwapMemo]. *)
Lemma memoLimit_nearest (swap : Thorchain.SwapHistoryItem) (d : Z) :
  Thorchain.memoLimit swap d
  = Thorchain.convertBaseAmountDecimal
      {| Thorchain.amount :=
           nearest (inject_Z (nearest (Thorchain.toAmount swap - Thorchain.receiveFee swap))
                    * (1 - Thorchain.slippage swap));
         Thorchain.decimal := d |} 8.
Proof.
  unfold Thorchain.memoLimit. f_equal.
  unfold Thorchain.baseAmount at 1. f_equal.
  unfold Thorchain.minimumOutput. rewrite dp0_round.
  change (Thorchain.amount
            (Thorchain.baseAmount
               (BN.minus (Thorchain.toAmount swap) (Thorchain.receiveFee swap)) d))
    with (BN.round BN.ROUND_HALF_UP
            (Thorchain.toAmount swap - Thorchain.receiveFee swap)%Q).
  unfold BN.minus, BN.multipliedBy.
  by rewrite !round_half_up_is_nearest.
Qed.

(** Case analysis on the scrutinee of the innermost [match] of a run. *)
Ltac break_run H :=
  match type of H with
  | context [match ?x with _ => _ end] =>
      lazymatch x with
      | context [match _ with _ => _ end] => fail
      | _ => destruct x eqn:?
      end
  end.

Ltac break_goal :=
  match goal with
  | |- context [match ?x with _ => _ end] =>
      lazymatch x with
      | context [match _ with _ => _ end] => fail
      | _ => destruct x eqn:?
      end
  end.

Lemma makeMemo_returns {W : Type} (E : Collaborators W) (cat : Catalog)
    (lib : Thorchain.Libs) (network : Network) (walletId : WalletId)
    (swap : Thorchain.SwapHistoryItem) (st st' : St W) (text : string) :
  Thorchain.makeMemo E cat lib network walletId swap st = (Ok text, st') ->
  exists info asset address,
    cryptoassets cat !! Thorchain.to swap = Some info
    /\ text = Thorchain.getSwapMemo lib asset address
                (Thorchain.memoLimit swap (decimals info)).
Proof.
  unfold Thorchain.makeMemo, Thorchain.thorchainAssetOf, Thorchain.assetInfo,
    Thorchain.chainInfo, bind, lift, call, ret, throw.
  intros H.
  repeat (break_run H; simpl in H; try discriminate).
  inversion H; subst. eauto.
Qed.

(** C2 (amended). For every swap, the limit [makeMemo] embeds in the memo
    is [toAmount - receiveFee] rounded to the nearest integer, multiplied by
    [1 - slippage] and rounded to the nearest integer again, halves away
    from zero both times, then converted to 8-decimal base units; for an
    asset of at most 8 decimals the conversion multiplies by
    [10 ^ (8 - decimals)]. When [toAmount - receiveFee] is whole the first
    rounding changes nothing. For [toAmount = 1000], [receiveFee = 50],
    [slippage = 0.02] the rounded product is 931. *)
Theorem makeMemo_limit_rounds_to_nearest :
  (forall (swap : Thorchain.SwapHistoryItem) (d : Z),
      Thorchain.memoLimit swap d
      = Thorchain.convertBaseAmountDecimal
          {| Thorchain.amount :=
               nearest
                 (inject_Z (nearest (Thorchain.toAmount swap - Thorchain.receiveFee swap))
                  * (1 - Thorchain.slippage swap))%Q;
             Thorchain.decimal := d |} 8)
  /\ (forall (W : Type) (E : Collaborators W) (cat : Catalog) (lib : Thorchain.Libs)
            (network : Network) (walletId : WalletId)
            (swap : Thorchain.SwapHistoryItem) (st st' : St W) (text : string),
        Thorchain.makeMemo E cat lib network walletId swap st = (Ok text, st') ->
        let limit :=
          nearest
            (inject_Z (nearest (Thorchain.toAmount swap - Thorchain.receiveFee swap))
             * (1 - Thorchain.slippage swap)) in
        exists info asset address,
          cryptoassets cat !! Thorchain.to swap = Some info
          /\ text = Thorchain.getSwapMemo lib asset address
                      (Thorchain.convertBaseAmountDecimal
                         {| Thorchain.amount := limit;
                            Thorchain.decimal := decimals info |} 8)
          /\ (decimals info <= 8 ->
              text = Thorchain.getSwapMemo lib asset address
                       {| Thorchain.amount := limit * 10 ^ (8 - decimals info);
                          Thorchain.decimal := 8 |}))
  /\ (forall (swap : Thorchain.SwapHistoryItem) (z : Z),
        (Thorchain.toAmount swap - Thorchain.receiveFee swap == inject_Z z)%Q ->
        nearest (inject_Z (nearest (Thorchain.toAmount swap - Thorchain.receiveFee swap))
                 * (1 - Thorchain.slippage swap))
        = nearest ((Thorchain.toAmount swap - Thorchain.receiveFee swap)
                   * (1 - Thorchain.slippage swap)))
  /\ (forall d, Thorchain.minimumOutput 1000%Q 50%Q 0.02%Q d = 931%Q).
Proof.
  split; [exact memoLimit_nearest|]. split; [|split].
  - intros W E cat lib network walletId swap st st' text Hrun limit.
    apply makeMemo_returns in Hrun as (info & asset & address & Hinfo & ->).
    exists info, asset, address. split; [exact Hinfo|].
    rewrite (memoLimit_nearest swap (decimals info)). fold limit.
    split; [reflexivity|].
    intros Hd. by rewrite convertBaseAmountDecimal_up.
  - intros swap z Hwhole.
    rewrite (nearest_comp _ _ Hwhole), nearest_integer.
    apply nearest_comp. by rewrite Hwhole.
  - intros d. reflexivity.
Qed.

Lemma makeMemo_limit_rounds_to_nearest_witness :
  exists info asset address,
    cryptoassets Scenario.catalog !! "BTC" = Some info
    /\ "=:BTC.BTC:addr-BTC:501"
       = Thorchain.getSwapMemo Scenario.libs asset address
           (Thorchain.convertBaseAmountDecimal
              {| Thorchain.amount := nearest (inject_Z (nearest (1000.6 - 0)) * (1 - 0.5));
                 Thorchain.decimal := decimals info |} 8).
Proof.
  destruct makeMemo_limit_rounds_to_nearest as (_ & H & _).
  destruct (H nat (Scenario.world Scenario.calm) Scenario.catalog Scenario.libs
              "mainnet" "w1"
              (Scenario.vaultSwap "ETH" "APPROVE_CONFIRMED" 1000.6%Q 0%Q 0.5%Q)
              (0%nat, []) (0%nat, [EvGetSwapAddress "BTC" "acc-btc"])
              "=:BTC.BTC:addr-BTC:501")
    as (info & asset & address & Hinfo & Htext & _).
  - vm_compute. reflexivity.
  - exists info, asset, address. split; [exact Hinfo | exact Htext].
Defined.

(** C2, as stated, fails: with [toAmount = 1000], [receiveFee = 49] and
    [slippage = 0.02] the product is 931.98, whose floor is 931, while the
    limit in the memo is 932. *)
Lemma makeMemo_limit_is_not_rounded_down :
  let swap := Scenario.vaultSwap "ETH" "APPROVE_CONFIRMED" 1000%Q 49%Q 0.02%Q in
  run (Thorchain.makeMemo (Scenario.world Scenario.calm) Scenario.catalog Scenario.libs
         "mainnet" "w1" swap) 0%nat
  = (Ok "=:BTC.BTC:addr-BTC:932", (0%nat, [EvGetSwapAddress "BTC" "acc-btc"]))
  /\ Thorchain.amount (Thorchain.memoLimit swap 8) = 932
  /\ Qfloor ((1000 - 49) * (1 - 0.02)) = 931
  /\ Thorchain.amount (Thorchain.memoLimit swap 8)
     <> Qfloor ((Thorchain.toAmount swap - Thorchain.receiveFee swap)
                * (1 - Thorchain.slippage swap)).
Proof.
  vm_compute. repeat split; discriminate.
Qed.

(** ** Rules for [triple] *)
Section Rules.
Context {W : Type} (E : Collaborators W).
Variable P : Event -> Prop.

Lemma triple_ret {A} (a : A) (Q : Result A -> Prop) :
  Q (Ok a) -> triple P (ret (W := W) a) Q.
Proof. intros HQ w tr r w' tr' Hrun Htr. inversion Hrun; subst. auto. Qed.

Lemma triple_throw {A} (e : JsError) (Q : Result A -> Prop) :
  Q (Throw e) -> triple P (throw (W := W) e) Q.
Proof. intros HQ w tr r w' tr' Hrun Htr. inversion Hrun; subst. auto. Qed.

Lemma triple_lift {A} (r : Result A) (Q : Result A -> Prop) :
  Q r -> triple P (lift (W := W) r) Q.
Proof. intros HQ w tr r0 w' tr' Hrun Htr. inversion Hrun; subst. auto. Qed.

Lemma triple_consequence {A} (m : M W A) (Q Q' : Result A -> Prop) :
  triple P m Q -> (forall r, Q r -> Q' r) -> triple P m Q'.
Proof.
  intros Hm Himp w tr r w' tr' Hrun Htr.
  destruct (Hm _ _ _ _ _ Hrun Htr). auto.
Qed.

Lemma triple_bind {A B} (m : M W A) (k : A -> M W B)
    (Q1 : Result A -> Prop) (Q : Result B -> Prop) :
  triple P m Q1 ->
  (forall a, Q1 (Ok a) -> triple P (k a) Q) ->
  (forall e, Q1 (Throw e) -> Q (Throw e)) ->
  triple P (bind m k) Q.
Proof.
  intros Hm Hk He w tr r w' tr' Hrun Htr. unfold bind in Hrun.
  destruct (m (w, tr)) as [[a|e] [w1 tr1]] eqn:Hm1;
    destruct (Hm _ _ _ _ _ Hm1 Htr) as [HQ1 Htr1].
  - exact (Hk a HQ1 _ _ _ _ _ Hrun Htr1).
  - inversion Hrun; subst. auto.
Qed.

Lemma triple_catch {A} (m : M W A) (h : JsError -> M W A)
    (Q1 Q : Result A -> Prop) :
  triple P m Q1 ->
  (forall a, Q1 (Ok a) -> Q (Ok a)) ->
  (forall e, Q1 (Throw e) -> triple P (h e) Q) ->
  triple P (catch m h) Q.
Proof.
  intros Hm Hok Hh w tr r w' tr' Hrun Htr. unfold catch in Hrun.
  destruct (m (w, tr)) as [[a|e] [w1 tr1]] eqn:Hm1;
    destruct (Hm _ _ _ _ _ Hm1 Htr) as [HQ1 Htr1].
  - inversion Hrun; subst. auto.
  - exact (Hh e HQ1 _ _ _ _ _ Hrun Htr1).
Qed.

Lemma triple_call {A} (ev : Event) (f : W -> Result A * W) (Q : Result A -> Prop) :
  P ev -> (forall w, Q (fst (f w))) -> triple P (call ev f) Q.
Proof.
  intros Hev HQ w tr r w' tr' Hrun Htr. unfold call in Hrun. simpl in Hrun.
  specialize (HQ w). destruct (f w) as [r0 w0]. inversion Hrun; subst.
  split; [exact HQ|]. apply Forall_app. split; [exact Htr|]. by constructor.
Qed.

Lemma triple_emit (ev : Event) (Q : Result unit -> Prop) :
  P ev -> Q (Ok tt) -> triple P (emit (W := W) ev) Q.
Proof.
  intros Hev HQ w tr r w' tr' Hrun Htr. unfold emit in Hrun. inversion Hrun; subst.
  split; [exact HQ|]. apply Forall_app. split; [exact Htr|]. by constructor.
Qed.

Lemma triple_dateNow (Q : Result Z -> Prop) :
  P EvNow -> (forall t, Q (Ok t)) -> triple P (dateNow E) Q.
Proof.
  intros Hev HQ w tr r w' tr' Hrun Htr. unfold dateNow in Hrun. simpl in Hrun.
  destruct (now E w) as [t w0]. inversion Hrun; subst.
  split; [apply HQ|]. apply Forall_app. split; [exact Htr|]. by constructor.
Qed.

Lemma triple_wait (millis : Z) (Q : Result unit -> Prop) :
  P (EvWait millis) -> Q (Ok tt) -> triple P (wait E millis) Q.
Proof.
  intros Hev HQ w tr r w' tr' Hrun Htr. unfold wait in Hrun. inversion Hrun; subst.
  split; [exact HQ|]. apply Forall_app. split; [exact Htr|]. by constructor.
Qed.

Lemma triple_startUpdateBalances network walletId assets (Q : Result unit -> Prop) :
  P (EvUpdateBalances assets) -> Q (Ok tt) ->
  triple P (startUpdateBalances E network walletId assets) Q.
Proof.
  intros Hev HQ w tr r w' tr' Hrun Htr. unfold startUpdateBalances in Hrun.
  inversion Hrun; subst.
  split; [exact HQ|]. apply Forall_app. split; [exact Htr|]. by constructor.
Qed.

Lemma triple_freshUuid (Q : Result string -> Prop) :
  P EvUuid -> (forall u, Q (Ok u)) -> triple P (freshUuid E) Q.
Proof.
  intros Hev HQ w tr r w' tr' Hrun Htr. unfold freshUuid in Hrun. simpl in Hrun.
  destruct (uuidv4 E w) as [u w0]. inversion Hrun; subst.
  split; [apply HQ|]. apply Forall_app. split; [exact Htr|]. by constructor.
Qed.

(** The rules for a condition on returned values only. *)
Lemma returning_bind {A B} (m : M W A) (k : A -> M W B)
    (G1 : A -> Prop) (G : B -> Prop) :
  triple P m (returning G1) ->
  (forall a, G1 a -> triple P (k a) (returning G)) ->
  triple P (bind m k) (returning G).
Proof. intros Hm Hk. eapply triple_bind; eauto. Qed.

Lemma returning_catch {A} (m : M W A) (h : JsError -> M W A) (G : A -> Prop) :
  triple P m (returning G) ->
  (forall e, triple P (h e) (returning G)) ->
  triple P (catch m h) (returning G).
Proof. intros Hm Hh. eapply triple_catch; eauto. Qed.

Lemma returning_any {A} (m : M W A) (G : A -> Prop) :
  triple P m (returning G) -> triple P m (returning (fun _ => True)).
Proof. intros Hm. eapply triple_consequence; [exact Hm|]. by intros []. Qed.
End Rules.

Lemma passive_not_submission : passive not_submission.
Proof. intros ev H. exact H. Qed.

Lemma passive_any : passive (fun _ => True).
Proof. intros ev H. exact I. Qed.

Lemma returning_True {A} (r : Result A) : returning (fun _ => True) r.
Proof. by destruct r. Qed.

Ltac observe := first [ assumption | match goal with H : passive _ |- _ => apply H; reflexivity end | exact I ].

(** One rule per shape of method; sub-methods with a lemma of their own
    are handled before the tactic is called. *)
Ltac triple_step :=
  lazymatch goal with
  | |- triple _ (ret _) _ => apply triple_ret; simpl
  | |- triple _ (throw _) _ => apply triple_throw; simpl; try exact I
  | |- triple _ (lift _) _ => apply triple_lift; simpl; try exact I; try apply returning_True
  | |- triple _ (call _ _) _ =>
      apply triple_call; [observe | intros ?w; simpl; try apply returning_True]
  | |- triple _ (emit _) _ => apply triple_emit; [observe | simpl; try exact I]
  | |- triple _ (consoleWarn _) _ => apply triple_emit; [observe | simpl; try exact I]
  | |- triple _ (dateNow _) _ => apply triple_dateNow; [observe | intros ?t; simpl; try exact I]
  | |- triple _ (wait _ _) _ => apply triple_wait; [observe | simpl; try exact I]
  | |- triple _ (startUpdateBalances _ _ _ _) _ =>
      apply triple_startUpdateBalances; [observe | simpl; try exact I]
  | |- triple _ (freshUuid _) _ => apply triple_freshUuid; [observe | intros ?u; simpl; try exact I]
  | |- triple _ (chainGetTransactionByHash _ _ _) _ =>
      apply triple_call; [observe | intros ?w; simpl; try apply returning_True]
  | |- triple _ (bind _ _) (returning _) =>
      eapply (returning_bind _ _ _ (fun _ => True)); [ | intros ? _ ]
  | |- triple _ (catch _ _) (returning _) => apply returning_catch; [ | intros ?e ]
  | |- triple _ (if ?b then _ else _) _ => destruct b eqn:?
  | |- triple _ (match ?x with _ => _ end) _ => destruct x eqn:?
  end.

(** ** Statuses returned by the HTLC handlers *)

Lemma liquality_statusIn_mono (l1 l2 : list string) o :
  l1 ⊆ l2 -> liquality_statusIn l1 o -> liquality_statusIn l2 o.
Proof.
  intros Hsub. destruct o as [u|]; simpl; [|done].
  destruct (Liquality.upd_status u); [|done]. apply Hsub.
Qed.

Ltac member :=
  lazymatch goal with
  | |- _ ∈ _ => repeat first [apply list_elem_of_here | apply list_elem_of_further]
  end.

Ltac subset :=
  let x := fresh "x" in
  let H := fresh "H" in
  intros x H;
  repeat (apply elem_of_cons in H; destruct H as [->|H]; [member|]);
  by apply elem_of_nil in H.

Ltac carry H :=
  apply triple_ret; cbv beta iota delta [returning];
  revert H; apply liquality_statusIn_mono; subset.

Ltac triple_steps := repeat (triple_step; try exact I; try member).

Section LiqualityStatuses.
Context {W : Type} (E : Collaborators W) (cat : Catalog).
Context (network : Network) (walletId : WalletId).

Section Passive.
Variable P : Event -> Prop.
Hypothesis HP : passive P.

Lemma hasChainTimePassed_loop_passive fuel client ts tries :
  triple P (Liquality.hasChainTimePassed_loop E fuel client ts tries)
    (returning (fun _ => True)).
Proof.
  revert tries. induction fuel as [|fuel IH]; intros tries; simpl.
  - triple_steps.
  - triple_steps. apply IH.
Qed.

Lemma handleExpirations_statuses swap :
  triple P (Liquality.handleExpirations E network walletId swap)
    (returning (liquality_statusIn ["GET_REFUND"; "WAITING_FOR_REFUND"])).
Proof.
  unfold Liquality.handleExpirations, Liquality.canRefund, Liquality.hasSwapExpired,
    Liquality.hasChainTimePassed.
  triple_step; [triple_steps|].
  triple_step; [apply hasChainTimePassed_loop_passive|].
  triple_step; [triple_steps|].
  triple_step; [apply hasChainTimePassed_loop_passive|].
  triple_steps.
Qed.

Lemma reportInitiation_statuses swap :
  triple P (Liquality.reportInitiation E swap)
    (returning (liquality_statusIn ["WAITING_FOR_REFUND"; "INITIATION_REPORTED"])).
Proof.
  unfold Liquality.reportInitiation, Liquality.hasQuoteExpired, Liquality.updateOrder.
  triple_steps.
Qed.

Lemma findCounterPartyInitiation_statuses swap :
  triple P (Liquality.findCounterPartyInitiation E cat network walletId swap)
    (returning (liquality_statusIn
                  ["CONFIRM_COUNTER_PARTY_INITIATION"; "GET_REFUND"; "WAITING_FOR_REFUND"])).
Proof.
  unfold Liquality.findCounterPartyInitiation. cbv zeta.
  eapply (returning_bind _ _ _
            (liquality_statusIn ["CONFIRM_COUNTER_PARTY_INITIATION"])).
  - triple_steps.
  - intros [u|] Hu.
    + carry Hu.
    + eapply returning_bind; [apply handleExpirations_statuses|].
      intros o Ho. carry Ho.
Qed.

Lemma confirmInitiation_statuses swap :
  triple P (Liquality.confirmInitiation E cat network walletId swap)
    (returning (liquality_statusIn
                  ["CONFIRM_COUNTER_PARTY_INITIATION"; "GET_REFUND"; "WAITING_FOR_REFUND";
                   "INITIATION_CONFIRMED"])).
Proof.
  unfold Liquality.confirmInitiation.
  eapply returning_bind; [apply findCounterPartyInitiation_statuses|].
  intros [u|] Hu.
  - carry Hu.
  - cbv zeta. triple_steps.
Qed.

Lemma confirmCounterPartyInitiation_statuses swap :
  triple P (Liquality.confirmCounterPartyInitiation E cat network walletId swap)
    (returning (liquality_statusIn ["READY_TO_CLAIM"; "GET_REFUND"; "WAITING_FOR_REFUND"])).
Proof.
  unfold Liquality.confirmCounterPartyInitiation. cbv zeta.
  triple_step; [triple_steps|].
  triple_step; [triple_steps|].
  triple_step; [triple_steps|].
  eapply returning_bind; [apply handleExpirations_statuses|].
  intros o Ho. carry Ho.
Qed.

Lemma waitForClaimConfirmations_statuses swap :
  triple P (Liquality.waitForClaimConfirmations E network walletId swap)
    (returning (liquality_statusIn ["SUCCESS"; "GET_REFUND"; "WAITING_FOR_REFUND"])).
Proof.
  unfold Liquality.waitForClaimConfirmations. cbv zeta.
  eapply (returning_bind _ _ _ (liquality_statusIn ["SUCCESS"])).
  - triple_steps.
  - intros [u|] Hu.
    + carry Hu.
    + eapply returning_bind; [apply handleExpirations_statuses|].
      intros o Ho. carry Ho.
Qed.

Lemma waitForRefund_statuses swap :
  triple P (Liquality.waitForRefund E network walletId swap)
    (returning (liquality_statusIn ["GET_REFUND"])).
Proof.
  unfold Liquality.waitForRefund, Liquality.canRefund, Liquality.hasChainTimePassed.
  triple_step; [apply hasChainTimePassed_loop_passive|].
  triple_steps.
Qed.

Lemma waitForRefundConfirmations_statuses swap :
  triple P (Liquality.waitForRefundConfirmations E network walletId swap)
    (returning (liquality_statusIn ["REFUNDED"])).
Proof.
  unfold Liquality.waitForRefundConfirmations. cbv zeta. triple_steps.
Qed.
End Passive.

Lemma fundSwap_statuses swap :
  triple (fun _ => True) (Liquality.fundSwap E cat network walletId swap)
    (returning (liquality_statusIn ["QUOTE_EXPIRED"; "FUNDED"])).
Proof.
  unfold Liquality.fundSwap, Liquality.hasQuoteExpired. cbv zeta. triple_steps.
Qed.

Lemma claimSwap_statuses swap :
  triple (fun _ => True) (Liquality.claimSwap E network walletId swap)
    (returning (liquality_statusIn
                  ["GET_REFUND"; "WAITING_FOR_REFUND"; "WAITING_FOR_CLAIM_CONFIRMATIONS"])).
Proof.
  unfold Liquality.claimSwap.
  eapply returning_bind; [apply handleExpirations_statuses; apply passive_any|].
  intros [u|] Hu.
  - carry Hu.
  - cbv zeta. triple_steps.
Qed.

Lemma refundSwap_statuses swap :
  triple (fun _ => True) (Liquality.refundSwap E network walletId swap)
    (returning (liquality_statusIn ["WAITING_FOR_REFUND_CONFIRMATIONS"])).
Proof.
  unfold Liquality.refundSwap. cbv zeta. triple_steps.
Qed.
End LiqualityStatuses.

Lemma liquality_transition_targets {W : Type} (E : Collaborators W) (cat : Catalog)
    (network : Network) (walletId : WalletId) (swap : Liquality.SwapHistoryItem) :
  triple (fun _ => True) (Liquality.transition E cat network walletId swap)
    (returning (liquality_statusIn (liquality_targets (Liquality.status swap)))).
Proof.
  unfold Liquality.transition, Liquality.performNextSwapAction, liquality_targets.
  cbv zeta.
  repeat (destruct (String.eqb (Liquality.status swap) _);
          [first [ apply reportInitiation_statuses
                 | apply confirmInitiation_statuses
                 | apply fundSwap_statuses
                 | apply findCounterPartyInitiation_statuses
                 | apply confirmCounterPartyInitiation_statuses
                 | apply claimSwap_statuses
                 | apply waitForClaimConfirmations_statuses
                 | apply waitForRefund_statuses
                 | apply refundSwap_statuses
                 | apply waitForRefundConfirmations_statuses ]; apply passive_any|]).
  triple_step. exact I.
Qed.

Lemma liquality_edge_targets (s s' : string) :
  liquality_edge s s' -> s' ∈ liquality_targets s.
Proof.
  intros (W & E & cat & network & walletId & swap & [w tr] & [w' tr'] & u & Hs & Hrun & Hu).
  destruct (liquality_transition_targets E cat network walletId swap _ _ _ _ _ Hrun)
    as [Hret _].
  - by apply Forall_forall.
  - simpl in Hret. rewrite Hu, Hs in Hret. exact Hret.
Qed.

Lemma liquality_targets_monotone (s s' : string) :
  s' ∈ liquality_targets s ->
  exists n n', liquality_step s = Some n /\ liquality_step s' = Some n' /\ n <= n'.
Proof.
  unfold liquality_targets.
  repeat (destruct (String.eqb s _) eqn:Heq;
          [apply String.eqb_eq in Heq; subst s;
           intros H;
           repeat (apply elem_of_cons in H; destruct H as [->|H];
                   [eexists _, _; vm_compute; repeat split; discriminate|]);
           by apply elem_of_nil in H
          | clear Heq]).
  intros H. by apply elem_of_nil in H.
Qed.

(** ** Statuses returned by the vault-deposit handlers *)

Lemma thorchain_statusIn_mono (l1 l2 : list string) o :
  l1 ⊆ l2 -> thorchain_statusIn l1 o -> thorchain_statusIn l2 o.
Proof.
  intros Hsub. destruct o as [u|]; simpl; [|done].
  destruct (Thorchain.upd_status u); [|done]. apply Hsub.
Qed.

Section ThorchainStatuses.
Context {W : Type} (E : Collaborators W) (cat : Catalog) (lib : Thorchain.Libs).
Context (network : Network) (walletId : WalletId).

Section Passive.
Variable P : Event -> Prop.
Hypothesis HP : passive P.

Lemma waitForApproveConfirmations_statuses swap :
  triple P (Thorchain.waitForApproveConfirmations E network walletId swap)
    (returning (thorchain_statusIn ["APPROVE_CONFIRMED"])).
Proof.
  unfold Thorchain.waitForApproveConfirmations. cbv zeta. triple_steps.
Qed.

Lemma waitForSendConfirmations_statuses swap :
  triple P (Thorchain.waitForSendConfirmations E network walletId swap)
    (returning (thorchain_statusIn ["WAITING_FOR_RECEIVE"])).
Proof.
  unfold Thorchain.waitForSendConfirmations. cbv zeta. triple_steps.
Qed.

Lemma waitForReceive_statuses swap :
  triple P (Thorchain.waitForReceive E network walletId swap)
    (returning (thorchain_statusIn ["SUCCESS"; "REFUNDED"])).
Proof.
  unfold Thorchain.waitForReceive, Thorchain._getTransaction. cbv zeta.
  triple_steps.
  unfold Thorchain.OUT_MEMO_TO_STATUS.
  repeat (destruct (String.eqb _ _); [member|]). exact I.
Qed.
End Passive.

Lemma makeMemo_any swap :
  triple (fun _ => True) (Thorchain.makeMemo E cat lib network walletId swap)
    (returning (fun _ => True)).
Proof.
  unfold Thorchain.makeMemo, Thorchain.thorchainAssetOf. cbv zeta. triple_steps.
Qed.

Lemma sendSwap_statuses swap :
  triple (fun _ => True) (Thorchain.sendSwap E cat lib network walletId swap)
    (returning (fun u => Thorchain.upd_status u = Some "WAITING_FOR_SEND_CONFIRMATIONS")).
Proof.
  unfold Thorchain.sendSwap, Thorchain.sendBitcoinSwap, Thorchain.sendEthereumSwap,
    Thorchain.getRouterAddress, Thorchain.getInboundAddress,
    Thorchain._getInboundAddresses, Thorchain.thorchainAssetOf.
  cbv zeta.
  triple_step; [apply makeMemo_any|].
  triple_steps. reflexivity.
Qed.
End ThorchainStatuses.

Lemma thorchain_transition_targets {W : Type} (E : Collaborators W) (cat : Catalog)
    (lib : Thorchain.Libs) (network : Network) (walletId : WalletId)
    (swap : Thorchain.SwapHistoryItem) :
  triple (fun _ => True) (Thorchain.transition E cat lib network walletId swap)
    (returning (thorchain_statusIn (thorchain_targets (Thorchain.status swap)))).
Proof.
  unfold Thorchain.transition, Thorchain.performNextSwapAction, thorchain_targets.
  cbv zeta.
  destruct (String.eqb (Thorchain.status swap) _);
    [apply waitForApproveConfirmations_statuses; apply passive_any|].
  destruct (String.eqb (Thorchain.status swap) _).
  { eapply returning_bind; [apply sendSwap_statuses|].
    intros u Hu. apply triple_ret. simpl. rewrite Hu. member. }
  destruct (String.eqb (Thorchain.status swap) _);
    [apply waitForSendConfirmations_statuses; apply passive_any|].
  destruct (String.eqb (Thorchain.status swap) _);
    [apply waitForReceive_statuses; apply passive_any|].
  triple_step. exact I.
Qed.

Lemma thorchain_edge_targets (s s' : string) :
  thorchain_edge s s' -> s' ∈ thorchain_targets s.
Proof.
  intros (W & E & cat & lib & network & walletId & swap & [w tr] & [w' tr'] & u
          & Hs & Hrun & Hu).
  destruct (thorchain_transition_targets E cat lib network walletId swap _ _ _ _ _ Hrun)
    as [Hret _].
  - by apply Forall_forall.
  - simpl in Hret. rewrite Hu, Hs in Hret. exact Hret.
Qed.

Lemma thorchain_targets_monotone (s s' : string) :
  s' ∈ thorchain_targets s ->
  exists n n', thorchain_step s = Some n /\ thorchain_step s' = Some n' /\ n <= n'.
Proof.
  unfold thorchain_targets.
  repeat (destruct (String.eqb s _) eqn:Heq;
          [apply String.eqb_eq in Heq; subst s;
           intros H;
           repeat (apply elem_of_cons in H; destruct H as [->|H];
                   [eexists _, _; vm_compute; repeat split; discriminate|]);
           by apply elem_of_nil in H
          | clear Heq]).
  intros H. by apply elem_of_nil in H.
Qed.

(** ** Step indices *)

Lemma liquality_terminal_step (s : string) :
  liquality_terminal s -> liquality_step s = Some (Liquality._totalSteps - 1).
Proof.
  intros [[x Hx] Hnone].
  apply elem_of_list_to_map_2 in Hx.
  repeat (apply elem_of_cons in Hx; destruct Hx as [Heq|Hx];
          [inversion Heq; subst; clear Heq;
           first [ reflexivity
                 | specialize (Hnone nat (Scenario.world Scenario.calm) Scenario.catalog
                                 "mainnet" "w1" (Scenario.htlcSwap _) eq_refl);
                   discriminate Hnone ]
          |]).
  by apply elem_of_nil in Hx.
Qed.

Lemma thorchain_terminal_step (s : string) :
  thorchain_terminal s -> thorchain_step s = Some (Thorchain._totalSteps - 1).
Proof.
  intros [[x Hx] Hnone].
  apply elem_of_list_to_map_2 in Hx.
  repeat (apply elem_of_cons in Hx; destruct Hx as [Heq|Hx];
          [inversion Heq; subst; clear Heq;
           first [ reflexivity
                 | specialize (Hnone nat (Scenario.world Scenario.calm) Scenario.catalog
                                 Scenario.libs "mainnet" "w1"
                                 (Scenario.vaultSwap "ETH" _ 1000%Q 50%Q 0.02%Q) eq_refl);
                   discriminate Hnone ]
          |]).
  by apply elem_of_nil in Hx.
Qed.

Lemma rtc_monotone (edge : string -> string -> Prop) (step : string -> option Z) :
  (forall s s', edge s s' -> exists n n', step s = Some n /\ step s' = Some n' /\ n <= n') ->
  forall s s', rtc edge s s' ->
    forall n n', step s = Some n -> step s' = Some n' -> n <= n'.
Proof.
  intros Hedge s s' Hpath.
  induction Hpath as [s|s t s' Hst Hpath IH]; intros n n' Hn Hn'.
  - assert (n = n') by congruence. lia.
  - destruct (Hedge _ _ Hst) as (a & b & Ha & Hb & Hab).
    assert (a = n) by congruence. subst a.
    specialize (IH b n' Hb Hn'). lia.
Qed.

Lemma liquality_terminal_SUCCESS : liquality_terminal "SUCCESS".
Proof.
  split.
  - eexists. vm_compute. reflexivity.
  - intros W E cat network walletId swap Hs.
    unfold Liquality.performNextSwapAction. rewrite Hs. reflexivity.
Qed.

Lemma thorchain_terminal_REFUNDED : thorchain_terminal "REFUNDED".
Proof.
  split.
  - eexists. vm_compute. reflexivity.
  - intros W E cat lib network walletId swap Hs.
    unfold Thorchain.performNextSwapAction. rewrite Hs. reflexivity.
Qed.

(** C6 (amended). In each protocol, whenever the action selected for a
    status returns an update to another status, the step index of the new
    status is at least that of the old one, hence step indices never
    decrease along a path of such transitions; and every terminal status
    (a status of the table from which no action is selected) has step index
    [_totalSteps() - 1]: steps are numbered from 0. *)
Theorem step_indices_monotone_last_is_total_minus_one :
  (forall s s', liquality_edge s s' ->
     exists n n', liquality_step s = Some n /\ liquality_step s' = Some n' /\ n <= n')
  /\ (forall s s', rtc liquality_edge s s' ->
       forall n n', liquality_step s = Some n -> liquality_step s' = Some n' -> n <= n')
  /\ (forall s, liquality_terminal s ->
       liquality_step s = Some (Liquality._totalSteps - 1))
  /\ (forall s s', thorchain_edge s s' ->
       exists n n', thorchain_step s = Some n /\ thorchain_step s' = Some n' /\ n <= n')
  /\ (forall s s', rtc thorchain_edge s s' ->
       forall n n', thorchain_step s = Some n -> thorchain_step s' = Some n' -> n <= n')
  /\ (forall s, thorchain_terminal s ->
       thorchain_step s = Some (Thorchain._totalSteps - 1)).
Proof.
  assert (HL : forall s s', liquality_edge s s' ->
            exists n n', liquality_step s = Some n /\ liquality_step s' = Some n' /\ n <= n').
  { intros s s' Hedge. apply liquality_targets_monotone, liquality_edge_targets, Hedge. }
  assert (HT : forall s s', thorchain_edge s s' ->
            exists n n', thorchain_step s = Some n /\ thorchain_step s' = Some n' /\ n <= n').
  { intros s s' Hedge. apply thorchain_targets_monotone, thorchain_edge_targets, Hedge. }
  repeat split.
  - exact HL.
  - apply rtc_monotone, HL.
  - apply liquality_terminal_step.
  - exact HT.
  - apply rtc_monotone, HT.
  - apply thorchain_terminal_step.
Qed.

Lemma step_indices_monotone_last_is_total_minus_one_witness :
  (exists n n',
      liquality_step "WAITING_FOR_REFUND_CONFIRMATIONS" = Some n
      /\ liquality_step "REFUNDED" = Some n' /\ n <= n')
  /\ liquality_step "SUCCESS" = Some 3
  /\ thorchain_step "REFUNDED" = Some 3.
Proof.
  destruct step_indices_monotone_last_is_total_minus_one
    as (Hedge & _ & Hlast & _ & _ & Hlast').
  split; [|split].
  - apply Hedge.
    exists nat, (Scenario.world (Scenario.found (Some 1))), Scenario.catalog,
      "mainnet", "w1", (Scenario.htlcSwap "WAITING_FOR_REFUND_CONFIRMATIONS"),
      (0%nat, []).
    eexists _, _. split; [reflexivity|]. split; vm_compute; reflexivity.
  - apply (Hlast "SUCCESS"). exact liquality_terminal_SUCCESS.
  - apply (Hlast' "REFUNDED"). exact thorchain_terminal_REFUNDED.
Defined.

(** C6, as stated, fails in its second half: the terminal statuses have
    step index 3 while [_totalSteps()] is 4, in both protocols. *)
Lemma terminal_step_is_not_total_steps :
  liquality_terminal "SUCCESS"
  /\ liquality_step "SUCCESS" = Some 3
  /\ Liquality._totalSteps = 4
  /\ liquality_step "SUCCESS" <> Some Liquality._totalSteps
  /\ thorchain_terminal "REFUNDED"
  /\ thorchain_step "REFUNDED" = Some 3
  /\ Thorchain._totalSteps = 4
  /\ thorchain_step "REFUNDED" <> Some Thorchain._totalSteps.
Proof.
  split; [exact liquality_terminal_SUCCESS|].
  split; [reflexivity|]. split; [reflexivity|].
  split; [vm_compute; discriminate|].
  split; [exact thorchain_terminal_REFUNDED|].
  split; [reflexivity|]. split; [reflexivity|].
  vm_compute; discriminate.
Qed.

(** ** Quote re-validation *)

Lemma BN_lt_spec (a b : Q) : BN.lt a b = true <-> (a < b)%Q.
Proof.
  unfold BN.lt. rewrite negb_true_iff. split.
  - intros H. apply Qnot_le_lt. intros Hle.
    apply Qle_bool_iff in Hle. congruence.
  - intros H. destruct (Qle_bool b a) eqn:Hle; [|reflexivity].
    apply Qle_bool_iff in Hle. exfalso. exact (Qlt_not_le _ _ H Hle).
Qed.

Lemma newSwap_after_order {W : Type} (E : Collaborators W) (sha256 : string -> string)
    (network : Network) (walletId : WalletId) (_quote : Liquality.SwapHistoryItem)
    (w : W) :
  let order := EvAgentOrder (Liquality.from _quote) (Liquality.to _quote)
                 (Liquality.fromAmount _quote) in
  match agentOrder E (Liquality.from _quote) (Liquality.to _quote)
          (Liquality.fromAmount _quote) w with
  | (Ok lockedQuote, w1) =>
      BN.lt (lq_toAmount lockedQuote) (BN.times (Liquality.toAmount _quote) 0.995%Q) = true ->
      run (Liquality.newSwap E sha256 network walletId _quote) w
      = (Throw Liquality.slippageError, (w1, [order]))
  | (Throw e, w1) =>
      exists e', run (Liquality.newSwap E sha256 network walletId _quote) w
                 = (Throw e', (w1, [order]))
  end.
Proof.
  intros order.
  destruct (agentOrder E _ _ _ w) as [[lockedQuote|e] w1] eqn:Horder;
    unfold run, Liquality.newSwap, Liquality._getQuote;
    unfold bind at 1; unfold catch, call; simpl; rewrite Horder; simpl.
  - intros Hlt. rewrite Hlt. reflexivity.
  - destruct (response_error e) as [text|]; [destruct (String.eqb text "")|];
      eexists; reflexivity.
Qed.

(** C1. When the freshly fetched quote's [toAmount] is below 0.995 times the
    original quote's, [newSwap] raises the slippage error, and the only call
    it has made is the order request to the agent: [initiateSwap] is not
    called and nothing is submitted to a chain. *)
Theorem newSwap_rejects_slipped_quote :
  forall (W : Type) (E : Collaborators W) (sha256 : string -> string)
         (network : Network) (walletId : WalletId)
         (_quote : Liquality.SwapHistoryItem) (w w1 : W) (lockedQuote : LockedQuote),
    agentOrder E (Liquality.from _quote) (Liquality.to _quote)
      (Liquality.fromAmount _quote) w = (Ok lockedQuote, w1) ->
    (lq_toAmount lockedQuote < Liquality.toAmount _quote * 0.995)%Q ->
    let outcome := run (Liquality.newSwap E sha256 network walletId _quote) w in
    result_of outcome = Throw Liquality.slippageError
    /\ trace_of outcome
       = [EvAgentOrder (Liquality.from _quote) (Liquality.to _quote)
            (Liquality.fromAmount _quote)]
    /\ (forall c p, EvInitiateSwap c p ∉ trace_of outcome)
    /\ Forall not_submission (trace_of outcome).
Proof.
  intros W E sha256 network walletId _quote w w1 lockedQuote Horder Hlt outcome.
  pose proof (newSwap_after_order E sha256 network walletId _quote w) as H.
  simpl in H. rewrite Horder in H.
  apply BN_lt_spec in Hlt. specialize (H Hlt).
  subst outcome. rewrite H. unfold result_of, trace_of. simpl.
  split; [reflexivity|]. split; [reflexivity|]. split.
  - intros c p Hin. apply elem_of_cons in Hin as [Heq|Hin]; [discriminate|]. by apply elem_of_nil in Hin.
  - repeat constructor.
Qed.

Lemma newSwap_rejects_slipped_quote_witness :
  result_of (run (Liquality.newSwap
                    (Scenario.world (Scenario.withAgent (Ok (Scenario.locked 14900%Q))
                                       Scenario.calm))
                    (fun s => s) "mainnet" "w1" (Scenario.htlcSwap "QUOTE")) 0%nat)
  = Throw Liquality.slippageError.
Proof.
  apply (newSwap_rejects_slipped_quote nat
           (Scenario.world (Scenario.withAgent (Ok (Scenario.locked 14900%Q)) Scenario.calm))
           (fun s => s) "mainnet" "w1" (Scenario.htlcSwap "QUOTE") 0%nat 0%nat
           (Scenario.locked 14900%Q)).
  - reflexivity.
  - vm_compute. reflexivity.
Defined.

(** ** The record returned by the vault-deposit [newSwap] *)

Lemma dp0_value (x : Q) : (BN.dp 0 x == inject_Z (BN.round BN.ROUND_HALF_UP x))%Q.
Proof.
  unfold BN.dp, BN.decimalPlaces. change (inject_Z (10 ^ 0)) with 1%Q.
  rewrite (round_comp _ (x * 1)%Q x) by ring.
  unfold BN.ROUNDING_MODE. field.
Qed.

Lemma minimumOutput_slippage_50 (toAmount receiveFee : BN.t) (d : Z) :
  (Thorchain.minimumOutput toAmount receiveFee 50 d
   == inject_Z (-49 * BN.round BN.ROUND_HALF_UP (toAmount - receiveFee)))%Q.
Proof.
  unfold Thorchain.minimumOutput. rewrite dp0_value.
  change (Thorchain.amount (Thorchain.baseAmount (BN.minus toAmount receiveFee) d))
    with (BN.round BN.ROUND_HALF_UP (toAmount - receiveFee)%Q).
  set (a := BN.round BN.ROUND_HALF_UP (toAmount - receiveFee)%Q).
  unfold BN.multipliedBy, BN.minus.
  rewrite (round_comp _ _ (inject_Z (-49 * a))).
  - by rewrite round_half_up_integer.
  - rewrite inject_Z_mult. change (inject_Z (-49)) with (1 - 50)%Q. ring.
Qed.

(** C10. Whenever the vault-deposit [newSwap] returns, the record has
    [slippage] 50 whatever the quote's slippage was, [fee] copied from the
    quote, the updates of the approval (for a token) or of the deposit, and
    as [id] the value that [uuidv4] answers when it is called, once, after
    these updates are there: the run ends with that call, in the world the
    call leaves. [makeMemo] reads the slippage of the swap it is given, so
    that for a stored swap carrying this value the minimum output is computed
    with the coefficient [1 - 50]. *)
Theorem thorchain_newSwap_stores_slippage_50 :
  forall (W : Type) (E : Collaborators W) (cat : Catalog) (lib : Thorchain.Libs)
         (network : Network) (walletId : WalletId)
         (quote : Thorchain.SwapHistoryItem) (st st' : St W) (r : Thorchain.NewSwap),
    Thorchain.newSwap E cat lib network walletId quote st = (Ok r, st') ->
    Thorchain.ns_slippage r = 50%Q
    /\ Thorchain.ns_fee r = Thorchain.fee quote
    /\ (exists w1 tr1,
          (if isERC20 cat (Thorchain.from quote)
           then Thorchain.approveTokens E cat lib network walletId quote
           else Thorchain.sendSwap E cat lib network walletId quote) st
          = (Ok (Thorchain.ns_updates r), (w1, tr1))
          /\ uuidv4 E w1 = (Thorchain.ns_id r, fst st')
          /\ snd st' = tr1 ++ [EvUuid])
    /\ (forall (swap : Thorchain.SwapHistoryItem) (d : Z),
          Thorchain.slippage swap = Thorchain.ns_slippage r ->
          (Thorchain.minimumOutput (Thorchain.toAmount swap) (Thorchain.receiveFee swap)
             (Thorchain.slippage swap) d
           == inject_Z (-49 * BN.round BN.ROUND_HALF_UP
                                (Thorchain.toAmount swap - Thorchain.receiveFee swap)))%Q).
Proof.
  intros W E cat lib network walletId quote [w tr] [w' tr'] r Hrun.
  unfold Thorchain.newSwap in Hrun. cbv zeta in Hrun. unfold bind at 1 in Hrun.
  destruct ((if isERC20 cat (Thorchain.from quote)
             then Thorchain.approveTokens E cat lib network walletId quote
             else Thorchain.sendSwap E cat lib network walletId quote) (w, tr))
    as [[updates|e] [w1 tr1]] eqn:Hupdates; [|discriminate].
  unfold bind, freshUuid, ret in Hrun. simpl in Hrun.
  destruct (uuidv4 E w1) as [id w2] eqn:Hid.
  inversion Hrun; subst; clear Hrun. simpl.
  split; [reflexivity|]. split; [reflexivity|]. split.
  - exists w1, tr1. by rewrite Hid.
  - intros swap d Hslip. rewrite Hslip. apply minimumOutput_slippage_50.
Qed.

Lemma thorchain_newSwap_stores_slippage_50_witness :
  exists r st',
    Thorchain.newSwap (Scenario.world Scenario.calm) Scenario.catalog Scenario.libs
      "mainnet" "w1" (Scenario.vaultSwap "ETH" "QUOTE" 1000%Q 50%Q 0.02%Q) (0%nat, [])
    = (Ok r, st')
    /\ Thorchain.ns_slippage r = 50%Q
    /\ Thorchain.ns_id r = "4b7a6f0e-0000-4000-8000-000000000001"
    /\ List.last (snd st') EvNow = EvUuid.
Proof.
  destruct (Thorchain.newSwap (Scenario.world Scenario.calm) Scenario.catalog
              Scenario.libs "mainnet" "w1"
              (Scenario.vaultSwap "ETH" "QUOTE" 1000%Q 50%Q 0.02%Q) (0%nat, []))
    as [[r|e] st'] eqn:Hrun; [|vm_compute in Hrun; discriminate].
  exists r, st'. split; [reflexivity|].
  destruct (thorchain_newSwap_stores_slippage_50 nat (Scenario.world Scenario.calm)
              Scenario.catalog Scenario.libs "mainnet" "w1"
              (Scenario.vaultSwap "ETH" "QUOTE" 1000%Q 50%Q 0.02%Q) (0%nat, []) st' r
              Hrun) as (Hslip & _ & (w1 & tr1 & _ & Hid & Htrace) & _).
  split; [exact Hslip|]. split.
  - simpl in Hid. by injection Hid as <- _.
  - rewrite Htrace. apply last_last.
Defined.

(** ** The bounded retry *)

Lemma hasChainTimePassed_loop_contract {W : Type} (E : Collaborators W)
    (extra : nat) (client : ClientId) (timestamp0 : Z) (s0 : St W) :
  Liquality.hasChainTimePassed_loop E (3 + extra) client timestamp0 0 s0
  = hasChainTimePassed_contract E client timestamp0 s0.
Proof.
  unfold hasChainTimePassed_contract, chainRead, backoff.
  simpl. unfold catch, bind, call, ret, throw, consoleWarn, emit, wait. simpl.
  destruct s0 as [w0 tr0]. simpl.
  repeat (break_goal; simpl; try reflexivity).
  all: repeat rewrite <- app_assoc; reflexivity.
Qed.

(** C8. [hasChainTimePassed] behaves as its contract: it reads the chain
    (block height, then the block) at most three times, waits two seconds
    after each failed read but the last, raises the error of the third failed
    read, and on the first read that succeeds returns whether the block's
    timestamp is strictly greater than the given one. The loop needs no more
    than [maxTries] passes: more fuel changes nothing. *)
Theorem hasChainTimePassed_bounded_retry :
  forall (W : Type) (E : Collaborators W) (network : Network) (walletId : WalletId)
         (asset : Asset) (timestamp0 : Z) (accountId : AccountId),
    let client := getClient network walletId asset accountId in
    (forall s0,
        Liquality.hasChainTimePassed E network walletId asset timestamp0 accountId s0
        = hasChainTimePassed_contract E client timestamp0 s0)
    /\ (forall extra s0,
          Liquality.hasChainTimePassed_loop E (Liquality.maxTries + extra) client
            timestamp0 0 s0
          = Liquality.hasChainTimePassed E network walletId asset timestamp0 accountId s0)
    /\ (forall w,
          let outcome :=
            run (Liquality.hasChainTimePassed E network walletId asset timestamp0 accountId) w in
          (1 <= reads (trace_of outcome) <= 3)%nat
          /\ waits (trace_of outcome)
             = repeat (EvWait 2000) (reads (trace_of outcome) - 1)
          /\ (forall e, result_of outcome = Throw e -> reads (trace_of outcome) = 3%nat)
          /\ (forall v, result_of outcome = Ok v ->
               exists b, v = Some (timestamp b >? timestamp0))).
Proof.
  intros W E network walletId asset timestamp0 accountId client.
  assert (Hcontract : forall s0,
             Liquality.hasChainTimePassed E network walletId asset timestamp0 accountId s0
             = hasChainTimePassed_contract E client timestamp0 s0).
  { intros s0. exact (hasChainTimePassed_loop_contract E 0 client timestamp0 s0). }
  split; [exact Hcontract|]. split.
  - intros extra s0. rewrite Hcontract.
    exact (hasChainTimePassed_loop_contract E extra client timestamp0 s0).
  - intros w outcome. subst outcome. unfold run. rewrite Hcontract.
    unfold hasChainTimePassed_contract, chainRead, backoff, bind, call, ret, throw,
      result_of, trace_of.
    simpl.
    repeat (break_goal; simpl).
    all: unfold reads, waits; simpl;
      repeat split; intros; try reflexivity; try lia; try discriminate;
      match goal with H : Ok _ = Ok _ |- _ => inversion H; eauto end.
Qed.

Lemma hasChainTimePassed_bounded_retry_witness :
  let outcome :=
    run (Liquality.hasChainTimePassed
           (Scenario.world (Scenario.withFailedReads 3 Scenario.calm))
           "mainnet" "w1" "BTC" 9000 "acc-btc") 0%nat in
  result_of outcome = Throw Scenario.rpcError
  /\ reads (trace_of outcome) = 3%nat.
Proof.
  intros outcome.
  assert (Hthrow : result_of outcome = Throw Scenario.rpcError)
    by (vm_compute; reflexivity).
  split; [exact Hthrow|].
  destruct (hasChainTimePassed_bounded_retry nat
              (Scenario.world (Scenario.withFailedReads 3 Scenario.calm))
              "mainnet" "w1" "BTC" 9000 "acc-btc") as (_ & _ & Hcount).
  destruct (Hcount 0%nat) as (_ & _ & Hall & _).
  exact (Hall Scenario.rpcError Hthrow).
Defined.

(** ** Lookups that fail *)

Lemma bind_ret_run {W A : Type} (m : M W A) (s : St W) :
  bind m (fun a => ret a) s = m s.
Proof. unfold bind, ret. by destruct (m s) as [[a|e] s']. Qed.

Section FailedLookup.
Context {W : Type} (E : Collaborators W) (cat : Catalog) (lib : Thorchain.Libs).
Context (network : Network) (walletId : WalletId).

Lemma waitForRefundConfirmations_failed_lookup swap w tr e w' :
  let c := getClient network walletId (Liquality.from swap) (Liquality.fromAccountId swap) in
  chain_getTransactionByHash E c (Liquality.refundHash swap) w = (Throw e, w') ->
  Liquality.waitForRefundConfirmations E network walletId swap (w, tr)
  = tickAfter c (Liquality.refundHash swap) e w' tr.
Proof.
  intros c H. unfold Liquality.waitForRefundConfirmations, tickAfter, catch, bind,
    chainGetTransactionByHash, call, Liquality.isTxNotFound. simpl.
  fold c. rewrite H. simpl. by destruct (String.eqb (name e) _).
Qed.

Lemma waitForApproveConfirmations_failed_lookup swap w tr e w' :
  let c := getClient network walletId (Thorchain.from swap) (Thorchain.fromAccountId swap) in
  chain_getTransactionByHash E c (Thorchain.approveTxHash swap) w = (Throw e, w') ->
  Thorchain.waitForApproveConfirmations E network walletId swap (w, tr)
  = tickAfter c (Thorchain.approveTxHash swap) e w' tr.
Proof.
  intros c H. unfold Thorchain.waitForApproveConfirmations, tickAfter, catch, bind,
    chainGetTransactionByHash, call, Thorchain.isTxNotFound. simpl.
  fold c. rewrite H. simpl. by destruct (String.eqb (name e) _).
Qed.

Lemma waitForSendConfirmations_failed_lookup swap w tr e w' :
  let c := getClient network walletId (Thorchain.from swap) (Thorchain.fromAccountId swap) in
  chain_getTransactionByHash E c (Thorchain.fromFundHash swap) w = (Throw e, w') ->
  Thorchain.waitForSendConfirmations E network walletId swap (w, tr)
  = tickAfter c (Thorchain.fromFundHash swap) e w' tr.
Proof.
  intros c H. unfold Thorchain.waitForSendConfirmations, tickAfter, catch, bind,
    chainGetTransactionByHash, call, Thorchain.isTxNotFound. simpl.
  fold c. rewrite H. simpl. by destruct (String.eqb (name e) _).
Qed.

Lemma confirmInitiation_failed_lookup swap st w1 tr1 e w2 :
  let c := getClient network walletId (Liquality.from swap) (Liquality.fromAccountId swap) in
  Liquality.findCounterPartyInitiation E cat network walletId swap st = (Ok None, (w1, tr1)) ->
  chain_getTransactionByHash E c (Liquality.fromFundHash swap) w1 = (Throw e, w2) ->
  Liquality.confirmInitiation E cat network walletId swap st
  = tickAfter c (Liquality.fromFundHash swap) e w2 tr1.
Proof.
  intros c Hfind H. unfold Liquality.confirmInitiation. unfold bind at 1.
  rewrite Hfind. unfold tickAfter, catch, bind,
    chainGetTransactionByHash, call, Liquality.isTxNotFound. simpl.
  fold c. rewrite H. simpl. by destruct (String.eqb (name e) _).
Qed.

Lemma waitForClaimConfirmations_failed_lookup swap w tr e w' :
  let c := getClient network walletId (Liquality.to swap) (Liquality.toAccountId swap) in
  chain_getTransactionByHash E c (Liquality.toClaimHash swap) w = (Throw e, w') ->
  Liquality.waitForClaimConfirmations E network walletId swap (w, tr)
  = if String.eqb (name e) "TxNotFoundError"
    then Liquality.handleExpirations E network walletId swap
           (w', (tr ++ [EvGetTransactionByHash c (Liquality.toClaimHash swap)]) ++ [EvWarn e])
    else (Throw e, (w', tr ++ [EvGetTransactionByHash c (Liquality.toClaimHash swap)])).
Proof.
  intros c H. unfold Liquality.waitForClaimConfirmations. cbv zeta. fold c.
  unfold bind at 1. unfold catch. unfold bind at 1.
  unfold chainGetTransactionByHash, call at 1. simpl. rewrite H.
  unfold Liquality.isTxNotFound. destruct (String.eqb (name e) _); simpl; [|reflexivity].
  apply bind_ret_run.
Qed.

Lemma findCounterPartyInitiation_failed_lookup swap w tr e w' :
  let c := getClient network walletId (Liquality.to swap) (Liquality.toAccountId swap) in
  swap_findInitiateSwapTransaction E c (Liquality.toParams swap) w = (Throw e, w') ->
  Liquality.findCounterPartyInitiation E cat network walletId swap (w, tr)
  = if Liquality.notYetVisible e
    then Liquality.handleExpirations E network walletId swap
           (w', (tr ++ [EvFindInitiateSwapTransaction c (Liquality.toParams swap)])
                ++ [EvWarn e])
    else (Throw e, (w', tr ++ [EvFindInitiateSwapTransaction c (Liquality.toParams swap)])).
Proof.
  intros c H. unfold Liquality.findCounterPartyInitiation. cbv zeta. fold c.
  unfold bind at 1. unfold catch. unfold bind at 1.
  unfold call at 1. simpl. rewrite H.
  destruct (Liquality.notYetVisible e); simpl; [|reflexivity].
  apply bind_ret_run.
Qed.

Lemma waitForReceive_failed_lookup swap st t1 s1 h t2 w2 tr2 text e w3 :
  let target := if String.eqb (Thorchain.beforeColon text) "OUT"
                then (Thorchain.to swap, Thorchain.toAccountId swap)
                else (Thorchain.from swap, Thorchain.fromAccountId swap) in
  let c := getClient network walletId (fst target) (snd target) in
  Thorchain._getTransaction E (Thorchain.fromFundHash swap) st = (Ok t1, s1) ->
  Thorchain.firstOutHash t1 = Some h ->
  Thorchain._getTransaction E h s1 = (Ok (Some t2), (w2, tr2)) ->
  Thorchain.memoOf t2 = Some text ->
  Thorchain.beforeColon text = "OUT" \/ Thorchain.beforeColon text = "REFUND" ->
  chain_getTransactionByHash E c h w2 = (Throw e, w3) ->
  Thorchain.waitForReceive E network walletId swap st = tickAfter c h e w3 tr2.
Proof.
  intros target c H1 Hh H2 Hmemo Haction H.
  unfold Thorchain.waitForReceive, catch. unfold bind at 1. rewrite H1, Hh.
  unfold bind at 1. rewrite H2. unfold bind at 1, lift at 1. rewrite Hmemo.
  unfold tickAfter, Thorchain.isTxNotFound.
  subst c target.
  destruct Haction as [Ha|Ha]; rewrite Ha in *; simpl in H; simpl;
    unfold bind, ret, chainGetTransactionByHash, call; simpl; rewrite H; simpl;
    by destruct (String.eqb (name e) _).
Qed.
End FailedLookup.

(** C7 (amended). In the polling handlers that look a transaction up inside
    a [try] block, a [TxNotFoundError] raised by the lookup is not raised to
    the caller. [waitForRefundConfirmations], [waitForApproveConfirmations],
    [waitForSendConfirmations], [waitForReceive] and [confirmInitiation]
    (once its search for the counterparty returned nothing) warn and return
    no result for the tick; [waitForClaimConfirmations] and
    [findCounterPartyInitiation] (which tolerates [BlockNotFoundError] and
    [PendingTxError] as well) warn and go on to the expiration check, whose
    outcome they return. Every other error of the lookup is re-raised. *)
Theorem not_found_is_not_raised :
  forall (W : Type) (E : Collaborators W) (cat : Catalog)
         (network : Network) (walletId : WalletId),
    (forall swap w tr e w',
        let c := getClient network walletId (Liquality.from swap)
                   (Liquality.fromAccountId swap) in
        chain_getTransactionByHash E c (Liquality.refundHash swap) w = (Throw e, w') ->
        Liquality.waitForRefundConfirmations E network walletId swap (w, tr)
        = tickAfter c (Liquality.refundHash swap) e w' tr)
    /\ (forall swap w tr e w',
          let c := getClient network walletId (Thorchain.from swap)
                     (Thorchain.fromAccountId swap) in
          chain_getTransactionByHash E c (Thorchain.approveTxHash swap) w = (Throw e, w') ->
          Thorchain.waitForApproveConfirmations E network walletId swap (w, tr)
          = tickAfter c (Thorchain.approveTxHash swap) e w' tr)
    /\ (forall swap w tr e w',
          let c := getClient network walletId (Thorchain.from swap)
                     (Thorchain.fromAccountId swap) in
          chain_getTransactionByHash E c (Thorchain.fromFundHash swap) w = (Throw e, w') ->
          Thorchain.waitForSendConfirmations E network walletId swap (w, tr)
          = tickAfter c (Thorchain.fromFundHash swap) e w' tr)
    /\ (forall swap st t1 s1 h t2 w2 tr2 text e w3,
          let target := if String.eqb (Thorchain.beforeColon text) "OUT"
                        then (Thorchain.to swap, Thorchain.toAccountId swap)
                        else (Thorchain.from swap, Thorchain.fromAccountId swap) in
          let c := getClient network walletId (fst target) (snd target) in
          Thorchain._getTransaction E (Thorchain.fromFundHash swap) st = (Ok t1, s1) ->
          Thorchain.firstOutHash t1 = Some h ->
          Thorchain._getTransaction E h s1 = (Ok (Some t2), (w2, tr2)) ->
          Thorchain.memoOf t2 = Some text ->
          Thorchain.beforeColon text = "OUT" \/ Thorchain.beforeColon text = "REFUND" ->
          chain_getTransactionByHash E c h w2 = (Throw e, w3) ->
          Thorchain.waitForReceive E network walletId swap st = tickAfter c h e w3 tr2)
    /\ (forall swap st w1 tr1 e w2,
          let c := getClient network walletId (Liquality.from swap)
                     (Liquality.fromAccountId swap) in
          Liquality.findCounterPartyInitiation E cat network walletId swap st
          = (Ok None, (w1, tr1)) ->
          chain_getTransactionByHash E c (Liquality.fromFundHash swap) w1 = (Throw e, w2) ->
          Liquality.confirmInitiation E cat network walletId swap st
          = tickAfter c (Liquality.fromFundHash swap) e w2 tr1)
    /\ (forall swap w tr e w',
          let c := getClient network walletId (Liquality.to swap)
                     (Liquality.toAccountId swap) in
          chain_getTransactionByHash E c (Liquality.toClaimHash swap) w = (Throw e, w') ->
          Liquality.waitForClaimConfirmations E network walletId swap (w, tr)
          = if String.eqb (name e) "TxNotFoundError"
            then Liquality.handleExpirations E network walletId swap
                   (w', (tr ++ [EvGetTransactionByHash c (Liquality.toClaimHash swap)])
                        ++ [EvWarn e])
            else (Throw e,
                  (w', tr ++ [EvGetTransactionByHash c (Liquality.toClaimHash swap)])))
    /\ (forall swap w tr e w',
          let c := getClient network walletId (Liquality.to swap)
                     (Liquality.toAccountId swap) in
          swap_findInitiateSwapTransaction E c (Liquality.toParams swap) w = (Throw e, w') ->
          Liquality.findCounterPartyInitiation E cat network walletId swap (w, tr)
          = if Liquality.notYetVisible e
            then Liquality.handleExpirations E network walletId swap
                   (w', (tr ++ [EvFindInitiateSwapTransaction c (Liquality.toParams swap)])
                        ++ [EvWarn e])
            else (Throw e,
                  (w', tr ++ [EvFindInitiateSwapTransaction c (Liquality.toParams swap)]))).
Proof.
  intros W E cat network walletId.
  split; [apply waitForRefundConfirmations_failed_lookup|].
  split; [apply waitForApproveConfirmations_failed_lookup|].
  split; [apply waitForSendConfirmations_failed_lookup|].
  split; [apply waitForReceive_failed_lookup|].
  split; [apply confirmInitiation_failed_lookup|].
  split; [apply waitForClaimConfirmations_failed_lookup|].
  apply findCounterPartyInitiation_failed_lookup.
Qed.

Lemma not_found_is_not_raised_witness :
  Liquality.waitForRefundConfirmations (Scenario.world Scenario.calm) "mainnet" "w1"
    (Scenario.htlcSwap "WAITING_FOR_REFUND_CONFIRMATIONS") (0%nat, [])
  = (Ok None,
     (0%nat,
      [EvGetTransactionByHash (getClient "mainnet" "w1" "BTC" "acc-btc") "refund";
       EvWarn Scenario.txNotFound])).
Proof.
  destruct (not_found_is_not_raised nat (Scenario.world Scenario.calm) Scenario.catalog
              "mainnet" "w1") as [Hrefund _].
  exact (Hrefund (Scenario.htlcSwap "WAITING_FOR_REFUND_CONFIRMATIONS") 0%nat []
           Scenario.txNotFound 0%nat eq_refl).
Defined.

(** C7, as stated, fails: [waitForClaimConfirmations] is run with
    [withInterval]; when the lookup of the claim transaction raises
    [TxNotFoundError] and the chain clock has passed the swap's expiration,
    the tick returns the update [{ status: 'GET_REFUND' }], not nothing. *)
Lemma not_found_may_return_an_update :
  let swap := Scenario.htlcSwap "WAITING_FOR_CLAIM_CONFIRMATIONS" in
  let E := Scenario.world Scenario.expired in
  (exists action,
      Liquality.performNextSwapAction E Scenario.catalog "mainnet" "w1" swap
      = Some (Liquality.WithInterval, action))
  /\ fst (chain_getTransactionByHash E (getClient "mainnet" "w1" "ETH" "acc-eth")
            (Liquality.toClaimHash swap) 0%nat)
     = Throw Scenario.txNotFound
  /\ result_of (run (Liquality.transition E Scenario.catalog "mainnet" "w1" swap) 0%nat)
     = Ok (Some (Liquality.statusOnly "GET_REFUND"))
  /\ result_of (run (Liquality.transition E Scenario.catalog "mainnet" "w1" swap) 0%nat)
     <> Ok None.
Proof.
  split; [eexists; reflexivity|].
  split; [reflexivity|].
  split; [vm_compute; reflexivity|].
  vm_compute. discriminate.
Qed.

(** ** Updates that end a swap

    Every update of the HTLC handlers, and of [waitForReceive], that sets
    [endTime] carries [SUCCESS] or [REFUNDED]. *)

Ltac ended_steps :=
  repeat (triple_step; try exact I; try (left; reflexivity); try (right; reflexivity)).

Ltac pass H := apply triple_ret; exact H.

Section Ended.
Context {W : Type} (E : Collaborators W) (cat : Catalog) (lib : Thorchain.Libs).
Context (network : Network) (walletId : WalletId).

Lemma handleExpirations_not_ended swap :
  triple (fun _ => True) (Liquality.handleExpirations E network walletId swap)
    (returning liquality_final_if_ended).
Proof.
  unfold Liquality.handleExpirations, Liquality.canRefund, Liquality.hasSwapExpired,
    Liquality.hasChainTimePassed.
  triple_step; [ended_steps|].
  triple_step; [apply hasChainTimePassed_loop_passive, passive_any|].
  triple_step; [ended_steps|].
  triple_step; [apply hasChainTimePassed_loop_passive, passive_any|].
  ended_steps.
Qed.

Lemma findCounterPartyInitiation_not_ended swap :
  triple (fun _ => True) (Liquality.findCounterPartyInitiation E cat network walletId swap)
    (returning liquality_final_if_ended).
Proof.
  unfold Liquality.findCounterPartyInitiation. cbv zeta.
  eapply (returning_bind _ _ _ liquality_final_if_ended).
  - ended_steps.
  - intros [u|] Hu; [pass Hu|].
    eapply returning_bind; [apply handleExpirations_not_ended|].
    intros o Ho. pass Ho.
Qed.

Lemma liquality_transition_final_if_ended swap :
  triple (fun _ => True) (Liquality.transition E cat network walletId swap)
    (returning liquality_final_if_ended).
Proof.
  unfold Liquality.transition, Liquality.performNextSwapAction. cbv zeta.
  repeat match goal with
         | |- context [if String.eqb (Liquality.status swap) ?x then _ else _] =>
             destruct (String.eqb (Liquality.status swap) x)
         end.
  - unfold Liquality.reportInitiation, Liquality.hasQuoteExpired, Liquality.updateOrder.
    ended_steps.
  - unfold Liquality.confirmInitiation.
    eapply returning_bind; [apply findCounterPartyInitiation_not_ended|].
    intros [u|] Hu; [pass Hu|]. cbv zeta. ended_steps.
  - unfold Liquality.fundSwap, Liquality.hasQuoteExpired. cbv zeta. ended_steps.
  - apply findCounterPartyInitiation_not_ended.
  - unfold Liquality.confirmCounterPartyInitiation. cbv zeta.
    do 3 (triple_step; [ended_steps|]).
    eapply returning_bind; [apply handleExpirations_not_ended|].
    intros o Ho. pass Ho.
  - unfold Liquality.claimSwap.
    eapply returning_bind; [apply handleExpirations_not_ended|].
    intros [u|] Hu; [pass Hu|]. cbv zeta. ended_steps.
  - unfold Liquality.waitForClaimConfirmations. cbv zeta.
    eapply (returning_bind _ _ _ liquality_final_if_ended).
    + ended_steps.
    + intros [u|] Hu; [pass Hu|].
      eapply returning_bind; [apply handleExpirations_not_ended|].
      intros o Ho. pass Ho.
  - unfold Liquality.waitForRefund, Liquality.canRefund, Liquality.hasChainTimePassed.
    triple_step; [apply hasChainTimePassed_loop_passive, passive_any|].
    ended_steps.
  - unfold Liquality.refundSwap. cbv zeta. ended_steps.
  - unfold Liquality.waitForRefundConfirmations. cbv zeta. ended_steps.
  - ended_steps.
Qed.

Lemma waitForReceive_final_if_ended swap :
  triple (fun _ => True) (Thorchain.waitForReceive E network walletId swap)
    (returning thorchain_final_if_ended).
Proof.
  intros w tr r w' tr' Hrun _. split; [|by apply Forall_forall].
  unfold Thorchain.waitForReceive, Thorchain._getTransaction, catch, bind, lift,
    chainGetTransactionByHash, call, startUpdateBalances, dateNow, consoleWarn, emit,
    ret, throw, Thorchain.OUT_MEMO_TO_STATUS in Hrun.
  simpl in Hrun.
  repeat (break_run Hrun; simpl in Hrun; try discriminate).
  all: inversion Hrun; subst; simpl; auto.
Qed.

End Ended.

(** ** Where the code departs from its own notes *)

Lemma thorchain_not_terminal (s : string) :
  is_Some (Thorchain.performNextSwapAction (Scenario.world Scenario.calm) Scenario.catalog
             Scenario.libs "mainnet" "w1"
             (Scenario.vaultSwap "ETH" s 1000%Q 50%Q 0.02%Q)) ->
  ~ thorchain_terminal s.
Proof.
  intros [x Hx] [_ Hnone].
  rewrite (Hnone nat (Scenario.world Scenario.calm) Scenario.catalog Scenario.libs
             "mainnet" "w1" (Scenario.vaultSwap "ETH" s 1000%Q 50%Q 0.02%Q) eq_refl) in Hx.
  discriminate.
Qed.

(** C4 at its failing inputs. When the approval (resp. deposit) transaction
    of a vault-deposit swap has a confirmation, [waitForApproveConfirmations]
    (resp. [waitForSendConfirmations]) returns [endTime] together with the
    status [APPROVE_CONFIRMED] (resp. [WAITING_FOR_RECEIVE]), from which the
    dispatch selects a further action: [endTime] is paired with a status
    that is not terminal. *)
Theorem confirmation_waits_set_endTime_before_the_end :
  let E := Scenario.world (Scenario.found (Some 1)) in
  let approving :=
    Scenario.vaultSwap "DAI" "WAITING_FOR_APPROVE_CONFIRMATIONS" 1000%Q 50%Q 0.02%Q in
  let sending :=
    Scenario.vaultSwap "DAI" "WAITING_FOR_SEND_CONFIRMATIONS" 1000%Q 50%Q 0.02%Q in
  result_of (run (Thorchain.transition E Scenario.catalog Scenario.libs "mainnet" "w1"
                    approving) 0%nat)
  = Ok (Some (Thorchain.stamped 1000 "APPROVE_CONFIRMED"))
  /\ Thorchain.upd_endTime (Thorchain.stamped 1000 "APPROVE_CONFIRMED") = Some 1000
  /\ ~ thorchain_terminal "APPROVE_CONFIRMED"
  /\ result_of (run (Thorchain.transition E Scenario.catalog Scenario.libs "mainnet" "w1"
                       sending) 0%nat)
     = Ok (Some (Thorchain.stamped 1000 "WAITING_FOR_RECEIVE"))
  /\ ~ thorchain_terminal "WAITING_FOR_RECEIVE".
Proof.
  split; [vm_compute; reflexivity|].
  split; [reflexivity|].
  split; [apply thorchain_not_terminal; eexists; reflexivity|].
  split; [vm_compute; reflexivity|].
  apply thorchain_not_terminal; eexists; reflexivity.
Qed.

(** C5 at its failing inputs. The claim transaction is found with zero
    confirmations, and [waitForClaimConfirmations] enters
    [handleExpirations]; the counterparty's funding transaction is found
    with one confirmation where three are required, and
    [confirmCounterPartyInitiation] enters [handleExpirations]; either time
    the clocks of both chains are read. When that lookup instead raises
    [TxNotFoundError], [confirmCounterPartyInitiation] raises it and the
    expiration check is not reached. *)
Theorem expiration_check_runs_after_a_found_transaction :
  let claiming := Scenario.htlcSwap "WAITING_FOR_CLAIM_CONFIRMATIONS" in
  let confirming := Scenario.htlcSwap "CONFIRM_COUNTER_PARTY_INITIATION" in
  let toClient := getClient "mainnet" "w1" "ETH" "acc-eth" in
  (let E := Scenario.world (Scenario.found (Some 0)) in
   fst (chain_getTransactionByHash E toClient (Liquality.toClaimHash claiming) 0%nat)
   = Ok (Some {| hash := "claim"; confirmations := Some 0 |})
   /\ expiration_checked
        (trace_of (run (Liquality.waitForClaimConfirmations E "mainnet" "w1" claiming) 0%nat))
      = true
   /\ reads (trace_of (run (Liquality.waitForClaimConfirmations E "mainnet" "w1" claiming)
                          0%nat))
      = 2%nat)
  /\ (let E := Scenario.world (Scenario.found (Some 1)) in
      fst (chain_getTransactionByHash E toClient (Liquality.toFundHash confirming) 0%nat)
      = Ok (Some {| hash := "cpfund"; confirmations := Some 1 |})
      /\ expiration_checked
           (trace_of (run (Liquality.confirmCounterPartyInitiation E Scenario.catalog
                             "mainnet" "w1" confirming) 0%nat))
         = true
      /\ reads (trace_of (run (Liquality.confirmCounterPartyInitiation E Scenario.catalog
                                "mainnet" "w1" confirming) 0%nat))
         = 2%nat)
  /\ (let E := Scenario.world Scenario.calm in
      let outcome := run (Liquality.confirmCounterPartyInitiation E Scenario.catalog
                            "mainnet" "w1" confirming) 0%nat in
      fst (chain_getTransactionByHash E toClient (Liquality.toFundHash confirming) 0%nat)
      = Throw Scenario.txNotFound
      /\ result_of outcome = Throw Scenario.txNotFound
      /\ expiration_checked (trace_of outcome) = false
      /\ reads (trace_of outcome) = 0%nat).
Proof.
  repeat split; vm_compute; reflexivity.
Qed.

(** ** Ticks without news *)

Lemma no_news_unconfirmed (t : option Transaction) :
  no_news (Ok t) -> hasConfirmations t = false.
Proof.
  destruct t as [t|]; simpl; [|done].
  unfold hasConfirmations. by intros [-> | ->].
Qed.

Lemma no_news_not_found (e : JsError) :
  no_news (Throw e) -> String.eqb (name e) "TxNotFoundError" = true.
Proof. simpl. intros ->. reflexivity. Qed.

Section QuietLiquality.
Context {W : Type} (E : Collaborators W) (cat : Catalog).
Context (network : Network) (walletId : WalletId).
Variable swap : Liquality.SwapHistoryItem.
Hypothesis Hquiet : quiet_chain E.
Hypothesis Hnone : no_counterparty E.
Hypothesis Htime : before_expirations E swap.

Lemma yields_bind {A B} (m : M W A) (k : A -> M W B) (a : A) (b : B) :
  yields m a -> yields (k a) b -> yields (bind m k) b.
Proof.
  intros Hm Hk st. destruct (Hm st) as [st1 H1]. destruct (Hk st1) as [st2 H2].
  exists st2. unfold bind. by rewrite H1.
Qed.

Lemma yields_ret {A} (a : A) : yields (ret (W := W) a) a.
Proof. intros st. by exists st. Qed.

Lemma yields_emit (ev : Event) : yields (emit (W := W) ev) tt.
Proof. intros st. eexists. reflexivity. Qed.

Lemma hasChainTimePassed_not_yet asset accountId timestamp0 :
  (forall b : Block,
      (exists c n w, fst (chain_getBlockByNumber E c n w) = Ok (Some b)) ->
      timestamp b <= timestamp0) ->
  yields (Liquality.hasChainTimePassed E network walletId asset timestamp0 accountId)
    (Some false).
Proof.
  intros Hts [w tr]. destruct Htime as [Hheight Hblock].
  unfold Liquality.hasChainTimePassed. cbv zeta.
  rewrite (hasChainTimePassed_loop_contract E 0).
  set (c := getClient network walletId asset accountId).
  destruct (Hheight c w) as [n Hn].
  destruct (chain_getBlockHeight E c w) as [r w1] eqn:Hh. simpl in Hn. subst r.
  destruct (Hblock c n w1) as (b & Hb & _).
  assert (Hle : timestamp b <= timestamp0) by (apply Hts; eauto).
  destruct (chain_getBlockByNumber E c n w1) as [r w2] eqn:Hg. simpl in Hb. subst r.
  unfold hasChainTimePassed_contract, chainRead, bind, call. simpl.
  rewrite Hh. simpl. rewrite Hg. simpl.
  eexists. do 3 f_equal. rewrite Z.gtb_ltb. apply Z.ltb_ge. exact Hle.
Qed.

Lemma handleExpirations_none :
  yields (Liquality.handleExpirations E network walletId swap) None.
Proof.
  destruct Htime as [Hheight Hblock].
  unfold Liquality.handleExpirations.
  eapply yields_bind; [apply yields_emit|].
  eapply yields_bind.
  { apply hasChainTimePassed_not_yet. intros b (c & n & w & Hb).
    destruct (Hblock c n w) as (b' & Hb' & Hle & _). congruence. }
  simpl. eapply yields_bind.
  { apply hasChainTimePassed_not_yet. intros b (c & n & w & Hb).
    destruct (Hblock c n w) as (b' & Hb' & _ & Hle). congruence. }
  simpl. apply yields_ret.
Qed.

Lemma waitForRefund_none :
  yields (Liquality.waitForRefund E network walletId swap) None.
Proof.
  destruct Htime as [Hheight Hblock].
  unfold Liquality.waitForRefund.
  eapply yields_bind.
  { apply hasChainTimePassed_not_yet. intros b (c & n & w & Hb).
    destruct (Hblock c n w) as (b' & Hb' & Hle & _). congruence. }
  simpl. apply yields_ret.
Qed.

(** A lookup without news, inside the usual [try] block, ends in nothing. *)
Lemma quiet_lookup_none {A} (c : ClientId) (h : string)
    (confirmed : M W (option A)) :
  yields
    (catch
       (tx <- chainGetTransactionByHash E c h ;;
        if hasConfirmations tx then confirmed else ret None)
       (fun e => if String.eqb (name e) "TxNotFoundError"
                 then consoleWarn e ;;; ret None else throw e))
    None.
Proof.
  intros [w tr]. unfold catch, bind, chainGetTransactionByHash, call. simpl.
  pose proof (Hquiet c h w) as Hq.
  destruct (chain_getTransactionByHash E c h w) as [[t|e] w1]; simpl in *.
  - rewrite (no_news_unconfirmed t Hq). eexists. reflexivity.
  - rewrite (no_news_not_found e Hq). eexists. reflexivity.
Qed.

Lemma waitForRefundConfirmations_none :
  yields (Liquality.waitForRefundConfirmations E network walletId swap) None.
Proof. apply quiet_lookup_none. Qed.

Lemma waitForClaimConfirmations_none :
  yields (Liquality.waitForClaimConfirmations E network walletId swap) None.
Proof.
  unfold Liquality.waitForClaimConfirmations. cbv zeta.
  eapply yields_bind.
  - intros [w tr]. unfold catch, bind, chainGetTransactionByHash, call. simpl.
    pose proof (Hquiet (getClient network walletId (Liquality.to swap)
                          (Liquality.toAccountId swap))
                  (Liquality.toClaimHash swap) w) as Hq.
    destruct (chain_getTransactionByHash E _ _ w) as [[t|e] w1]; simpl in *.
    + rewrite (no_news_unconfirmed t Hq). eexists. reflexivity.
    + unfold Liquality.isTxNotFound. rewrite (no_news_not_found e Hq).
      eexists. reflexivity.
  - simpl. eapply yields_bind; [apply handleExpirations_none|]. apply yields_ret.
Qed.

Lemma findCounterPartyInitiation_none :
  yields (Liquality.findCounterPartyInitiation E cat network walletId swap) None.
Proof.
  unfold Liquality.findCounterPartyInitiation. cbv zeta.
  eapply yields_bind.
  - intros [w tr]. unfold catch, bind, call. simpl.
    pose proof (Hnone (getClient network walletId (Liquality.to swap)
                         (Liquality.toAccountId swap))
                  (Liquality.toParams swap) w) as Hq.
    destruct (swap_findInitiateSwapTransaction E _ _ w) as [[[t|]|e] w1]; simpl in *.
    + contradiction.
    + eexists. reflexivity.
    + rewrite Hq. eexists. reflexivity.
  - simpl. eapply yields_bind; [apply handleExpirations_none|]. apply yields_ret.
Qed.

Lemma confirmInitiation_none :
  yields (Liquality.confirmInitiation E cat network walletId swap) None.
Proof.
  unfold Liquality.confirmInitiation.
  eapply yields_bind; [apply findCounterPartyInitiation_none|].
  cbv zeta. simpl.
  apply quiet_lookup_none.
Qed.

(** The lookup of [confirmCounterPartyInitiation] is not guarded: an error
    of the client is raised. *)
Lemma confirmCounterPartyInitiation_quiet :
  forall st, exists st',
    Liquality.confirmCounterPartyInitiation E cat network walletId swap st
    = (unguarded
         (fst (chain_getTransactionByHash E
                 (getClient network walletId (Liquality.to swap)
                    (Liquality.toAccountId swap))
                 (Liquality.toFundHash swap) (fst st))), st').
Proof.
  intros [w tr].
  unfold Liquality.confirmCounterPartyInitiation. cbv zeta.
  unfold bind at 1. unfold chainGetTransactionByHash, call at 1. simpl.
  set (c := getClient network walletId (Liquality.to swap) (Liquality.toAccountId swap)).
  pose proof (Hquiet c (Liquality.toFundHash swap) w) as Hq.
  destruct (chain_getTransactionByHash E c (Liquality.toFundHash swap) w)
    as [[t|e] w1]; simpl in *; [|eexists; reflexivity].
  assert (Hready : forall st,
             (match t return M W bool with
              | Some t0 =>
                  if truthyNum (confirmations t0)
                  then safe <- lift (safeConfirmationsOf cat (Liquality.to swap)) ;;
                       ret (geNum (confirmations t0) safe)
                  else ret false
              | None => ret false
              end) st = (Ok false, st)).
  { intros st. destruct t as [t|]; [|reflexivity].
    simpl in Hq. by destruct Hq as [-> | ->]. }
  unfold bind at 1. rewrite Hready.
  destruct (handleExpirations_none (w1, tr ++ [EvGetTransactionByHash c (Liquality.toFundHash swap)]))
    as [st' Hexp].
  exists st'. unfold bind, ret. by rewrite Hexp.
Qed.
End QuietLiquality.

Section QuietThorchain.
Context {W : Type} (E : Collaborators W) (cat : Catalog) (lib : Thorchain.Libs).
Context (network : Network) (walletId : WalletId).
Variable swap : Thorchain.SwapHistoryItem.

Lemma waitForApproveConfirmations_none :
  quiet_chain E ->
  yields (Thorchain.waitForApproveConfirmations E network walletId swap) None.
Proof. intros Hquiet. by apply quiet_lookup_none. Qed.

Lemma waitForSendConfirmations_none :
  quiet_chain E ->
  yields (Thorchain.waitForSendConfirmations E network walletId swap) None.
Proof. intros Hquiet. by apply quiet_lookup_none. Qed.

Lemma waitForReceive_none :
  no_outbound E ->
  yields (Thorchain.waitForReceive E network walletId swap) None.
Proof.
  intros Hout [w tr].
  unfold Thorchain.waitForReceive, Thorchain._getTransaction, catch, bind, call. simpl.
  pose proof (Hout (Thorchain.fromFundHash swap) w) as Hq.
  destruct (thornodeTx E (Thorchain.fromFundHash swap) w) as [[t|e] w1]; simpl in *.
  - rewrite Hq. eexists. reflexivity.
  - eexists. reflexivity.
Qed.

Lemma waitForReceive_pending (out text : string) :
  outbound_unconfirmed E out text ->
  forall st, exists t st',
    Thorchain.waitForReceive E network walletId swap st
    = (Ok (Some (pendingReceipt t)), st').
Proof.
  intros (Hthor & Haction & Hchain) [w tr].
  unfold Thorchain.waitForReceive, Thorchain._getTransaction.
  unfold catch at 1. unfold bind at 1. unfold catch at 1. unfold call at 1. simpl.
  destruct (Hthor (Thorchain.fromFundHash swap) w) as (t1 & Ht1 & Hout1 & _).
  destruct (thornodeTx E (Thorchain.fromFundHash swap) w) as [r1 w1].
  simpl in Ht1. subst r1. rewrite Hout1.
  unfold bind at 1. unfold catch at 1. unfold call at 1. simpl.
  destruct (Hthor out w1) as (t2 & Ht2 & _ & Hmemo).
  destruct (thornodeTx E out w1) as [r2 w2]. simpl in Ht2. subst r2.
  unfold bind at 1, lift at 1. rewrite Hmemo.
  set (target := if String.eqb (Thorchain.beforeColon text) "OUT"
                 then (Thorchain.to swap, Thorchain.toAccountId swap)
                 else (Thorchain.from swap, Thorchain.fromAccountId swap)).
  destruct (Hchain (getClient network walletId (fst target) (snd target)) out w2)
    as (t & Ht & Hconf).
  exists t.
  destruct (chain_getTransactionByHash E _ out w2) as [r3 w3] eqn:Hlookup.
  simpl in Ht. subst r3. subst target. simpl in Hconf.
  destruct Haction as [Ha|Ha]; rewrite Ha in *; simpl in Hlookup; simpl;
    unfold bind, ret, chainGetTransactionByHash, call; simpl; rewrite Hlookup; simpl;
    rewrite Hconf; eexists; reflexivity.
Qed.
End QuietThorchain.


Lemma liquality_waiting_action {W : Type} (E : Collaborators W) (cat : Catalog)
    (network : Network) (walletId : WalletId) (swap : Liquality.SwapHistoryItem)
    (action : M W (option Liquality.Updates)) :
  Liquality.performNextSwapAction E cat network walletId swap
  = Some (Liquality.WithInterval, action) ->
  Liquality.transition E cat network walletId swap = action
  /\ (action = Liquality.confirmInitiation E cat network walletId swap
      \/ action = Liquality.findCounterPartyInitiation E cat network walletId swap
      \/ (Liquality.status swap = "CONFIRM_COUNTER_PARTY_INITIATION"
          /\ action = Liquality.confirmCounterPartyInitiation E cat network walletId swap)
      \/ action = Liquality.waitForClaimConfirmations E network walletId swap
      \/ action = Liquality.waitForRefund E network walletId swap
      \/ action = Liquality.waitForRefundConfirmations E network walletId swap).
Proof.
  intros H. split; [unfold Liquality.transition; by rewrite H|].
  revert H. unfold Liquality.performNextSwapAction. cbv zeta.
  repeat match goal with
         | |- context [if String.eqb (Liquality.status swap) ?x then _ else _] =>
             let Hs := fresh "Hs" in
             destruct (String.eqb (Liquality.status swap) x) eqn:Hs;
             [apply String.eqb_eq in Hs; intros H; inversion H; subst action;
              auto 10
             |clear Hs]
         end.
  discriminate.
Qed.

Lemma thorchain_waiting_action {W : Type} (E : Collaborators W) (cat : Catalog)
    (lib : Thorchain.Libs) (network : Network) (walletId : WalletId)
    (swap : Thorchain.SwapHistoryItem) (action : M W (option Thorchain.Updates)) :
  Thorchain.performNextSwapAction E cat lib network walletId swap
  = Some (Thorchain.WithInterval, action) ->
  Thorchain.transition E cat lib network walletId swap = action
  /\ (action = Thorchain.waitForApproveConfirmations E network walletId swap
      \/ action = Thorchain.waitForSendConfirmations E network walletId swap
      \/ (Thorchain.status swap = "WAITING_FOR_RECEIVE"
          /\ action = Thorchain.waitForReceive E network walletId swap)).
Proof.
  intros H. split; [unfold Thorchain.transition; by rewrite H|].
  revert H. unfold Thorchain.performNextSwapAction. cbv zeta.
  repeat match goal with
         | |- context [if String.eqb (Thorchain.status swap) ?x then _ else _] =>
             let Hs := fresh "Hs" in
             destruct (String.eqb (Thorchain.status swap) x) eqn:Hs;
             [apply String.eqb_eq in Hs; intros H; inversion H; subst action;
              auto 10
             |clear Hs]
         end.
  discriminate.
Qed.

Lemma twice_preserves {W A : Type} (P : Event -> Prop) (m : M W A)
    (Q : Result A -> Prop) :
  triple P m Q ->
  forall st r1 st1 r2 st2,
    m st = (r1, st1) -> m st1 = (r2, st2) ->
    Forall P (snd st) -> Forall P (snd st2).
Proof.
  intros Hm [w tr] r1 [w1 tr1] r2 [w2 tr2] H1 H2 Htr. simpl in *.
  destruct (Hm _ _ _ _ _ H1 Htr) as [_ Htr1].
  by destruct (Hm _ _ _ _ _ H2 Htr1) as [_ Htr2].
Qed.

Lemma twice_yields {W A : Type} (m : M W A) (a : A) :
  yields m a -> forall st, exists st1 st2, m st = (Ok a, st1) /\ m st1 = (Ok a, st2).
Proof.
  intros Hm st. destruct (Hm st) as [st1 H1]. destruct (Hm st1) as [st2 H2]. eauto.
Qed.


Lemma calm_quiet_chain : quiet_chain (Scenario.world Scenario.calm).
Proof. intros c h w. reflexivity. Defined.

Lemma calm_no_counterparty : no_counterparty (Scenario.world Scenario.calm).
Proof. intros c p w. exact I. Defined.

Lemma calm_before_expirations (s : string) :
  before_expirations (Scenario.world Scenario.calm) (Scenario.htlcSwap s).
Proof.
  split.
  - intros c w. simpl. eexists. reflexivity.
  - intros c n w. simpl. eexists. split; [reflexivity|]. split; discriminate.
Defined.



(** * Further properties: locks, handlers, amounts, fees and addresses *)

Lemma append_nil_l (b : string) : "" +:+ b = b.
Proof. reflexivity. Qed.

Lemma append_cons (c : ascii) (a b : string) : String c a +:+ b = String c (a +:+ b).
Proof. reflexivity. Qed.

Lemma append_assoc (a b c : string) : (a +:+ b) +:+ c = a +:+ b +:+ c.
Proof.
  induction a as [|x a IH]; [reflexivity|].
  rewrite !append_cons. by rewrite IH.
Qed.

Lemma hasHyphen_app (a b : string) :
  hasHyphen (a +:+ b) = hasHyphen a || hasHyphen b.
Proof.
  induction a as [|c a IH]; [reflexivity|].
  rewrite append_cons. simpl. rewrite IH. by rewrite orb_assoc.
Qed.

Lemma split_at_first_hyphen (a1 a2 r1 r2 : string) :
  hasHyphen a1 = false -> hasHyphen a2 = false ->
  a1 +:+ "-" +:+ r1 = a2 +:+ "-" +:+ r2 -> a1 = a2 /\ r1 = r2.
Proof.
  revert a2. induction a1 as [|c a1 IH]; intros [|c2 a2] H1 H2 Heq;
    rewrite ?append_cons, ?append_nil_l in Heq.
  - by inversion Heq.
  - inversion Heq; subst. simpl in H2. discriminate.
  - inversion Heq; subst. simpl in H1. discriminate.
  - inversion Heq; subst. simpl in H1, H2.
    apply orb_false_iff in H1 as [_ H1]. apply orb_false_iff in H2 as [_ H2].
    destruct (IH a2 H1 H2) as [-> ->]; auto.
Qed.

Lemma split_at_last_hyphen (w1 w2 c1 c2 : string) :
  hasHyphen c1 = false -> hasHyphen c2 = false ->
  w1 +:+ "-" +:+ c1 = w2 +:+ "-" +:+ c2 -> w1 = w2 /\ c1 = c2.
Proof.
  revert w2. induction w1 as [|x w1 IH]; intros [|y w2] H1 H2 Heq;
    rewrite ?append_cons, ?append_nil_l in Heq.
  - by inversion Heq.
  - inversion Heq; subst.
    rewrite hasHyphen_app in H1. simpl in H1. by rewrite orb_true_r in H1.
  - inversion Heq; subst.
    rewrite hasHyphen_app in H2. simpl in H2. by rewrite orb_true_r in H2.
  - inversion Heq; subst.
    destruct (IH w2 H1 H2) as [-> ->]; auto.
Qed.

Lemma lockKey_injective (n1 n2 w1 w2 c1 c2 : string) :
  hasHyphen n1 = false -> hasHyphen n2 = false ->
  hasHyphen c1 = false -> hasHyphen c2 = false ->
  Store.lockKey n1 w1 c1 = Store.lockKey n2 w2 c2 ->
  n1 = n2 /\ w1 = w2 /\ c1 = c2.
Proof.
  intros Hn1 Hn2 Hc1 Hc2. rewrite !lockKey_joined. intros Heq.
  destruct (split_at_first_hyphen _ _ _ _ Hn1 Hn2 Heq) as [-> Hrest].
  destruct (split_at_last_hyphen _ _ _ _ Hc1 Hc2 Hrest) as [-> ->]. auto.
Qed.

Lemma attemptToLockAsset_known (cat : Catalog) network walletId asset info st :
  cryptoassets cat !! asset = Some info ->
  Store.attemptToLockAsset cat network walletId asset st
  = let k := Store.lockKey network walletId (chain info) in
    if Store.locked (Store.CHAIN_LOCK st) k
    then (Ok {| Store.key := k; Store.success := false |}, st)
    else (Ok {| Store.key := k; Store.success := true |},
          {| Store.CHAIN_LOCK := <[k := true]> (Store.CHAIN_LOCK st);
             Store.emitted := Store.emitted st |}).
Proof. intros H. unfold Store.attemptToLockAsset. by rewrite H. Qed.

Lemma locked_insert (table : gmap string bool) (k k' : string) (b : bool) :
  Store.locked (<[k := b]> table) k' = if decide (k = k') then b else Store.locked table k'.
Proof.
  unfold Store.locked. destruct (decide (k = k')) as [->|Hne].
  - by rewrite lookup_insert_eq.
  - by rewrite lookup_insert_ne.
Qed.

(** X1. Once [attemptToLockAsset] has taken the lock for an asset, an
    attempt for any asset of the same chain (in the same network and wallet)
    fails with the same key and leaves the store as it is; after
    [unlockAsset] of that key the attempt succeeds, the key is locked again
    and the one event emitted in between is [unlock:<key>]. *)
Theorem lock_is_held_for_the_chain_until_unlocked :
  forall (cat : Catalog) (network : Network) (walletId : WalletId) (a b : Asset)
         (ia ib : AssetInfo) (st st1 : Store.State) (r : Store.LockAttempt),
    cryptoassets cat !! a = Some ia ->
    cryptoassets cat !! b = Some ib ->
    chain ia = chain ib ->
    Store.attemptToLockAsset cat network walletId a st = (Ok r, st1) ->
    Store.success r = true ->
    Store.attemptToLockAsset cat network walletId b st1
    = (Ok {| Store.key := Store.key r; Store.success := false |}, st1)
    /\ exists st2,
        Store.attemptToLockAsset cat network walletId b
          (Store.unlockAsset (Store.key r) st1)
        = (Ok {| Store.key := Store.key r; Store.success := true |}, st2)
        /\ Store.CHAIN_LOCK st2 !! Store.key r = Some true
        /\ Store.emitted st2 = Store.emitted st ++ ["unlock:" +:+ Store.key r].
Proof.
  intros cat network walletId a b ia ib st st1 r Ha Hb Hchain Hrun Hok.
  rewrite (attemptToLockAsset_known _ _ _ _ _ _ Ha) in Hrun. cbv zeta in Hrun.
  rewrite !(attemptToLockAsset_known _ _ _ _ _ _ Hb). cbv zeta.
  rewrite <- Hchain.
  destruct (Store.locked (Store.CHAIN_LOCK st) _) eqn:Hl;
    inversion Hrun; subst; clear Hrun; [discriminate|].
  simpl. rewrite !locked_insert. rewrite !decide_True by reflexivity.
  split; [reflexivity|].
  eexists. split; [reflexivity|]. simpl.
  split; [apply lookup_insert_eq | reflexivity].
Qed.

Lemma lock_is_held_for_the_chain_until_unlocked_witness :
  Store.attemptToLockAsset Scenario.catalog "mainnet" "w1" "DAI"
    {| Store.CHAIN_LOCK := {["mainnet-w1-ethereum" := true]}; Store.emitted := [] |}
  = (Ok {| Store.key := "mainnet-w1-ethereum"; Store.success := false |},
     {| Store.CHAIN_LOCK := {["mainnet-w1-ethereum" := true]}; Store.emitted := [] |}).
Proof.
  assert (Ha : cryptoassets Scenario.catalog !! "ETH"
               = Some {| chain := "ethereum"; code := "ETH"; decimals := 18;
                         contractAddress := None |}) by (vm_compute; reflexivity).
  assert (Hb : cryptoassets Scenario.catalog !! "DAI"
               = Some {| chain := "ethereum"; code := "DAI"; decimals := 18;
                         contractAddress := Some "0x6b17" |}) by (vm_compute; reflexivity).
  destruct (lock_is_held_for_the_chain_until_unlocked Scenario.catalog "mainnet" "w1"
              "ETH" "DAI" _ _ {| Store.CHAIN_LOCK := ∅; Store.emitted := [] |}
              {| Store.CHAIN_LOCK := {["mainnet-w1-ethereum" := true]}; Store.emitted := [] |}
              {| Store.key := "mainnet-w1-ethereum"; Store.success := true |}
              Ha Hb eq_refl) as [H _].
  - vm_compute. reflexivity.
  - reflexivity.
  - exact H.
Defined.

(** X2. Locks do not interfere: when the network and chain names hold no
    hyphen, taking (and then releasing) the lock of one network, wallet and
    chain leaves the answer to an attempt for any other network, wallet or
    chain what it was before. The names matter: the key is the plain
    concatenation with hyphens, so a hyphen may move between the wallet id
    and the chain without changing the key. *)
Theorem locks_of_other_chains_stay_free :
  (forall (cat : Catalog) (network network' : Network) (walletId walletId' : WalletId)
          (a b : Asset) (ia ib : AssetInfo) (st st1 : Store.State)
          (r : Store.LockAttempt),
      cryptoassets cat !! a = Some ia ->
      cryptoassets cat !! b = Some ib ->
      hasHyphen network = false -> hasHyphen network' = false ->
      hasHyphen (chain ia) = false -> hasHyphen (chain ib) = false ->
      (network', walletId', chain ib) <> (network, walletId, chain ia) ->
      Store.attemptToLockAsset cat network walletId a st = (Ok r, st1) ->
      fst (Store.attemptToLockAsset cat network' walletId' b st1)
      = fst (Store.attemptToLockAsset cat network' walletId' b st)
      /\ fst (Store.attemptToLockAsset cat network' walletId' b
                (Store.unlockAsset (Store.key r) st1))
         = fst (Store.attemptToLockAsset cat network' walletId' b st))
  /\ (forall n w c1 c2 : string,
        Store.lockKey n (w +:+ "-" +:+ c1) c2 = Store.lockKey n w (c1 +:+ "-" +:+ c2)).
Proof.
  split.
  - intros cat network network' walletId walletId' a b ia ib st st1 r
      Ha Hb Hn Hn' Hca Hcb Hne Hrun.
    assert (Hkey : Store.lockKey network walletId (chain ia)
                   <> Store.lockKey network' walletId' (chain ib)).
    { intros Heq. apply lockKey_injective in Heq as (-> & -> & Hc); try assumption.
      apply Hne. by rewrite Hc. }
    rewrite (attemptToLockAsset_known _ _ _ _ _ _ Ha) in Hrun. cbv zeta in Hrun.
    rewrite !(attemptToLockAsset_known _ _ _ _ _ _ Hb). cbv zeta.
    assert (Hkr : Store.key r = Store.lockKey network walletId (chain ia)
                  /\ forall k, k <> Store.lockKey network walletId (chain ia) ->
                       Store.locked (Store.CHAIN_LOCK st1) k
                       = Store.locked (Store.CHAIN_LOCK st) k).
    { destruct (Store.locked (Store.CHAIN_LOCK st) _);
        injection Hrun as <- <-; split; try reflexivity; intros k Hk; simpl;
        rewrite ?locked_insert, ?decide_False by congruence; reflexivity. }
    destruct Hkr as [Hk Hst1].
    unfold Store.unlockAsset. simpl.
    rewrite Hk, locked_insert, decide_False by exact Hkey.
    rewrite Hst1 by congruence.
    split; destruct (Store.locked (Store.CHAIN_LOCK st) (Store.lockKey network' _ _));
      reflexivity.
  - intros n w c1 c2. rewrite !lockKey_joined.
    by rewrite !append_assoc.
Qed.

Lemma locks_of_other_chains_stay_free_witness :
  fst (Store.attemptToLockAsset Scenario.catalog "mainnet" "w1" "BTC"
         {| Store.CHAIN_LOCK := {["mainnet-w1-ethereum" := true]}; Store.emitted := [] |})
  = fst (Store.attemptToLockAsset Scenario.catalog "mainnet" "w1" "BTC"
           {| Store.CHAIN_LOCK := ∅; Store.emitted := [] |}).
Proof.
  assert (Ha : cryptoassets Scenario.catalog !! "ETH"
               = Some {| chain := "ethereum"; code := "ETH"; decimals := 18;
                         contractAddress := None |}) by (vm_compute; reflexivity).
  assert (Hb : cryptoassets Scenario.catalog !! "BTC"
               = Some {| chain := "bitcoin"; code := "BTC"; decimals := 8;
                         contractAddress := None |}) by (vm_compute; reflexivity).
  destruct locks_of_other_chains_stay_free as [H _].
  destruct (H Scenario.catalog "mainnet" "mainnet" "w1" "w1" "ETH" "BTC" _ _
              {| Store.CHAIN_LOCK := ∅; Store.emitted := [] |}
              {| Store.CHAIN_LOCK := {["mainnet-w1-ethereum" := true]}; Store.emitted := [] |}
              {| Store.key := "mainnet-w1-ethereum"; Store.success := true |}
              Ha Hb eq_refl eq_refl eq_refl eq_refl) as [H1 _].
  - simpl. discriminate.
  - vm_compute. reflexivity.
  - exact H1.
Defined.

(** X3. [newSwap] stops before it touches the wallet when the agent
    refuses the order or the locked quote is already expired: an agent error
    is raised again (as [Error(response.data.error)] when the response
    carries a text that is not empty) after the order request alone, and a
    quote that is within the slippage bound but whose [expiresAt] is not
    after the clock raises the expiry error after the order request and one
    clock read; no address is asked for, no secret generated and nothing
    initiated. *)
Theorem newSwap_gives_up_before_the_wallet_is_asked :
  forall (W : Type) (E : Collaborators W) (sha256 : string -> string)
         (network : Network) (walletId : WalletId)
         (_quote : Liquality.SwapHistoryItem) (w w1 : W),
    let order := EvAgentOrder (Liquality.from _quote) (Liquality.to _quote)
                   (Liquality.fromAmount _quote) in
    let ask := agentOrder E (Liquality.from _quote) (Liquality.to _quote)
                 (Liquality.fromAmount _quote) w in
    (forall e,
        ask = (Throw e, w1) ->
        run (Liquality.newSwap E sha256 network walletId _quote) w
        = (Throw (match response_error e with
                  | Some text => if String.eqb text "" then e else Error text
                  | None => e
                  end), (w1, [order])))
    /\ (forall lockedQuote t w2,
          ask = (Ok lockedQuote, w1) ->
          (Liquality.toAmount _quote * 0.995 <= lq_toAmount lockedQuote)%Q ->
          now E w1 = (t, w2) ->
          lq_expiresAt lockedQuote <= t ->
          run (Liquality.newSwap E sha256 network walletId _quote) w
          = (Throw Liquality.expiredError, (w2, [order; EvNow]))).
Proof.
  intros W E sha256 network walletId _quote w w1 order ask. subst ask. split.
  - intros e Hask.
    unfold run, Liquality.newSwap, Liquality._getQuote.
    unfold bind at 1. unfold catch, call. simpl. rewrite Hask. simpl.
    destruct (response_error e) as [text|]; [|reflexivity].
    by destruct (String.eqb text "").
  - intros lockedQuote t w2 Hask Hok Hnow Hexp.
    unfold run, Liquality.newSwap, Liquality._getQuote.
    unfold bind at 1. unfold catch, call. simpl. rewrite Hask. simpl.
    assert (Hlt : BN.lt (lq_toAmount lockedQuote)
                    (BN.times (Liquality.toAmount _quote) 0.995%Q) = false).
    { destruct (BN.lt _ _) eqn:Hlt; [|reflexivity].
      apply BN_lt_spec in Hlt. exfalso. exact (Qlt_not_le _ _ Hlt Hok). }
    rewrite Hlt.
    unfold bind at 1. unfold Liquality.hasQuoteExpired, bind at 1, dateNow. simpl.
    rewrite Hnow. simpl.
    assert (Hge : (t >=? lq_expiresAt lockedQuote) = true).
    { rewrite Z.geb_leb. by apply Z.leb_le. }
    rewrite Hge. reflexivity.
Qed.

Lemma newSwap_gives_up_before_the_wallet_is_asked_witness :
  run (Liquality.newSwap (Scenario.world Cases.late) (fun s => s) "mainnet" "w1"
         (Scenario.htlcSwap "QUOTE")) 0%nat
  = (Throw Liquality.expiredError, (0%nat, [EvAgentOrder "BTC" "ETH" 100000000%Q; EvNow])).
Proof.
  destruct (newSwap_gives_up_before_the_wallet_is_asked nat (Scenario.world Cases.late)
              (fun s => s) "mainnet" "w1" (Scenario.htlcSwap "QUOTE") 0%nat 0%nat)
    as [_ H].
  apply (H (Scenario.locked 15000%Q) 3000 0%nat).
  - reflexivity.
  - vm_compute. discriminate.
  - reflexivity.
  - vm_compute. discriminate.
Defined.

(** X4. Whenever [newSwap] returns a swap, the agent has locked an order
    within the slippage bound; the swap carries the terms of the locked order
    (assets, amounts, order id, counterparty addresses, the three
    expirations), the account ids and fees of the request, the status
    [INITIATED], the hash of its own secret and the funding transaction with
    its hash; and the calls made are, in this order: the order request, one
    clock read, the two address requests, the secret and [initiateSwap] with
    the parameters of the returned swap. *)
Theorem newSwap_initiates_the_locked_order :
  forall (W : Type) (E : Collaborators W) (sha256 : string -> string)
         (network : Network) (walletId : WalletId)
         (_quote r : Liquality.SwapHistoryItem) (w : W) (st' : St W),
    run (Liquality.newSwap E sha256 network walletId _quote) w = (Ok r, st') ->
    let fromClient :=
      getClient network walletId (Liquality.from r) (Liquality.fromAccountId r) in
    (exists lockedQuote w1,
        agentOrder E (Liquality.from _quote) (Liquality.to _quote)
          (Liquality.fromAmount _quote) w = (Ok lockedQuote, w1)
        /\ (Liquality.toAmount _quote * 0.995 <= lq_toAmount lockedQuote)%Q
        /\ Liquality.from r = lq_from lockedQuote
        /\ Liquality.to r = lq_to lockedQuote
        /\ Liquality.fromAmount r = lq_fromAmount lockedQuote
        /\ Liquality.toAmount r = lq_toAmount lockedQuote
        /\ Liquality.orderId r = lq_orderId lockedQuote
        /\ Liquality.fromCounterPartyAddress r = lq_fromCounterPartyAddress lockedQuote
        /\ Liquality.toCounterPartyAddress r = lq_toCounterPartyAddress lockedQuote
        /\ Liquality.expiresAt r = lq_expiresAt lockedQuote
        /\ Liquality.swapExpiration r = lq_swapExpiration lockedQuote
        /\ Liquality.nodeSwapExpiration r = lq_nodeSwapExpiration lockedQuote)
    /\ Liquality.status r = "INITIATED"
    /\ Liquality.secretHash r = sha256 (Liquality.secret r)
    /\ (exists fundTx,
          Liquality.fromFundTx r = Some fundTx
          /\ Liquality.fromFundHash r = hash fundTx)
    /\ Liquality.fromAccountId r = Liquality.fromAccountId _quote
    /\ Liquality.toAccountId r = Liquality.toAccountId _quote
    /\ Liquality.fee r = Liquality.fee _quote
    /\ Liquality.claimFee r = Liquality.claimFee _quote
    /\ snd st'
       = [ EvAgentOrder (Liquality.from _quote) (Liquality.to _quote)
             (Liquality.fromAmount _quote);
           EvNow;
           EvGetSwapAddress (Liquality.from r) (Liquality.fromAccountId r);
           EvGetSwapAddress (Liquality.to r) (Liquality.toAccountId r);
           EvGenerateSecret fromClient;
           EvInitiateSwap fromClient (Liquality.fromParams r) ].
Proof.
  intros W E sha256 network walletId _quote r w st' Hrun fromClient.
  subst fromClient. revert Hrun.
  unfold run, Liquality.newSwap, Liquality._getQuote, Liquality.hasQuoteExpired.
  unfold bind at 1. unfold catch, call. simpl.
  destruct (agentOrder E _ _ _ w) as [[lockedQuote|e] w1] eqn:Hask; simpl;
    [|destruct (response_error e) as [text|]; [destruct (String.eqb text "")|];
      discriminate].
  destruct (BN.lt _ _) eqn:Hlt; [discriminate|].
  unfold bind, dateNow, call, ret, throw. simpl.
  destruct (now E w1) as [t w2]. simpl.
  destruct (t >=? lq_expiresAt lockedQuote); [discriminate|].
  repeat (break_goal; simpl; try discriminate).
  simpl. intros H. inversion H; subst; clear H. simpl.
  split.
  { exists lockedQuote, w1. split; [reflexivity|]. split.
    - apply Qnot_lt_le. intros Hc. apply BN_lt_spec in Hc.
      unfold BN.times in Hlt. congruence.
    - repeat split. }
  repeat split. eexists. split; reflexivity.
Qed.

Lemma newSwap_initiates_the_locked_order_witness :
  match run (Liquality.newSwap (Scenario.world Cases.prompt) (fun s => s) "mainnet" "w1"
               (Scenario.htlcSwap "QUOTE")) 0%nat with
  | (Ok r, st') =>
      Liquality.status r = "INITIATED"
      /\ Liquality.toAmount r = 15000%Q
      /\ List.last (snd st') EvNow
         = EvInitiateSwap (getClient "mainnet" "w1" "BTC" "acc-btc") (Liquality.fromParams r)
  | (Throw _, _) => False
  end.
Proof.
  destruct (run (Liquality.newSwap (Scenario.world Cases.prompt) (fun s => s) "mainnet" "w1"
                   (Scenario.htlcSwap "QUOTE")) 0%nat) as [[r|e] st'] eqn:Hrun.
  - destruct (newSwap_initiates_the_locked_order nat _ _ _ _ _ _ _ _ Hrun)
      as ((lockedQuote & w1 & Hask & _ & Hfrom & _ & _ & Hto & _) & Hstatus & _ & _
          & Hacc & _ & _ & _ & Htrace).
    vm_compute in Hask. injection Hask as <- <-.
    split; [exact Hstatus|]. split; [exact Hto|].
    rewrite Htrace. simpl. rewrite Hfrom, Hacc. reflexivity.
  - vm_compute in Hrun. discriminate.
Defined.

Lemma hasQuoteExpired_run {W : Type} (E : Collaborators W)
    (swap : Liquality.SwapHistoryItem) (w w1 : W) (tr : list Event) (t : Z) :
  now E w = (t, w1) ->
  Liquality.hasQuoteExpired E swap (w, tr)
  = (Ok (Liquality.expiresAt swap <=? t), (w1, tr ++ [EvNow])).
Proof.
  intros Hnow. unfold Liquality.hasQuoteExpired, bind, dateNow, ret. simpl.
  rewrite Hnow. by rewrite Z.geb_leb.
Qed.

(** X5. [fundSwap] reads the clock once. An expired quote gives
    [QUOTE_EXPIRED] and nothing else happens; a swap from a native asset is
    marked [FUNDED] without any call; only a swap from an ERC20 token sends
    the ledger notice and calls the client's [fundSwap] with the swap's
    parameters, funding hash and fee, and then returns [FUNDED] with the
    hash of the funding transaction, fails when the client returned no
    transaction, or raises the client's error. *)
Theorem fundSwap_funds_tokens_only :
  forall (W : Type) (E : Collaborators W) (cat : Catalog)
         (network : Network) (walletId : WalletId)
         (swap : Liquality.SwapHistoryItem) (w w1 : W) (t : Z),
    now E w = (t, w1) ->
    let fromClient :=
      getClient network walletId (Liquality.from swap) (Liquality.fromAccountId swap) in
    let notice :=
      EvLedgerNotification (Liquality.fromAccountId swap)
        "Signing required to fund the swap." in
    let outcome := run (Liquality.fundSwap E cat network walletId swap) w in
    (Liquality.expiresAt swap <= t ->
     outcome = (Ok (Some (Liquality.statusOnly "QUOTE_EXPIRED")), (w1, [EvNow])))
    /\ (t < Liquality.expiresAt swap ->
        isERC20 cat (Liquality.from swap) = false ->
        outcome = (Ok (Some (Liquality.statusOnly "FUNDED")), (w1, [EvNow])))
    /\ (t < Liquality.expiresAt swap ->
        isERC20 cat (Liquality.from swap) = true ->
        forall w2 answer w3,
          sendLedgerNotification E (Liquality.fromAccountId swap)
            "Signing required to fund the swap." w1 = (Ok tt, w2) ->
          swap_fundSwap E fromClient (Liquality.fromParams swap)
            (Liquality.fromFundHash swap) (Liquality.fee swap) w2 = (answer, w3) ->
          outcome
          = (match answer with
             | Ok (Some fundTx) =>
                 Ok (Some {| Liquality.upd_status := Some "FUNDED";
                             Liquality.upd_endTime := None;
                             Liquality.upd_toFundHash := None;
                             Liquality.upd_fundTxHash := Some (hash fundTx);
                             Liquality.upd_refundHash := None;
                             Liquality.upd_refundTx := None;
                             Liquality.upd_toClaimHash := None;
                             Liquality.upd_toClaimTx := None |})
             | Ok None => Throw Liquality.fundingNullError
             | Throw e => Throw e
             end,
             (w3, [EvNow; notice; EvFundSwap fromClient (Liquality.fromParams swap)]))).
Proof.
  intros W E cat network walletId swap w w1 t Hnow fromClient notice outcome.
  subst outcome. unfold run, Liquality.fundSwap.
  split; [|split];
    (unfold bind at 1; rewrite (hasQuoteExpired_run E swap w w1 [] t Hnow)).
  - intros Hexp. by rewrite (proj2 (Z.leb_le _ _) Hexp).
  - intros Hlt Hnative. rewrite (proj2 (Z.leb_gt _ _) Hlt). by rewrite Hnative.
  - intros Hlt Htoken w2 answer w3 Hnotice Hfund.
    rewrite (proj2 (Z.leb_gt _ _) Hlt). rewrite Htoken. simpl.
    unfold bind, call. simpl.
    rewrite Hnotice. simpl. fold fromClient. rewrite Hfund. simpl.
    by destruct answer as [[fundTx|]|e].
Qed.

Lemma fundSwap_funds_tokens_only_witness :
  run (Liquality.fundSwap (Scenario.world Scenario.calm) Scenario.catalog "mainnet" "w1"
         (Scenario.htlcSwap "INITIATION_CONFIRMED")) 0%nat
  = (Ok (Some (Liquality.statusOnly "FUNDED")), (0%nat, [EvNow])).
Proof.
  destruct (fundSwap_funds_tokens_only nat (Scenario.world Scenario.calm) Scenario.catalog
              "mainnet" "w1" (Scenario.htlcSwap "INITIATION_CONFIRMED") 0%nat 0%nat 1000
              eq_refl) as (_ & H & _).
  apply H.
  - simpl. lia.
  - reflexivity.
Defined.

(** X6. [reportInitiation] reads the clock once: once the quote has
    expired it returns [WAITING_FOR_REFUND] and the agent is not told;
    otherwise it reports the order to the agent and returns
    [INITIATION_REPORTED], or raises the agent's error. *)
Theorem reportInitiation_skips_the_agent_after_expiry :
  forall (W : Type) (E : Collaborators W) (swap : Liquality.SwapHistoryItem)
         (w w1 : W) (t : Z),
    now E w = (t, w1) ->
    let outcome := run (Liquality.reportInitiation E swap) w in
    (Liquality.expiresAt swap <= t ->
     outcome = (Ok (Some (Liquality.statusOnly "WAITING_FOR_REFUND")), (w1, [EvNow])))
    /\ (t < Liquality.expiresAt swap ->
        forall answer w2,
          agentUpdateOrder E (Liquality.orderId swap) w1 = (answer, w2) ->
          outcome
          = (match answer with
             | Ok _ => Ok (Some (Liquality.statusOnly "INITIATION_REPORTED"))
             | Throw e => Throw e
             end, (w2, [EvNow; EvAgentUpdateOrder (Liquality.orderId swap)]))).
Proof.
  intros W E swap w w1 t Hnow outcome. subst outcome.
  unfold run, Liquality.reportInitiation, Liquality.updateOrder.
  split; (unfold bind at 1; rewrite (hasQuoteExpired_run E swap w w1 [] t Hnow)).
  - intros Hexp. by rewrite (proj2 (Z.leb_le _ _) Hexp).
  - intros Hlt answer w2 Hagent. rewrite (proj2 (Z.leb_gt _ _) Hlt).
    unfold bind, call. simpl. rewrite Hagent. by destruct answer.
Qed.

Lemma reportInitiation_skips_the_agent_after_expiry_witness :
  run (Liquality.reportInitiation (Scenario.world Cases.late)
         (Scenario.htlcSwap "INITIATED")) 0%nat
  = (Ok (Some (Liquality.statusOnly "WAITING_FOR_REFUND")), (0%nat, [EvNow])).
Proof.
  destruct (reportInitiation_skips_the_agent_after_expiry nat (Scenario.world Cases.late)
              (Scenario.htlcSwap "INITIATED") 0%nat 0%nat 3000 eq_refl) as [H _].
  apply H. simpl. lia.
Defined.

Lemma hasChainTimePassed_run {W : Type} (E : Collaborators W)
    (network : Network) (walletId : WalletId) (asset : Asset) (accountId : AccountId)
    (timestamp0 : Z) (P : Z -> Prop) :
  let c := getClient network walletId asset accountId in
  chain_time E c P ->
  forall w tr, exists b n w',
    Liquality.hasChainTimePassed E network walletId asset timestamp0 accountId (w, tr)
    = (Ok (Some (timestamp b >? timestamp0)),
       (w', tr ++ [EvGetBlockHeight c; EvGetBlockByNumber c n]))
    /\ P (timestamp b).
Proof.
  intros c [Hheight Hblock] w tr.
  unfold Liquality.hasChainTimePassed. cbv zeta. fold c.
  rewrite (hasChainTimePassed_loop_contract E 0).
  destruct (Hheight w) as [n Hn].
  destruct (chain_getBlockHeight E c w) as [r w1] eqn:Hh. simpl in Hn. subst r.
  destruct (Hblock n w1) as (b & Hb & HP).
  destruct (chain_getBlockByNumber E c n w1) as [r w2] eqn:Hg. simpl in Hb. subst r.
  exists b, n, w2. split; [|exact HP].
  unfold hasChainTimePassed_contract, chainRead, bind, call. simpl.
  rewrite Hh. simpl. rewrite Hg. simpl. by rewrite <- app_assoc.
Qed.

Section Expirations.
Context {W : Type} (E : Collaborators W) (network : Network) (walletId : WalletId).
Variable swap : Liquality.SwapHistoryItem.

Let fromClient :=
  getClient network walletId (Liquality.from swap) (Liquality.fromAccountId swap).
Let toClient :=
  getClient network walletId (Liquality.to swap) (Liquality.toAccountId swap).

Lemma handleExpirations_refund_due :
  chain_time E fromClient (fun t => Liquality.swapExpiration swap < t) ->
  forall w tr, exists n w',
    Liquality.handleExpirations E network walletId swap (w, tr)
    = (Ok (Some (Liquality.statusOnly "GET_REFUND")),
       (w', tr ++ [EvEnter "handleExpirations"; EvGetBlockHeight fromClient;
                   EvGetBlockByNumber fromClient n])).
Proof.
  intros Hfrom w tr.
  destruct (hasChainTimePassed_run E network walletId (Liquality.from swap)
              (Liquality.fromAccountId swap) (Liquality.swapExpiration swap) _ Hfrom
              w (tr ++ [EvEnter "handleExpirations"])) as (b & n & w' & Hrun & Hb).
  exists n, w'.
  unfold Liquality.handleExpirations, Liquality.canRefund.
  unfold bind at 1. unfold emit at 1. simpl.
  unfold bind at 1. rewrite Hrun.
  rewrite Z.gtb_ltb, (proj2 (Z.ltb_lt _ _) Hb). simpl.
  unfold ret. by rewrite <- app_assoc.
Qed.

Lemma handleExpirations_after_refund_check (passed : bool) :
  chain_time E fromClient (fun t => t <= Liquality.swapExpiration swap) ->
  chain_time E toClient
    (fun t => (Liquality.nodeSwapExpiration swap <? t) = passed) ->
  forall w tr, exists n m w',
    Liquality.handleExpirations E network walletId swap (w, tr)
    = (Ok (if passed then Some (Liquality.statusOnly "WAITING_FOR_REFUND") else None),
       (w', tr ++ [EvEnter "handleExpirations"; EvGetBlockHeight fromClient;
                   EvGetBlockByNumber fromClient n; EvGetBlockHeight toClient;
                   EvGetBlockByNumber toClient m])).
Proof.
  intros Hfrom Hto w tr.
  destruct (hasChainTimePassed_run E network walletId (Liquality.from swap)
              (Liquality.fromAccountId swap) (Liquality.swapExpiration swap) _ Hfrom
              w (tr ++ [EvEnter "handleExpirations"])) as (b & n & w1 & Hrun & Hb).
  destruct (hasChainTimePassed_run E network walletId (Liquality.to swap)
              (Liquality.toAccountId swap) (Liquality.nodeSwapExpiration swap) _ Hto
              w1 ((tr ++ [EvEnter "handleExpirations"])
                    ++ [EvGetBlockHeight fromClient; EvGetBlockByNumber fromClient n]))
    as (b' & m & w2 & Hrun' & Hb').
  exists n, m, w2.
  unfold Liquality.handleExpirations, Liquality.canRefund, Liquality.hasSwapExpired.
  unfold bind at 1. unfold emit at 1. simpl.
  unfold bind at 1. rewrite Hrun.
  rewrite Z.gtb_ltb, (proj2 (Z.ltb_ge _ _) Hb). simpl.
  unfold bind at 1. fold fromClient. rewrite Hrun'.
  rewrite Z.gtb_ltb, Hb'. rewrite <- !app_assoc. by destruct passed.
Qed.

(** An update of [handleExpirations] carries a status, and the check puts
    nothing on a chain. *)
Lemma handleExpirations_update st u st' :
  Liquality.handleExpirations E network walletId swap st = (Ok (Some u), st') ->
  Forall not_submission (snd st) ->
  (Liquality.upd_status u = Some "GET_REFUND"
   \/ Liquality.upd_status u = Some "WAITING_FOR_REFUND")
  /\ Forall not_submission (snd st').
Proof.
  destruct st as [w tr], st' as [w' tr']. intros Hexp Htr.
  destruct (handleExpirations_statuses E network walletId not_submission
              passive_not_submission swap _ _ _ _ _ Hexp Htr) as [Hst Htr1].
  split; [|exact Htr1].
  simpl in Hst. destruct (Liquality.upd_status u) as [s|] eqn:Hs.
  - apply elem_of_cons in Hst as [-> | Hst]; [by left|].
    apply elem_of_cons in Hst as [-> | Hst]; [by right|].
    by apply elem_of_nil in Hst.
  - exfalso. revert Hexp.
    unfold Liquality.handleExpirations, bind, emit, ret. simpl.
    repeat (break_goal; simpl; try discriminate);
      intros H; inversion H; subst; discriminate.
Qed.
End Expirations.

Lemma expired_chain_time (c : ClientId) :
  chain_time (Scenario.world Scenario.expired) c (fun t => 9000 < t).
Proof.
  split.
  - intros w. simpl. eexists. reflexivity.
  - intros n w. simpl. eexists. split; [reflexivity|]. simpl. lia.
Qed.

(** X7. [handleExpirations] looks at the refund first. When the source
    chain's latest block is past [swapExpiration] it returns [GET_REFUND]
    and the destination chain is not read; otherwise it reads the
    destination chain and returns [WAITING_FOR_REFUND] when that chain is
    past [nodeSwapExpiration], and nothing when it is not. *)
Theorem handleExpirations_asks_for_the_refund_first :
  forall (W : Type) (E : Collaborators W) (network : Network) (walletId : WalletId)
         (swap : Liquality.SwapHistoryItem),
    let fromClient :=
      getClient network walletId (Liquality.from swap) (Liquality.fromAccountId swap) in
    let toClient :=
      getClient network walletId (Liquality.to swap) (Liquality.toAccountId swap) in
    (chain_time E fromClient (fun t => Liquality.swapExpiration swap < t) ->
     forall w tr, exists n w',
       Liquality.handleExpirations E network walletId swap (w, tr)
       = (Ok (Some (Liquality.statusOnly "GET_REFUND")),
          (w', tr ++ [EvEnter "handleExpirations"; EvGetBlockHeight fromClient;
                      EvGetBlockByNumber fromClient n])))
    /\ (chain_time E fromClient (fun t => t <= Liquality.swapExpiration swap) ->
        chain_time E toClient (fun t => Liquality.nodeSwapExpiration swap < t) ->
        forall w tr, exists n m w',
          Liquality.handleExpirations E network walletId swap (w, tr)
          = (Ok (Some (Liquality.statusOnly "WAITING_FOR_REFUND")),
             (w', tr ++ [EvEnter "handleExpirations"; EvGetBlockHeight fromClient;
                         EvGetBlockByNumber fromClient n; EvGetBlockHeight toClient;
                         EvGetBlockByNumber toClient m])))
    /\ (chain_time E fromClient (fun t => t <= Liquality.swapExpiration swap) ->
        chain_time E toClient (fun t => t <= Liquality.nodeSwapExpiration swap) ->
        forall w tr, exists n m w',
          Liquality.handleExpirations E network walletId swap (w, tr)
          = (Ok None,
             (w', tr ++ [EvEnter "handleExpirations"; EvGetBlockHeight fromClient;
                         EvGetBlockByNumber fromClient n; EvGetBlockHeight toClient;
                         EvGetBlockByNumber toClient m]))).
Proof.
  intros W E network walletId swap fromClient toClient.
  split; [|split].
  - apply handleExpirations_refund_due.
  - intros Hfrom Hto.
    apply (handleExpirations_after_refund_check E network walletId swap true Hfrom).
    destruct Hto as [Hh Hb]. split; [exact Hh|].
    intros n w. destruct (Hb n w) as (b & Hrun & Hlt).
    exists b. split; [exact Hrun|]. by apply Z.ltb_lt.
  - intros Hfrom Hto.
    apply (handleExpirations_after_refund_check E network walletId swap false Hfrom).
    destruct Hto as [Hh Hb]. split; [exact Hh|].
    intros n w. destruct (Hb n w) as (b & Hrun & Hlt).
    exists b. split; [exact Hrun|]. by apply Z.ltb_ge.
Qed.

Lemma handleExpirations_asks_for_the_refund_first_witness :
  exists n w',
    Liquality.handleExpirations (Scenario.world Scenario.expired) "mainnet" "w1"
      (Scenario.htlcSwap "INITIATION_REPORTED") (0%nat, [])
    = (Ok (Some (Liquality.statusOnly "GET_REFUND")),
       (w', [EvEnter "handleExpirations";
             EvGetBlockHeight (getClient "mainnet" "w1" "BTC" "acc-btc");
             EvGetBlockByNumber (getClient "mainnet" "w1" "BTC" "acc-btc") n])).
Proof.
  destruct (handleExpirations_asks_for_the_refund_first nat
              (Scenario.world Scenario.expired) "mainnet" "w1"
              (Scenario.htlcSwap "INITIATION_REPORTED")) as [H _].
  exact (H (expired_chain_time _) 0%nat []).
Defined.

(** X8. [claimSwap] never returns nothing: it returns either
    [WAITING_FOR_CLAIM_CONFIRMATIONS] with the claim transaction and its
    hash, or an expiration status ([GET_REFUND], [WAITING_FOR_REFUND]) in
    which case it has submitted nothing. Once the source chain is past
    [swapExpiration] it always returns [GET_REFUND] and does not claim. *)
Theorem claimSwap_checks_expiry_before_claiming :
  forall (W : Type) (E : Collaborators W) (network : Network) (walletId : WalletId)
         (swap : Liquality.SwapHistoryItem),
    let fromClient :=
      getClient network walletId (Liquality.from swap) (Liquality.fromAccountId swap) in
    (forall st r st',
        Liquality.claimSwap E network walletId swap st = (r, st') ->
        Forall not_submission (snd st) ->
        match r with
        | Ok (Some u) =>
            (Liquality.upd_status u = Some "WAITING_FOR_CLAIM_CONFIRMATIONS"
             /\ exists toClaimTx,
                 Liquality.upd_toClaimTx u = Some toClaimTx
                 /\ Liquality.upd_toClaimHash u = Some (hash toClaimTx))
            \/ ((Liquality.upd_status u = Some "GET_REFUND"
                 \/ Liquality.upd_status u = Some "WAITING_FOR_REFUND")
                /\ Forall not_submission (snd st'))
        | Ok None => False
        | Throw _ => True
        end)
    /\ (chain_time E fromClient (fun t => Liquality.swapExpiration swap < t) ->
        forall st, exists st',
          Liquality.claimSwap E network walletId swap st
          = (Ok (Some (Liquality.statusOnly "GET_REFUND")), st')
          /\ (Forall not_submission (snd st) -> Forall not_submission (snd st'))).
Proof.
  intros W E network walletId swap fromClient. split.
  - intros [w tr] r [w' tr'] Hrun Htr. simpl in Htr.
    unfold Liquality.claimSwap in Hrun. unfold bind at 1 in Hrun.
    destruct (Liquality.handleExpirations E network walletId swap (w, tr))
      as [[[u|]|e] [w1 tr1]] eqn:Hexp.
    + inversion Hrun; subst; clear Hrun. right.
      exact (handleExpirations_update E network walletId swap _ _ _ Hexp Htr).
    + cbv zeta in Hrun. unfold bind, call, ret in Hrun. simpl in Hrun.
      repeat (break_run Hrun; simpl in Hrun; try discriminate);
        inversion Hrun; subst; clear Hrun; try exact I.
      left. simpl. split; [reflexivity|]. eexists. split; reflexivity.
    + inversion Hrun; subst. exact I.
  - intros Hfrom [w tr].
    destruct (handleExpirations_refund_due E network walletId swap Hfrom w tr)
      as (n & w' & Hexp).
    eexists. unfold Liquality.claimSwap. unfold bind at 1. rewrite Hexp.
    split; [reflexivity|]. simpl. intros Htr.
    apply Forall_app. split; [exact Htr|]. repeat constructor.
Qed.

Lemma claimSwap_checks_expiry_before_claiming_witness :
  exists st',
    Liquality.claimSwap (Scenario.world Scenario.expired) "mainnet" "w1"
      (Scenario.htlcSwap "READY_TO_CLAIM") (0%nat, [])
    = (Ok (Some (Liquality.statusOnly "GET_REFUND")), st')
    /\ Forall not_submission (snd st').
Proof.
  destruct (claimSwap_checks_expiry_before_claiming nat
              (Scenario.world Scenario.expired) "mainnet" "w1"
              (Scenario.htlcSwap "READY_TO_CLAIM")) as [_ H].
  destruct (H (expired_chain_time _) (0%nat, [])) as (st' & Hrun & Htr).
  exists st'. split; [exact Hrun|]. apply Htr. constructor.
Defined.

(** X9. When the counterparty's initiation is found,
    [findCounterPartyInitiation] verifies it and looks for its funding
    transaction. It returns [CONFIRM_COUNTER_PARTY_INITIATION] with the
    hash found exactly when the initiation is verified and the funding
    transaction, if there is one, has a non-zero number of confirmations
    that reaches the safe confirmations of the destination chain; in every
    other case the result is the one of [handleExpirations]. *)
Theorem findCounterPartyInitiation_accepts_verified_funded_htlc :
  forall (W : Type) (E : Collaborators W) (cat : Catalog)
         (network : Network) (walletId : WalletId) (swap : Liquality.SwapHistoryItem)
         (w w1 w2 w3 : W) (tx : Transaction) (isVerified : bool)
         (fundingTransaction : option Transaction) (safe : Z),
    let toClient :=
      getClient network walletId (Liquality.to swap) (Liquality.toAccountId swap) in
    swap_findInitiateSwapTransaction E toClient (Liquality.toParams swap) w
    = (Ok (Some tx), w1) ->
    swap_verifyInitiateSwapTransaction E toClient (Liquality.toParams swap) (hash tx) w1
    = (Ok isVerified, w2) ->
    swap_findFundSwapTransaction E toClient (Liquality.toParams swap) (hash tx) w2
    = (Ok fundingTransaction, w3) ->
    safeConfirmationsOf cat (Liquality.to swap) = Ok safe ->
    let seen := [EvFindInitiateSwapTransaction toClient (Liquality.toParams swap);
                 EvVerifyInitiateSwapTransaction toClient (hash tx);
                 EvFindFundSwapTransaction toClient (hash tx)] in
    run (Liquality.findCounterPartyInitiation E cat network walletId swap) w
    = if isVerified && fundingConfirmed fundingTransaction safe
      then (Ok (Some (counterPartyFound (hash tx))), (w3, seen))
      else Liquality.handleExpirations E network walletId swap (w3, seen).
Proof.
  intros W E cat network walletId swap w w1 w2 w3 tx isVerified fundingTransaction safe
    toClient Hfind Hverify Hfund Hsafe seen.
  unfold run, Liquality.findCounterPartyInitiation. cbv zeta. fold toClient.
  unfold bind at 1. unfold catch at 1. unfold bind at 1. unfold call at 1. simpl.
  rewrite Hfind. simpl.
  unfold bind at 1. unfold call at 1. simpl. rewrite Hverify. simpl.
  unfold bind at 1. unfold call at 1. simpl. rewrite Hfund. simpl.
  unfold fundingConfirmed.
  destruct fundingTransaction as [ft|].
  - destruct (truthyNum (confirmations ft)) eqn:Htruthy.
    + unfold bind at 1. unfold bind at 1. unfold lift at 1. rewrite Hsafe.
      unfold ret at 1. cbv beta iota. rewrite andb_true_l.
      destruct (isVerified && geNum (confirmations ft) safe) eqn:Hok;
        [reflexivity|].
      unfold ret at 1. cbv beta iota. apply bind_ret_run.
    + unfold bind at 1. unfold ret at 1. cbv beta iota.
      rewrite andb_false_l, !andb_false_r. unfold ret at 1. cbv beta iota.
      apply bind_ret_run.
  - unfold bind at 1. unfold ret at 1. cbv beta iota. rewrite andb_true_r.
    destruct isVerified; [reflexivity|].
    unfold ret at 1. cbv beta iota. apply bind_ret_run.
Qed.

Lemma findCounterPartyInitiation_accepts_verified_funded_htlc_witness :
  run (Liquality.findCounterPartyInitiation (Scenario.world Cases.funded) Scenario.catalog
         "mainnet" "w1" (Scenario.htlcSwap "INITIATION_CONFIRMED")) 0%nat
  = (Ok (Some (counterPartyFound "cpfund")),
     (0%nat,
      [EvFindInitiateSwapTransaction (getClient "mainnet" "w1" "ETH" "acc-eth")
         (Liquality.toParams (Scenario.htlcSwap "INITIATION_CONFIRMED"));
       EvVerifyInitiateSwapTransaction (getClient "mainnet" "w1" "ETH" "acc-eth") "cpfund";
       EvFindFundSwapTransaction (getClient "mainnet" "w1" "ETH" "acc-eth") "cpfund"])).
Proof.
  apply (findCounterPartyInitiation_accepts_verified_funded_htlc nat
           (Scenario.world Cases.funded) Scenario.catalog "mainnet" "w1"
           (Scenario.htlcSwap "INITIATION_CONFIRMED") 0%nat 0%nat 0%nat 0%nat
           {| hash := "cpfund"; confirmations := Some 1 |} true None 3).
  - reflexivity.
  - reflexivity.
  - reflexivity.
  - vm_compute. reflexivity.
Defined.

(** X10. [confirmCounterPartyInitiation] looks the counterparty's
    funding transaction up once and returns [READY_TO_CLAIM] exactly when
    it is found with a non-zero number of confirmations that reaches the
    safe confirmations of the destination chain; a transaction that is
    missing, unconfirmed or short of confirmations hands over to
    [handleExpirations]. *)
Theorem confirmCounterPartyInitiation_waits_for_safe_confirmations :
  forall (W : Type) (E : Collaborators W) (cat : Catalog)
         (network : Network) (walletId : WalletId) (swap : Liquality.SwapHistoryItem)
         (w w1 : W) (tx : option Transaction) (safe : Z),
    let toClient :=
      getClient network walletId (Liquality.to swap) (Liquality.toAccountId swap) in
    chain_getTransactionByHash E toClient (Liquality.toFundHash swap) w = (Ok tx, w1) ->
    safeConfirmationsOf cat (Liquality.to swap) = Ok safe ->
    let seen := [EvGetTransactionByHash toClient (Liquality.toFundHash swap)] in
    let ready :=
      match tx with
      | Some t =>
          match confirmations t with
          | Some n => negb (n =? 0) && (safe <=? n)
          | None => false
          end
      | None => false
      end in
    run (Liquality.confirmCounterPartyInitiation E cat network walletId swap) w
    = if ready
      then (Ok (Some (Liquality.statusOnly "READY_TO_CLAIM")), (w1, seen))
      else Liquality.handleExpirations E network walletId swap (w1, seen).
Proof.
  intros W E cat network walletId swap w w1 tx safe toClient Hlookup Hsafe seen ready.
  subst ready.
  unfold run, Liquality.confirmCounterPartyInitiation. cbv zeta. fold toClient.
  unfold bind at 1. unfold chainGetTransactionByHash, call at 1. simpl.
  rewrite Hlookup. simpl.
  destruct tx as [t|].
  - unfold truthyNum, geNum. destruct (confirmations t) as [n|].
    + destruct (n =? 0) eqn:Hz; simpl.
      * unfold bind at 1. unfold ret at 1. cbv beta iota. apply bind_ret_run.
      * unfold bind at 1. unfold bind at 1. unfold lift at 1. rewrite Hsafe.
        unfold ret at 1. cbv beta iota. rewrite Z.geb_leb.
        destruct (safe <=? n); [reflexivity|]. apply bind_ret_run.
    + unfold bind at 1. unfold ret at 1. cbv beta iota. apply bind_ret_run.
  - unfold bind at 1. unfold ret at 1. cbv beta iota. apply bind_ret_run.
Qed.

Lemma confirmCounterPartyInitiation_waits_for_safe_confirmations_witness :
  run (Liquality.confirmCounterPartyInitiation (Scenario.world (Scenario.found (Some 3)))
         Scenario.catalog "mainnet" "w1"
         (Scenario.htlcSwap "CONFIRM_COUNTER_PARTY_INITIATION")) 0%nat
  = (Ok (Some (Liquality.statusOnly "READY_TO_CLAIM")),
     (0%nat, [EvGetTransactionByHash (getClient "mainnet" "w1" "ETH" "acc-eth") "cpfund"])).
Proof.
  apply (confirmCounterPartyInitiation_waits_for_safe_confirmations nat
           (Scenario.world (Scenario.found (Some 3))) Scenario.catalog "mainnet" "w1"
           (Scenario.htlcSwap "CONFIRM_COUNTER_PARTY_INITIATION") 0%nat 0%nat
           (Some {| hash := "cpfund"; confirmations := Some 3 |}) 3).
  - reflexivity.
  - vm_compute. reflexivity.
Defined.

Section RefundDue.
Context {W : Type} (E : Collaborators W) (cat : Catalog).
Context (network : Network) (walletId : WalletId).
Variable swap : Liquality.SwapHistoryItem.
Hypothesis Hdue :
  chain_time E
    (getClient network walletId (Liquality.from swap) (Liquality.fromAccountId swap))
    (fun t => Liquality.swapExpiration swap < t).

Lemma findCounterPartyInitiation_refund_due st r st' :
  Liquality.findCounterPartyInitiation E cat network walletId swap st = (r, st') ->
  jumps_or_refunds r.
Proof.
  unfold Liquality.findCounterPartyInitiation. cbv zeta. unfold bind at 1.
  match goal with
  | |- context [catch ?m ?h st] => destruct (catch m h st) as [[[u|]|e] [w1 tr1]] eqn:Hin
  end.
  - intros H. inversion H; subst; clear H. simpl. left.
    revert Hin. unfold catch, bind, call, lift, ret, throw, consoleWarn, emit. simpl.
    repeat (break_goal; simpl; try discriminate);
      intros H; inversion H; subst; eexists; reflexivity.
  - destruct (handleExpirations_refund_due E network walletId swap Hdue w1 tr1)
      as (n & w2 & Hexp).
    unfold bind. rewrite Hexp. intros H. inversion H; subst. simpl. by right.
  - intros H. inversion H; subst. exact I.
Qed.
End RefundDue.

(** X11. Once the source chain is past [swapExpiration], [confirmInitiation]
    does what [findCounterPartyInitiation] does: it returns the
    counterparty's initiation or [GET_REFUND], or raises; it never returns
    nothing, never [INITIATION_CONFIRMED], and it submits nothing. *)
Theorem confirmInitiation_stops_confirming_once_refund_is_due :
  forall (W : Type) (E : Collaborators W) (cat : Catalog)
         (network : Network) (walletId : WalletId) (swap : Liquality.SwapHistoryItem),
    chain_time E
      (getClient network walletId (Liquality.from swap) (Liquality.fromAccountId swap))
      (fun t => Liquality.swapExpiration swap < t) ->
    forall st r st',
      Liquality.confirmInitiation E cat network walletId swap st = (r, st') ->
      jumps_or_refunds r
      /\ Liquality.findCounterPartyInitiation E cat network walletId swap st = (r, st')
      /\ (Forall not_submission (snd st) -> Forall not_submission (snd st')).
Proof.
  intros W E cat network walletId swap Hdue [w tr] r [w' tr'] Hrun.
  unfold Liquality.confirmInitiation in Hrun. unfold bind at 1 in Hrun.
  destruct (Liquality.findCounterPartyInitiation E cat network walletId swap (w, tr))
    as [r1 [w1 tr1]] eqn:Hfound.
  pose proof (findCounterPartyInitiation_refund_due E cat network walletId swap Hdue
                _ _ _ Hfound) as Hr1.
  destruct r1 as [[u|]|e]; simpl in Hr1; try contradiction;
    inversion Hrun; subst; clear Hrun.
  - split; [exact Hr1|]. split; [reflexivity|]. simpl. intros Htr.
    by destruct (findCounterPartyInitiation_statuses E cat network walletId not_submission
                   passive_not_submission swap _ _ _ _ _ Hfound Htr).
  - split; [exact I|]. split; [reflexivity|]. simpl. intros Htr.
    by destruct (findCounterPartyInitiation_statuses E cat network walletId not_submission
                   passive_not_submission swap _ _ _ _ _ Hfound Htr).
Qed.

Lemma confirmInitiation_stops_confirming_once_refund_is_due_witness :
  jumps_or_refunds
    (fst (Liquality.confirmInitiation (Scenario.world Scenario.expired) Scenario.catalog
            "mainnet" "w1" (Scenario.htlcSwap "INITIATION_REPORTED") (0%nat, []))).
Proof.
  destruct (Liquality.confirmInitiation (Scenario.world Scenario.expired) Scenario.catalog
              "mainnet" "w1" (Scenario.htlcSwap "INITIATION_REPORTED") (0%nat, []))
    as [r st'] eqn:Hrun.
  exact (proj1 (confirmInitiation_stops_confirming_once_refund_is_due nat
                  (Scenario.world Scenario.expired) Scenario.catalog "mainnet" "w1"
                  (Scenario.htlcSwap "INITIATION_REPORTED") (expired_chain_time _)
                  _ _ _ Hrun)).
Defined.

Lemma passive_submits_for network walletId asset :
  passive (submits_for network walletId asset).
Proof. intros ev Hev. unfold submits_for. by destruct ev. Qed.

Ltac submission_call :=
  lazymatch goal with
  | |- triple _ (call _ _) _ =>
      apply triple_call; [by repeat split | intros ?w; simpl; try apply returning_True]
  end.

Section Locked.
Context {W : Type} (E : Collaborators W) (cat : Catalog) (lib : Thorchain.Libs).
Context (network : Network) (walletId : WalletId).

Lemma fundSwap_submits_for swap :
  triple (submits_for network walletId (Liquality.from swap))
    (Liquality.fundSwap E cat network walletId swap) (returning (fun _ => True)).
Proof.
  pose proof (passive_submits_for network walletId (Liquality.from swap)) as HP.
  unfold Liquality.fundSwap, Liquality.hasQuoteExpired. cbv zeta.
  triple_steps. submission_call.
Qed.

Lemma refundSwap_submits_for swap :
  triple (submits_for network walletId (Liquality.from swap))
    (Liquality.refundSwap E network walletId swap) (returning (fun _ => True)).
Proof.
  pose proof (passive_submits_for network walletId (Liquality.from swap)) as HP.
  unfold Liquality.refundSwap. cbv zeta.
  triple_steps. submission_call.
Qed.

Lemma claimSwap_submits_for swap :
  triple (submits_for network walletId (Liquality.to swap))
    (Liquality.claimSwap E network walletId swap) (returning (fun _ => True)).
Proof.
  pose proof (passive_submits_for network walletId (Liquality.to swap)) as HP.
  unfold Liquality.claimSwap.
  eapply returning_bind; [apply handleExpirations_statuses; exact HP|].
  intros [u|] _; [triple_steps|].
  cbv zeta. triple_steps. submission_call.
Qed.

Lemma makeMemo_passive (P : Event -> Prop) swap :
  passive P ->
  triple P (Thorchain.makeMemo E cat lib network walletId swap) (returning (fun _ => True)).
Proof.
  intros HP. unfold Thorchain.makeMemo, Thorchain.thorchainAssetOf. cbv zeta. triple_steps.
Qed.

Lemma sendSwap_submits_for swap :
  triple (submits_for network walletId (Thorchain.from swap))
    (Thorchain.sendSwap E cat lib network walletId swap) (returning (fun _ => True)).
Proof.
  pose proof (passive_submits_for network walletId (Thorchain.from swap)) as HP.
  unfold Thorchain.sendSwap, Thorchain.sendBitcoinSwap, Thorchain.sendEthereumSwap,
    Thorchain.getRouterAddress, Thorchain.getInboundAddress,
    Thorchain._getInboundAddresses, Thorchain.thorchainAssetOf.
  cbv zeta.
  triple_step; [apply makeMemo_passive; exact HP|].
  triple_steps; submission_call.
Qed.
End Locked.

(** X12. In both providers, an action that [performNextSwapAction]
    schedules under the lock of an asset submits transactions through the
    client of that very asset (in the given network and wallet) only, and
    an action scheduled on an interval submits nothing at all. *)
Theorem submissions_are_made_under_the_lock_of_their_asset :
  (forall (W : Type) (E : Collaborators W) (cat : Catalog)
          (network : Network) (walletId : WalletId)
          (swap : Liquality.SwapHistoryItem) scheduling action,
      Liquality.performNextSwapAction E cat network walletId swap
      = Some (scheduling, action) ->
      forall st r st',
        action st = (r, st') ->
        match scheduling with
        | Liquality.WithLock asset =>
            Forall (submits_for network walletId asset) (snd st) ->
            Forall (submits_for network walletId asset) (snd st')
        | _ => Forall not_submission (snd st) -> Forall not_submission (snd st')
        end)
  /\ (forall (W : Type) (E : Collaborators W) (cat : Catalog) (lib : Thorchain.Libs)
            (network : Network) (walletId : WalletId)
            (swap : Thorchain.SwapHistoryItem) scheduling action,
        Thorchain.performNextSwapAction E cat lib network walletId swap
        = Some (scheduling, action) ->
        forall st r st',
          action st = (r, st') ->
          match scheduling with
          | Thorchain.WithLock asset =>
              Forall (submits_for network walletId asset) (snd st) ->
              Forall (submits_for network walletId asset) (snd st')
          | Thorchain.WithInterval =>
              Forall not_submission (snd st) -> Forall not_submission (snd st')
          end).
Proof.
  split.
  - intros W E cat network walletId swap scheduling action Hsel [w tr] r [w' tr'] Hrun.
    revert Hsel. unfold Liquality.performNextSwapAction. cbv zeta.
    repeat match goal with
           | |- context [if String.eqb (Liquality.status swap) ?x then _ else _] =>
               destruct (String.eqb (Liquality.status swap) x);
               [intros H; inversion H; subst; clear H; simpl; intros Htr;
                first
                  [ by destruct (reportInitiation_statuses E not_submission
                                   passive_not_submission swap _ _ _ _ _ Hrun Htr)
                  | by destruct (confirmInitiation_statuses E cat network walletId
                                   not_submission passive_not_submission swap
                                   _ _ _ _ _ Hrun Htr)
                  | by destruct (findCounterPartyInitiation_statuses E cat network walletId
                                   not_submission passive_not_submission swap
                                   _ _ _ _ _ Hrun Htr)
                  | by destruct (confirmCounterPartyInitiation_statuses E cat network
                                   walletId not_submission passive_not_submission swap
                                   _ _ _ _ _ Hrun Htr)
                  | by destruct (waitForClaimConfirmations_statuses E network walletId
                                   not_submission passive_not_submission swap
                                   _ _ _ _ _ Hrun Htr)
                  | by destruct (waitForRefund_statuses E network walletId
                                   not_submission passive_not_submission swap
                                   _ _ _ _ _ Hrun Htr)
                  | by destruct (waitForRefundConfirmations_statuses E network walletId
                                   not_submission passive_not_submission swap
                                   _ _ _ _ _ Hrun Htr)
                  | by destruct (fundSwap_submits_for E cat network walletId swap
                                   _ _ _ _ _ Hrun Htr)
                  | by destruct (claimSwap_submits_for E network walletId swap
                                   _ _ _ _ _ Hrun Htr)
                  | by destruct (refundSwap_submits_for E network walletId swap
                                   _ _ _ _ _ Hrun Htr) ]
               |]
           end.
    discriminate.
  - intros W E cat lib network walletId swap scheduling action Hsel [w tr] r [w' tr'] Hrun.
    revert Hsel. unfold Thorchain.performNextSwapAction. cbv zeta.
    repeat match goal with
           | |- context [if String.eqb (Thorchain.status swap) ?x then _ else _] =>
               destruct (String.eqb (Thorchain.status swap) x);
               [intros H; inversion H; subst; clear H; simpl; intros Htr;
                first
                  [ by destruct (waitForApproveConfirmations_statuses E network walletId
                                   not_submission passive_not_submission swap
                                   _ _ _ _ _ Hrun Htr)
                  | by destruct (waitForSendConfirmations_statuses E network walletId
                                   not_submission passive_not_submission swap
                                   _ _ _ _ _ Hrun Htr)
                  | by destruct (waitForReceive_statuses E network walletId
                                   not_submission passive_not_submission swap
                                   _ _ _ _ _ Hrun Htr)
                  | idtac ]
               |]
           end.
    2: discriminate.
    unfold bind in Hrun.
    destruct (Thorchain.sendSwap E cat lib network walletId swap (w, tr))
      as [r1 [w1 tr1]] eqn:Hsend.
    destruct (sendSwap_submits_for E cat lib network walletId swap _ _ _ _ _ Hsend Htr)
      as [_ Htr1].
    destruct r1; inversion Hrun; subst; exact Htr1.
Qed.

Lemma submissions_are_made_under_the_lock_of_their_asset_witness :
  Forall (submits_for "mainnet" "w1" "ETH")
    (snd (snd (Liquality.claimSwap (Scenario.world Scenario.calm) "mainnet" "w1"
                 (Scenario.htlcSwap "READY_TO_CLAIM") (0%nat, [])))).
Proof.
  destruct submissions_are_made_under_the_lock_of_their_asset as [H _].
  destruct (Liquality.claimSwap (Scenario.world Scenario.calm) "mainnet" "w1"
              (Scenario.htlcSwap "READY_TO_CLAIM") (0%nat, [])) as [r st'] eqn:Hrun.
  apply (H nat (Scenario.world Scenario.calm) Scenario.catalog "mainnet" "w1"
           (Scenario.htlcSwap "READY_TO_CLAIM") (Liquality.WithLock "ETH")
           (Liquality.claimSwap (Scenario.world Scenario.calm) "mainnet" "w1"
              (Scenario.htlcSwap "READY_TO_CLAIM"))
           eq_refl (0%nat, []) r st' Hrun).
  constructor.
Defined.

(** X13. In both providers [performNextSwapAction] selects an action
    exactly for the statuses that the status table files under [PENDING]:
    every pending status is handled, and no action is taken for a finished
    or unknown status. *)
Theorem actions_are_selected_for_pending_statuses :
  (forall (W : Type) (E : Collaborators W) (cat : Catalog)
          (network : Network) (walletId : WalletId) (swap : Liquality.SwapHistoryItem),
      is_Some (Liquality.performNextSwapAction E cat network walletId swap)
      <-> exists entry,
            Liquality._getStatuses !! Liquality.status swap = Some entry
            /\ Liquality.filterStatus entry = "PENDING")
  /\ (forall (W : Type) (E : Collaborators W) (cat : Catalog) (lib : Thorchain.Libs)
            (network : Network) (walletId : WalletId) (swap : Thorchain.SwapHistoryItem),
        is_Some (Thorchain.performNextSwapAction E cat lib network walletId swap)
        <-> exists entry,
              Thorchain._getStatuses !! Thorchain.status swap = Some entry
              /\ Thorchain.filterStatus entry = "PENDING").
Proof.
  split.
  - intros W E cat network walletId swap. split.
    + unfold Liquality.performNextSwapAction. cbv zeta.
      repeat match goal with
             | |- context [if String.eqb (Liquality.status swap) ?x then _ else _] =>
                 let Hs := fresh "Hs" in
                 destruct (String.eqb (Liquality.status swap) x) eqn:Hs;
                 [apply String.eqb_eq in Hs; rewrite Hs; intros _;
                  eexists; split; [vm_compute; reflexivity | reflexivity]
                 |clear Hs]
             end.
      intros [x Hx]. discriminate.
    + intros (entry & Hentry & Hpending).
      apply elem_of_list_to_map_2 in Hentry.
      unfold Liquality.performNextSwapAction. cbv zeta.
      repeat (apply elem_of_cons in Hentry; destruct Hentry as [Heq|Hentry];
              [injection Heq as Hs He; subst entry;
               first [ discriminate Hpending
                     | rewrite Hs; eexists; reflexivity ]
              |]).
      by apply elem_of_nil in Hentry.
  - intros W E cat lib network walletId swap. split.
    + unfold Thorchain.performNextSwapAction. cbv zeta.
      repeat match goal with
             | |- context [if String.eqb (Thorchain.status swap) ?x then _ else _] =>
                 let Hs := fresh "Hs" in
                 destruct (String.eqb (Thorchain.status swap) x) eqn:Hs;
                 [apply String.eqb_eq in Hs; rewrite Hs; intros _;
                  eexists; split; [vm_compute; reflexivity | reflexivity]
                 |clear Hs]
             end.
      intros [x Hx]. discriminate.
    + intros (entry & Hentry & Hpending).
      apply elem_of_list_to_map_2 in Hentry.
      unfold Thorchain.performNextSwapAction. cbv zeta.
      repeat (apply elem_of_cons in Hentry; destruct Hentry as [Heq|Hentry];
              [injection Heq as Hs He; subst entry;
               first [ discriminate Hpending
                     | rewrite Hs; eexists; reflexivity ]
              |]).
      by apply elem_of_nil in Hentry.
Qed.

Lemma round_down_quotient (a b : Z) :
  0 < b -> BN.round BN.ROUND_DOWN (inject_Z a / inject_Z b)%Q = Z.quot a b.
Proof.
  intros Hb.
  rewrite (round_comp _ _ (a # Z.to_pos b)).
  - unfold BN.round. simpl. by rewrite Z2Pos.id.
  - unfold Qeq, Qdiv, Qmult, Qinv, inject_Z. simpl.
    destruct b as [|p|p]; try lia. simpl. lia.
Qed.

Lemma dividedBy_power (a k : Z) :
  0 <= k <= 20 ->
  (BN.dividedBy (inject_Z a) (inject_Z (10 ^ k)) == inject_Z a / inject_Z (10 ^ k))%Q.
Proof.
  intros Hk. unfold BN.dividedBy, BN.decimalPlaces, BN.DECIMAL_PLACES.
  assert (Hpos : 0 < 10 ^ k) by (apply Z.pow_pos_nonneg; lia).
  assert (Hne : ~ (inject_Z (10 ^ k) == 0)%Q).
  { intros H. unfold Qeq, inject_Z in H. simpl in H. lia. }
  assert (Hsplit : 10 ^ 20 = 10 ^ (20 - k) * 10 ^ k).
  { rewrite <- Z.pow_add_r by lia. f_equal. lia. }
  rewrite (round_comp _ _ (inject_Z (a * 10 ^ (20 - k)))).
  - rewrite round_half_up_integer.
    rewrite Hsplit, !inject_Z_mult. field.
    split; [exact Hne|].
    intros H. unfold Qeq, inject_Z in H. simpl in H.
    assert (0 < 10 ^ (20 - k)) by (apply Z.pow_pos_nonneg; lia). lia.
  - rewrite Hsplit, !inject_Z_mult. field. exact Hne.
Qed.

Lemma convertBaseAmountDecimal_down (a : Thorchain.BaseAmount) (d : Z) :
  d < Thorchain.decimal a -> Thorchain.decimal a - d <= 20 ->
  Thorchain.convertBaseAmountDecimal a d
  = {| Thorchain.amount := Z.quot (Thorchain.amount a) (10 ^ (Thorchain.decimal a - d));
       Thorchain.decimal := d |}.
Proof.
  intros Hlt Hk. unfold Thorchain.convertBaseAmountDecimal. cbv zeta.
  rewrite (proj2 (Z.ltb_lt _ _)) by lia.
  replace ((d - Thorchain.decimal a) * -1) with (Thorchain.decimal a - d) by lia.
  set (k := Thorchain.decimal a - d).
  assert (Hpos : 0 < 10 ^ k) by (apply Z.pow_pos_nonneg; lia).
  unfold Thorchain.baseAmount. f_equal.
  unfold BN.decimalPlaces. change (inject_Z (10 ^ 0)) with 1%Q.
  rewrite (round_comp BN.ROUNDING_MODE _
             (inject_Z (BN.round BN.ROUND_DOWN
                          (BN.dividedBy (inject_Z (Thorchain.amount a)) (inject_Z (10 ^ k))))))
    by (rewrite (round_comp BN.ROUND_DOWN (_ * 1)%Q
                   (BN.dividedBy (inject_Z (Thorchain.amount a)) (inject_Z (10 ^ k))))
          by ring; field).
  unfold BN.ROUNDING_MODE. rewrite round_half_up_integer.
  rewrite (round_comp _ _ _ (dividedBy_power (Thorchain.amount a) k ltac:(lia))).
  by apply round_down_quotient.
Qed.

Lemma convertBaseAmountDecimal_exact_up (a : Thorchain.BaseAmount) (d : Z) :
  Thorchain.decimal a <= d ->
  Thorchain.convertBaseAmountDecimal a d
  = {| Thorchain.amount := Thorchain.amount a * 10 ^ (d - Thorchain.decimal a);
       Thorchain.decimal := d |}.
Proof.
  intros Hd. unfold Thorchain.convertBaseAmountDecimal. cbv zeta.
  rewrite (proj2 (Z.ltb_ge _ _)) by lia.
  unfold Thorchain.baseAmount, BN.multipliedBy. f_equal.
  rewrite (round_comp _ _ (inject_Z (Thorchain.amount a * 10 ^ (d - Thorchain.decimal a)))).
  - apply round_half_up_integer.
  - rewrite inject_Z_mult. reflexivity.
Qed.

(** X14. Converting a base amount to fewer decimals (at most 20 fewer)
    truncates towards zero: the result is the integer quotient by the power
    of ten, it is never larger in magnitude than the amount and loses less
    than one unit of the new precision, and converting back never gives more
    than the original amount. *)
Theorem convertBaseAmountDecimal_never_rounds_up :
  forall (a : Thorchain.BaseAmount) (d : Z),
    d < Thorchain.decimal a ->
    Thorchain.decimal a - d <= 20 ->
    let k := Thorchain.decimal a - d in
    let b := Thorchain.convertBaseAmountDecimal a d in
    Thorchain.decimal b = d
    /\ Thorchain.amount b = Z.quot (Thorchain.amount a) (10 ^ k)
    /\ Z.abs (Thorchain.amount b * 10 ^ k) <= Z.abs (Thorchain.amount a)
    /\ Z.abs (Thorchain.amount a) < Z.abs (Thorchain.amount b * 10 ^ k) + 10 ^ k
    /\ (0 <= Thorchain.amount a ->
        Thorchain.amount (Thorchain.convertBaseAmountDecimal b (Thorchain.decimal a))
        <= Thorchain.amount a).
Proof.
  intros a d Hlt Hk k b. subst b.
  rewrite (convertBaseAmountDecimal_down a d Hlt Hk). fold k.
  cbn [Thorchain.amount Thorchain.decimal].
  assert (Hpos : 0 < 10 ^ k) by (apply Z.pow_pos_nonneg; lia).
  pose proof (Z.quot_rem' (Thorchain.amount a) (10 ^ k)) as Hqr.
  assert (Hr1 : 0 <= Thorchain.amount a ->
                0 <= Z.rem (Thorchain.amount a) (10 ^ k) < 10 ^ k)
    by (intros; apply Z.rem_bound_pos; lia).
  assert (Hr2 : Thorchain.amount a <= 0 ->
                - 10 ^ k < Z.rem (Thorchain.amount a) (10 ^ k) <= 0).
  { intros. apply Z.rem_bound_pos_neg; lia. }
  set (q := Z.quot (Thorchain.amount a) (10 ^ k)) in *.
  set (r := Z.rem (Thorchain.amount a) (10 ^ k)) in *.
  set (P := 10 ^ k) in *.
  assert (Hm : 0 <= Thorchain.amount a /\ 0 <= q * P \/
               Thorchain.amount a <= 0 /\ q * P <= 0).
  { destruct (Z_le_gt_dec 0 (Thorchain.amount a)) as [Ha|Ha]; [left|right];
      (split; [lia|]).
    - specialize (Hr1 Ha). destruct (Z_le_gt_dec 0 q) as [Hq|Hq]; [nia|].
      assert (P * q <= - P) by nia. lia.
    - specialize (Hr2 ltac:(lia)). destruct (Z_le_gt_dec q 0) as [Hq|Hq]; [nia|].
      assert (P <= P * q) by nia. lia. }
  split; [reflexivity|]. split; [reflexivity|].
  split; [lia|]. split; [lia|].
  intros Hnonneg.
  rewrite convertBaseAmountDecimal_exact_up by (simpl; lia).
  cbn [Thorchain.amount Thorchain.decimal]. fold k. fold P. fold q. lia.
Qed.

Lemma convertBaseAmountDecimal_never_rounds_up_witness :
  Thorchain.amount
    (Thorchain.convertBaseAmountDecimal
       {| Thorchain.amount := 1234567890123; Thorchain.decimal := 18 |} 8)
  = Z.quot 1234567890123 (10 ^ (18 - 8)).
Proof.
  destruct (convertBaseAmountDecimal_never_rounds_up
              {| Thorchain.amount := 1234567890123; Thorchain.decimal := 18 |} 8)
    as (_ & H & _).
  - simpl. lia.
  - simpl. lia.
  - exact H.
Defined.

(** X15. Converting a base amount to more decimals (at most 20 more)
    multiplies it by the power of ten exactly, and converting the result
    back to the original decimals gives the original amount. *)
Theorem convertBaseAmountDecimal_round_trip :
  forall (a : Thorchain.BaseAmount) (d : Z),
    Thorchain.decimal a <= d ->
    d - Thorchain.decimal a <= 20 ->
    Thorchain.amount (Thorchain.convertBaseAmountDecimal a d)
    = Thorchain.amount a * 10 ^ (d - Thorchain.decimal a)
    /\ Thorchain.convertBaseAmountDecimal (Thorchain.convertBaseAmountDecimal a d)
         (Thorchain.decimal a)
       = a.
Proof.
  intros a d Hle Hk.
  rewrite (convertBaseAmountDecimal_exact_up a d Hle). simpl.
  split; [reflexivity|].
  destruct (Z.eq_dec d (Thorchain.decimal a)) as [->|Hne].
  - rewrite convertBaseAmountDecimal_exact_up by (simpl; lia). simpl.
    rewrite Z.sub_diag. simpl. rewrite Z.mul_1_r. rewrite Z.mul_1_r. by destruct a.
  - rewrite convertBaseAmountDecimal_down by (simpl; lia). simpl.
    rewrite Z.quot_mul by (apply Z.pow_nonzero; lia). by destruct a.
Qed.

Lemma convertBaseAmountDecimal_round_trip_witness :
  Thorchain.convertBaseAmountDecimal
    (Thorchain.convertBaseAmountDecimal
       {| Thorchain.amount := 5; Thorchain.decimal := 8 |} 18) 8
  = {| Thorchain.amount := 5; Thorchain.decimal := 8 |}.
Proof.
  destruct (convertBaseAmountDecimal_round_trip
              {| Thorchain.amount := 5; Thorchain.decimal := 8 |} 18) as [_ H].
  - simpl. lia.
  - simpl. lia.
  - exact H.
Defined.

(** X16. [getInboundAddress] asks thornode once and returns the first
    entry of the list for the chain; without such an entry both it and
    [getRouterAddress] raise the inbound-address error, and
    [getRouterAddress] raises the router error when that first entry has no
    router or an empty one (a later entry of the chain is not looked at). *)
Theorem getInboundAddress_takes_the_first_match :
  forall (W : Type) (E : Collaborators W) (chain0 : string)
         (w w1 : W) (inboundAddresses : list ThorchainInboundAddress),
    thornodeInboundAddresses E w = (Ok inboundAddresses, w1) ->
    let seen := [EvThornodeInboundAddresses] in
    ((forall inbound, inbound ∈ inboundAddresses -> ia_chain inbound <> chain0) ->
     run (Thorchain.getInboundAddress E chain0) w
     = (Throw (Thorchain.inboundMissing chain0), (w1, seen))
     /\ run (Thorchain.getRouterAddress E chain0) w
        = (Throw (Thorchain.inboundMissing chain0), (w1, seen)))
    /\ (forall before inbound after,
          inboundAddresses = before ++ inbound :: after ->
          ia_chain inbound = chain0 ->
          (forall other, other ∈ before -> ia_chain other <> chain0) ->
          run (Thorchain.getInboundAddress E chain0) w = (Ok inbound, (w1, seen))
          /\ run (Thorchain.getRouterAddress E chain0) w
             = (match ia_router inbound with
                | Some router =>
                    if String.eqb router "" then Throw (Thorchain.routerMissing chain0)
                    else Ok router
                | None => Throw (Thorchain.routerMissing chain0)
                end, (w1, seen))).
Proof.
  intros W E chain0 w w1 inboundAddresses Hget seen.
  assert (Hrun : forall A (k : ThorchainInboundAddress -> M W A),
             run (inboundAddress <- Thorchain.getInboundAddress E chain0 ;; k inboundAddress) w
             = match List.find (fun inbound => String.eqb (ia_chain inbound) chain0)
                       inboundAddresses with
               | Some inbound => k inbound (w1, seen)
               | None => (Throw (Thorchain.inboundMissing chain0), (w1, seen))
               end).
  { intros A k. unfold run, Thorchain.getInboundAddress, Thorchain._getInboundAddresses.
    unfold bind, call. simpl. rewrite Hget. simpl.
    by destruct (List.find _ inboundAddresses). }
  assert (Hrun0 : run (Thorchain.getInboundAddress E chain0) w
                  = match List.find (fun inbound => String.eqb (ia_chain inbound) chain0)
                            inboundAddresses with
                    | Some inbound => (Ok inbound, (w1, seen))
                    | None => (Throw (Thorchain.inboundMissing chain0), (w1, seen))
                    end).
  { unfold run. rewrite <- (bind_ret_run (Thorchain.getInboundAddress E chain0)).
    exact (Hrun _ (fun a => ret a)). }
  split.
  - intros Hnone.
    assert (Hfind : List.find (fun inbound => String.eqb (ia_chain inbound) chain0)
                      inboundAddresses = None).
    { destruct (List.find _ inboundAddresses) as [x|] eqn:Hf; [|reflexivity].
      apply find_some in Hf as [Hin Heq]. apply String.eqb_eq in Heq.
      exfalso. apply (Hnone x); [|exact Heq]. by apply list_elem_of_In. }
    split; [by rewrite Hrun0, Hfind|].
    unfold Thorchain.getRouterAddress. by rewrite Hrun, Hfind.
  - intros before inbound after -> Hchain Hbefore.
    assert (Hfind : List.find (fun inbound => String.eqb (ia_chain inbound) chain0)
                      (before ++ inbound :: after) = Some inbound).
    { clear Hget Hrun Hrun0. induction before as [|x before IH]; simpl.
      - by rewrite (proj2 (String.eqb_eq _ _) Hchain).
      - destruct (String.eqb (ia_chain x) chain0) eqn:Hx.
        + apply String.eqb_eq in Hx. exfalso. apply (Hbefore x); [|exact Hx]. by left.
        + apply IH. intros other Hin. apply Hbefore. by right. }
    split; [by rewrite Hrun0, Hfind|].
    unfold Thorchain.getRouterAddress. rewrite Hrun, Hfind.
    destruct (ia_router inbound) as [router|]; [|reflexivity].
    by destruct (String.eqb router "").
Qed.

Lemma getInboundAddress_takes_the_first_match_witness :
  run (Thorchain.getRouterAddress (Scenario.world Scenario.calm) "ETH") 0%nat
  = (Ok "0xrouter", (0%nat, [EvThornodeInboundAddresses])).
Proof.
  destruct (getInboundAddress_takes_the_first_match nat (Scenario.world Scenario.calm)
              "ETH" 0%nat 0%nat _ eq_refl) as [_ H].
  destruct (H [ {| ia_chain := "BTC"; ia_address := "bc1vault"; ia_gas_rate := "10";
                   ia_router := None |} ]
              {| ia_chain := "ETH"; ia_address := "0xvault"; ia_gas_rate := "30";
                 ia_router := Some "0xrouter" |} []) as [_ Hrouter].
  - reflexivity.
  - reflexivity.
  - intros other Hin. apply list_elem_of_singleton in Hin as ->. discriminate.
  - exact Hrouter.
Defined.

(** X17. For a source asset that is neither BTC, ETH nor an ERC20 token,
    [sendSwap] never returns an update: it builds the memo and then raises
    (the memo's error, or the error of a deposit that was not sent), and it
    submits nothing. *)
Theorem sendSwap_refuses_other_assets :
  forall (W : Type) (E : Collaborators W) (cat : Catalog) (lib : Thorchain.Libs)
         (network : Network) (walletId : WalletId) (swap : Thorchain.SwapHistoryItem),
    Thorchain.from swap <> "BTC" ->
    Thorchain.from swap <> "ETH" ->
    isERC20 cat (Thorchain.from swap) = false ->
    forall st,
      (forall memo st1,
          Thorchain.makeMemo E cat lib network walletId swap st = (Ok memo, st1) ->
          Thorchain.sendSwap E cat lib network walletId swap st
          = (Throw Thorchain.notSent, st1))
      /\ (forall e st1,
            Thorchain.makeMemo E cat lib network walletId swap st = (Throw e, st1) ->
            Thorchain.sendSwap E cat lib network walletId swap st = (Throw e, st1))
      /\ (forall r st',
            Thorchain.sendSwap E cat lib network walletId swap st = (r, st') ->
            (exists e, r = Throw e)
            /\ (Forall not_submission (snd st) -> Forall not_submission (snd st'))).
Proof.
  intros W E cat lib network walletId swap Hbtc Heth Htoken st.
  assert (Hb : String.eqb (Thorchain.from swap) "BTC" = false)
    by (by apply String.eqb_neq).
  assert (He : String.eqb (Thorchain.from swap) "ETH" = false)
    by (by apply String.eqb_neq).
  assert (Hsend : Thorchain.sendSwap E cat lib network walletId swap st
                  = match Thorchain.makeMemo E cat lib network walletId swap st with
                    | (Ok _, st1) => (Throw Thorchain.notSent, st1)
                    | (Throw e, st1) => (Throw e, st1)
                    end).
  { unfold Thorchain.sendSwap. unfold bind at 1.
    destruct (Thorchain.makeMemo E cat lib network walletId swap st) as [[memo|e] st1];
      [|reflexivity].
    rewrite Hb, He, Htoken. reflexivity. }
  split; [|split].
  - intros memo st1 Hmemo. by rewrite Hsend, Hmemo.
  - intros e st1 Hmemo. by rewrite Hsend, Hmemo.
  - intros r [w' tr'] Hrun. rewrite Hsend in Hrun.
    destruct st as [w tr].
    destruct (Thorchain.makeMemo E cat lib network walletId swap (w, tr))
      as [r1 [w1 tr1]] eqn:Hmemo.
    assert (Htr : Forall not_submission tr -> Forall not_submission tr1).
    { intros Htr.
      assert (Hpass : triple not_submission
                        (Thorchain.makeMemo E cat lib network walletId swap)
                        (returning (fun _ => True))).
      { pose proof passive_not_submission as HP.
        unfold Thorchain.makeMemo, Thorchain.thorchainAssetOf. cbv zeta. triple_steps. }
      by destruct (Hpass _ _ _ _ _ Hmemo Htr). }
    destruct r1; inversion Hrun; subst; (split; [eauto | exact Htr]).
Qed.

Lemma sendSwap_refuses_other_assets_witness :
  exists e st',
    Thorchain.sendSwap (Scenario.world Scenario.calm) Scenario.catalog Scenario.libs
      "mainnet" "w1" (Scenario.vaultSwap "DOGE" "APPROVE_CONFIRMED" 1000%Q 50%Q 0.02%Q)
      (0%nat, [])
    = (Throw e, st')
    /\ Forall not_submission (snd st').
Proof.
  destruct (Thorchain.sendSwap (Scenario.world Scenario.calm) Scenario.catalog
              Scenario.libs "mainnet" "w1"
              (Scenario.vaultSwap "DOGE" "APPROVE_CONFIRMED" 1000%Q 50%Q 0.02%Q)
              (0%nat, [])) as [r st'] eqn:Hrun.
  destruct (sendSwap_refuses_other_assets nat (Scenario.world Scenario.calm)
              Scenario.catalog Scenario.libs "mainnet" "w1"
              (Scenario.vaultSwap "DOGE" "APPROVE_CONFIRMED" 1000%Q 50%Q 0.02%Q))
    with (st := (0%nat, @nil Event)) as (_ & _ & H).
  - discriminate.
  - discriminate.
  - reflexivity.
  - destruct (H r st' Hrun) as [[e ->] Htr].
    exists e, st'. split; [reflexivity|]. apply Htr. constructor.
Defined.

Ltac stable_inbound Hstable :=
  repeat match goal with
         | H : thornodeInboundAddresses _ ?w = (Ok ?l0, _) |- _ =>
             let Hs := fresh "Hs" in
             pose proof (Hstable w) as Hs; rewrite H in Hs; simpl in Hs;
             injection Hs as ->; clear H
         end.



Lemma getRouterAddress_trace {W : Type} (E : Collaborators W) (chain0 : string)
    (w : W) (tr : list Event) (r : Result string) (w1 : W) (tr1 : list Event) :
  Thorchain.getRouterAddress E chain0 (w, tr) = (r, (w1, tr1)) ->
  tr1 = tr ++ [EvThornodeInboundAddresses].
Proof.
  unfold Thorchain.getRouterAddress, Thorchain.getInboundAddress,
    Thorchain._getInboundAddresses, bind, call, ret, throw. simpl.
  repeat (break_goal; simpl); intros H; by inversion H.
Qed.

Lemma approveTokens_run {W : Type} (E : Collaborators W) (cat : Catalog)
    (lib : Thorchain.Libs) (network : Network) (walletId : WalletId)
    (swap : Thorchain.SwapHistoryItem) (w : W) (r : Result Thorchain.Updates)
    (st' : St W) :
  run (Thorchain.approveTokens E cat lib network walletId swap) w = (r, st') ->
  (exists text asset routerAddress w1 fromAddressRaw w2 info fromChainInfo token
          allowed w3 inputAmount,
      Thorchain.toThorchainAsset cat lib (Thorchain.from swap) = Ok text
      /\ Thorchain.assetFromString lib text = Some asset
      /\ Thorchain.getRouterAddress E (Thorchain.ta_chain asset) (w, [])
         = (routerAddress, (w1, [EvThornodeInboundAddresses]))
      /\ getSwapAddress E network walletId (Thorchain.from swap)
           (Thorchain.toAccountId swap) w1 = (Ok fromAddressRaw, w2)
      /\ cryptoassets cat !! Thorchain.from swap = Some info
      /\ chains cat !! chain info = Some fromChainInfo
      /\ Thorchain.contractAddressOf cat (Thorchain.from swap) = Ok token
      /\ allowance E (Thorchain.from swap)
           (formatAddress fromChainInfo fromAddressRaw network) routerAddress w2
         = (Ok allowed, w3)
      /\ Thorchain.ethersBigNumberFrom (Thorchain.fromAmount swap) = Ok inputAmount
      /\ (r, st')
         = afterAllowance E lib
             (getClient network walletId (Thorchain.from swap)
                (Thorchain.fromAccountId swap))
             token (Thorchain.fee swap) routerAddress allowed inputAmount w3
             [EvThornodeInboundAddresses;
              EvGetSwapAddress (Thorchain.from swap) (Thorchain.toAccountId swap);
              EvAllowance (Thorchain.from swap)
                (formatAddress fromChainInfo fromAddressRaw network)])
  \/ ((exists e, r = Throw e) /\ Forall not_submission (snd st')).
Proof.
  unfold run, Thorchain.approveTokens, Thorchain.thorchainAssetOf, Thorchain.promise,
    Thorchain.assetInfo, Thorchain.chainInfo.
  unfold bind, call, lift, ret, throw. simpl.
  repeat (break_goal; simpl; try discriminate).
  all: repeat match goal with s : St _ |- _ => destruct s end.
  all: repeat match goal with
              | H : Thorchain.getRouterAddress _ _ (_, []) = (_, (_, ?l)) |- _ =>
                  is_var l;
                  pose proof (getRouterAddress_trace _ _ _ _ _ _ _ H); subst l
              end.
  all: simpl in *.
  all: intros Hrun; inversion Hrun; subst; clear Hrun.
  all: first
         [ left; do 12 eexists;
           repeat (split; [first [eassumption | reflexivity]|]);
           unfold afterAllowance; simpl;
           match goal with H : (_ >=? _) = _ |- _ => rewrite H end;
           try match goal with
               | H : Thorchain.encodeApprove _ _ _ = _ |- _ => rewrite H
               end;
           try match goal with
               | H : chain_sendTransaction _ _ _ _ = _ |- _ => rewrite H
               end;
           reflexivity
         | right; split; [eexists; reflexivity | simpl; repeat constructor] ].
Qed.

Lemma approveTokens_after_allowance {W : Type} (E : Collaborators W) (cat : Catalog)
    (lib : Thorchain.Libs) (network : Network) (walletId : WalletId)
    (swap : Thorchain.SwapHistoryItem) (w w1 w2 w3 : W)
    (text : string) (asset : Thorchain.ThorAsset) (routerAddress : Result string)
    (fromAddressRaw token : string) (info : AssetInfo) (fromChainInfo : ChainInfo)
    (chainId allowed inputAmount : Z) :
  cryptoassets cat !! Thorchain.from swap = Some info ->
  Thorchain.chainIdOf lib (chain info) network = Some chainId ->
  Thorchain.contractAddressOf cat (Thorchain.from swap) = Ok token ->
  Thorchain.toThorchainAsset cat lib (Thorchain.from swap) = Ok text ->
  Thorchain.assetFromString lib text = Some asset ->
  Thorchain.getRouterAddress E (Thorchain.ta_chain asset) (w, [])
  = (routerAddress, (w1, [EvThornodeInboundAddresses])) ->
  getSwapAddress E network walletId (Thorchain.from swap)
    (Thorchain.toAccountId swap) w1 = (Ok fromAddressRaw, w2) ->
  chains cat !! chain info = Some fromChainInfo ->
  allowance E (Thorchain.from swap)
    (formatAddress fromChainInfo fromAddressRaw network) routerAddress w2
  = (Ok allowed, w3) ->
  Thorchain.ethersBigNumberFrom (Thorchain.fromAmount swap) = Ok inputAmount ->
  run (Thorchain.approveTokens E cat lib network walletId swap) w
  = afterAllowance E lib
      (getClient network walletId (Thorchain.from swap) (Thorchain.fromAccountId swap))
      token (Thorchain.fee swap) routerAddress allowed inputAmount w3
      [EvThornodeInboundAddresses;
       EvGetSwapAddress (Thorchain.from swap) (Thorchain.toAccountId swap);
       EvAllowance (Thorchain.from swap)
         (formatAddress fromChainInfo fromAddressRaw network)].
Proof.
  intros Hinfo HchainId Htoken Htext Hasset Hrouter Haddr Hchain Hallow Hinput.
  unfold run, Thorchain.approveTokens, Thorchain.thorchainAssetOf, Thorchain.promise,
    Thorchain.assetInfo, Thorchain.chainInfo.
  unfold bind, call, lift, ret, throw. cbn [fst snd].
  rewrite Hinfo, HchainId, Htoken, Htext, Hasset, Hrouter. cbn [fst snd app].
  rewrite Haddr, Hchain. cbn [fst snd app]. rewrite Hallow, Hinput.
  unfold afterAllowance. cbn [fst snd app].
  destruct (allowed >=? inputAmount); [reflexivity|].
  destruct (Thorchain.encodeApprove lib routerAddress inputAmount); [|reflexivity].
  cbv zeta. cbn [fst snd app].
  by destruct (chain_sendTransaction E _ _ w3) as [[approveTx|e] w4].
Qed.



(** X20. When thornode reports an outbound transaction for the deposit,
    [waitForReceive] acts on the action of its memo (the text before the
    first colon). For [OUT] the transaction is looked up on the destination
    asset's chain and, once confirmed, the swap ends in [SUCCESS]; for
    [REFUND] it is looked up on the source asset's chain and ends in
    [REFUNDED]; in both cases the balances of that asset are refreshed and
    the end time is the clock's. Any other action raises an error before
    any chain is read. *)
Theorem waitForReceive_follows_the_outbound_memo :
  forall (W : Type) (E : Collaborators W)
         (network : Network) (walletId : WalletId) (swap : Thorchain.SwapHistoryItem)
         (w w1 w2 : W) (thorchainTx : option ThorchainTransactionResponse)
         (receiveHash text : string) (thorchainReceiveTx : ThorchainTransactionResponse),
    thornodeTx E (Thorchain.fromFundHash swap) w = (Ok thorchainTx, w1) ->
    Thorchain.firstOutHash thorchainTx = Some receiveHash ->
    thornodeTx E receiveHash w1 = (Ok (Some thorchainReceiveTx), w2) ->
    Thorchain.memoOf thorchainReceiveTx = Some text ->
    let memoAction := Thorchain.beforeColon text in
    let seen := [EvThornodeTx (Thorchain.fromFundHash swap); EvThornodeTx receiveHash] in
    let outcome := run (Thorchain.waitForReceive E network walletId swap) w in
    let settled (asset : Asset) (accountId : AccountId) (s : string) :=
      forall receiveTx w3 t w4,
        chain_getTransactionByHash E (getClient network walletId asset accountId)
          receiveHash w2 = (Ok (Some receiveTx), w3) ->
        hasConfirmations (Some receiveTx) = true ->
        now E (updateBalances E network walletId [asset] w3) = (t, w4) ->
        outcome
        = (Ok (Some (received receiveTx t s)),
           (w4, seen ++ [EvGetTransactionByHash (getClient network walletId asset accountId)
                           receiveHash;
                         EvUpdateBalances [asset]; EvNow])) in
    (memoAction = "OUT" ->
     settled (Thorchain.to swap) (Thorchain.toAccountId swap) "SUCCESS")
    /\ (memoAction = "REFUND" ->
        settled (Thorchain.from swap) (Thorchain.fromAccountId swap) "REFUNDED")
    /\ (memoAction <> "OUT" -> memoAction <> "REFUND" ->
        outcome = (Throw (Thorchain.unknownMemoAction memoAction), (w2, seen))).
Proof.
  intros W E network walletId swap w w1 w2 thorchainTx receiveHash text
    thorchainReceiveTx Hfirst Hout Hsecond Hmemo memoAction seen outcome settled.
  assert (Hrun : outcome
                 = catch
                     (target <-
                        (if String.eqb memoAction "OUT" then
                           ret (Thorchain.to swap, Thorchain.toAccountId swap)
                         else if String.eqb memoAction "REFUND" then
                           ret (Thorchain.from swap, Thorchain.fromAccountId swap)
                         else throw (Thorchain.unknownMemoAction memoAction)) ;;
                      let asset := fst target in
                      let accountId := snd target in
                      let client := getClient network walletId asset accountId in
                      receiveTx <- chainGetTransactionByHash E client receiveHash ;;
                      if hasConfirmations receiveTx then
                        match receiveTx with
                        | Some receiveTx =>
                            startUpdateBalances E network walletId [asset] ;;;
                            let status := Thorchain.OUT_MEMO_TO_STATUS memoAction in
                            t <- dateNow E ;;
                            ret (Some {| Thorchain.upd_status := status;
                                         Thorchain.upd_endTime := Some t;
                                         Thorchain.upd_approveTx := None;
                                         Thorchain.upd_approveTxHash := None;
                                         Thorchain.upd_fromFundTx := None;
                                         Thorchain.upd_fromFundHash := None;
                                         Thorchain.upd_receiveTxHash := Some (hash receiveTx);
                                         Thorchain.upd_receiveTx := Some receiveTx |})
                        | None => throw TypeError
                        end
                      else
                        match receiveTx with
                        | Some receiveTx => ret (Some (pendingReceipt receiveTx))
                        | None => throw TypeError
                        end)
                     (fun e => if Thorchain.isTxNotFound e
                               then consoleWarn e ;;; ret None else throw e)
                     (w2, seen)).
  { subst outcome. unfold run, Thorchain.waitForReceive, Thorchain._getTransaction.
    unfold catch at 1. unfold bind at 1. unfold catch at 1. unfold call at 1. simpl.
    rewrite Hfirst. simpl. rewrite Hout.
    unfold bind at 1. unfold catch at 1. unfold call at 1. simpl.
    rewrite Hsecond. simpl.
    unfold bind at 1. unfold lift at 1. rewrite Hmemo. reflexivity. }
  assert (Hsettled : forall asset accountId s,
             (String.eqb memoAction "OUT" = true
              /\ (asset, accountId) = (Thorchain.to swap, Thorchain.toAccountId swap)
              /\ s = "SUCCESS")
             \/ (String.eqb memoAction "OUT" = false
                 /\ String.eqb memoAction "REFUND" = true
                 /\ (asset, accountId) = (Thorchain.from swap, Thorchain.fromAccountId swap)
                 /\ s = "REFUNDED") ->
             settled asset accountId s).
  { intros asset accountId s Hcase receiveTx w3 t w4 Hlookup Hconf Hnow.
    rewrite Hrun.
    assert (Hstatus : Thorchain.OUT_MEMO_TO_STATUS memoAction = Some s).
    { unfold Thorchain.OUT_MEMO_TO_STATUS.
      destruct Hcase as [(-> & _ & ->) | (-> & -> & _ & ->)]; reflexivity. }
    assert (Htarget :
              (if String.eqb memoAction "OUT" then
                 ret (W := W) (Thorchain.to swap, Thorchain.toAccountId swap)
               else if String.eqb memoAction "REFUND" then
                 ret (Thorchain.from swap, Thorchain.fromAccountId swap)
               else throw (Thorchain.unknownMemoAction memoAction))
              = ret (asset, accountId)).
    { destruct Hcase as [(-> & -> & _) | (-> & -> & -> & _)]; reflexivity. }
    rewrite Htarget, Hstatus.
    unfold catch, bind, ret, chainGetTransactionByHash, call. simpl.
    rewrite Hlookup. simpl. simpl in Hconf. rewrite Hconf.
    unfold startUpdateBalances, dateNow. simpl. rewrite Hnow. reflexivity. }
  split; [|split].
  - intros Haction. apply Hsettled. left.
    rewrite Haction. repeat split.
  - intros Haction. apply Hsettled. right.
    rewrite Haction. repeat split.
  - intros Hnot1 Hnot2. rewrite Hrun.
    rewrite (proj2 (String.eqb_neq _ _) Hnot1), (proj2 (String.eqb_neq _ _) Hnot2).
    reflexivity.
Qed.

Lemma waitForReceive_follows_the_outbound_memo_witness :
  run (Thorchain.waitForReceive (Scenario.world (Cases.settled "OUT:ABCD")) "mainnet" "w1"
         (Scenario.vaultSwap "ETH" "WAITING_FOR_RECEIVE" 1000%Q 50%Q 0.02%Q)) 0%nat
  = (Ok (Some (received {| hash := "outbound"; confirmations := Some 1 |} 1000 "SUCCESS")),
     (0%nat,
      [EvThornodeTx "deposit"; EvThornodeTx "outbound";
       EvGetTransactionByHash (getClient "mainnet" "w1" "BTC" "acc-btc") "outbound";
       EvUpdateBalances ["BTC"]; EvNow])).
Proof.
  destruct (waitForReceive_follows_the_outbound_memo nat
              (Scenario.world (Cases.settled "OUT:ABCD")) "mainnet" "w1"
              (Scenario.vaultSwap "ETH" "WAITING_FOR_RECEIVE" 1000%Q 50%Q 0.02%Q)
              0%nat 0%nat 0%nat _ "outbound" "OUT:ABCD" _
              eq_refl eq_refl eq_refl eq_refl) as [H _].
  apply (H eq_refl {| hash := "outbound"; confirmations := Some 1 |} 0%nat 1000 0%nat);
    reflexivity.
Defined.

Lemma round_comp_decimalPlaces (dp : Z) (rm : BN.RoundingMode) (x y : Q) :
  (x == y)%Q -> (BN.decimalPlaces dp rm x == BN.decimalPlaces dp rm y)%Q.
Proof.
  intros H. unfold BN.decimalPlaces.
  rewrite (round_comp rm (x * inject_Z (10 ^ dp))%Q (y * inject_Z (10 ^ dp))%Q);
    [reflexivity|].
  by rewrite H.
Qed.

(** X21. For an asset outside Terra whose fee units are listed,
    [getTxFee] is the listed units times the fee price (in gwei, hence
    times [10^9], on an Ethereum chain), expressed in the currency of the
    chain's native asset, that is divided by ten to the native asset's
    decimals; a token is looked up under [ERC20]. *)
Theorem getTxFee_charges_gas_in_the_native_asset :
  forall (cat : Catalog) (isEthereumChain : Asset -> bool) (units : Fees.FeeUnits)
         (asset : Asset) (info : AssetInfo) (chainInfo : ChainInfo)
         (nativeInfo : AssetInfo) (n p : Z),
    cryptoassets cat !! asset = Some info ->
    chains cat !! chain info = Some chainInfo ->
    cryptoassets cat !! nativeAsset chainInfo = Some nativeInfo ->
    chain info <> "terra" ->
    units !! (if isERC20 cat asset then "ERC20" else asset) = Some n ->
    0 <= decimals nativeInfo <= 20 ->
    exists fee,
      Fees.getTxFee cat isEthereumChain units asset (inject_Z p) = Ok (Some fee)
      /\ (fee == inject_Z (n * p * (if isEthereumChain asset then 10 ^ 9 else 1))
                 / inject_Z (10 ^ decimals nativeInfo))%Q.
Proof.
  intros cat isEthereumChain units asset info chainInfo nativeInfo n p
    Hinfo Hchain Hnative Hterra Hunits Hdec.
  unfold Fees.getTxFee. rewrite Hinfo, Hchain, Hnative.
  rewrite (proj2 (String.eqb_neq _ _) Hterra). rewrite Hunits.
  eexists. split; [reflexivity|].
  unfold unitToCurrency, Fees.feePriceInUnit, BN.times.
  rewrite <- (dividedBy_power _ _ Hdec).
  unfold BN.dividedBy. apply round_comp_decimalPlaces.
  unfold Qdiv. apply Qmult_comp; [|reflexivity].
  destruct (isEthereumChain asset).
  - change 1000000000%Q with (inject_Z (10 ^ 9)). rewrite !inject_Z_mult. ring.
  - rewrite !inject_Z_mult. change (inject_Z 1) with 1%Q. ring.
Qed.

Lemma getTxFee_charges_gas_in_the_native_asset_witness :
  exists fee,
    Fees.getTxFee Cases.tokens Cases.isEthereumChain {["ERC20" := 100000]} "USDT"
      (inject_Z 30)
    = Ok (Some fee)
    /\ (fee == 3 / 1000)%Q.
Proof.
  destruct (getTxFee_charges_gas_in_the_native_asset Cases.tokens Cases.isEthereumChain
              {["ERC20" := 100000]} "USDT"
              {| chain := "ethereum"; code := "USDT"; decimals := 6;
                 contractAddress := Some "0xdac1" |}
              {| safeConfirmations := 3; nativeAsset := "ETH";
                 formatAddress := fun a _ => a |}
              {| chain := "ethereum"; code := "ETH"; decimals := 18;
                 contractAddress := None |}
              100000 30) as (fee & Hrun & Hfee).
  - vm_compute. reflexivity.
  - vm_compute. reflexivity.
  - vm_compute. reflexivity.
  - discriminate.
  - vm_compute. reflexivity.
  - simpl. lia.
  - exists fee. split; [exact Hrun|]. rewrite Hfee. reflexivity.
Defined.

(** X22. [getTxFee] does not depend on the token: two assets of one chain
    (on which [isEthereumChain] agrees) get the same fee when both are ERC20
    tokens or when the chain is Terra, whatever the units table holds. *)
Theorem getTxFee_ignores_which_token_pays :
  forall (cat : Catalog) (isEthereumChain : Asset -> bool) (units : Fees.FeeUnits)
         (a b : Asset) (ia ib : AssetInfo) (feePrice : BN.t),
    cryptoassets cat !! a = Some ia ->
    cryptoassets cat !! b = Some ib ->
    chain ia = chain ib ->
    isEthereumChain a = isEthereumChain b ->
    chain ia = "terra" \/ (isERC20 cat a = true /\ isERC20 cat b = true) ->
    Fees.getTxFee cat isEthereumChain units a feePrice
    = Fees.getTxFee cat isEthereumChain units b feePrice.
Proof.
  intros cat isEthereumChain units a b ia ib feePrice Ha Hb Hchain Hevm Hclass.
  unfold Fees.getTxFee, Fees.feePriceInUnit. rewrite Ha, Hb, <- Hchain, Hevm.
  destruct (chains cat !! chain ia) as [chainInfo|]; [|reflexivity].
  destruct Hclass as [Hterra | [Hta Htb]].
  - rewrite Hterra. reflexivity.
  - rewrite Hta, Htb. reflexivity.
Qed.

Lemma getTxFee_ignores_which_token_pays_witness :
  Fees.getTxFee Cases.tokens Cases.isEthereumChain {["ERC20" := 100000]} "DAI" 30%Q
  = Fees.getTxFee Cases.tokens Cases.isEthereumChain {["ERC20" := 100000]} "USDT" 30%Q.
Proof.
  apply (getTxFee_ignores_which_token_pays Cases.tokens Cases.isEthereumChain
           {["ERC20" := 100000]} "DAI" "USDT"
           {| chain := "ethereum"; code := "DAI"; decimals := 18;
              contractAddress := Some "0x6b17" |}
           {| chain := "ethereum"; code := "USDT"; decimals := 6;
              contractAddress := Some "0xdac1" |} 30%Q).
  - vm_compute. reflexivity.
  - vm_compute. reflexivity.
  - reflexivity.
  - reflexivity.
  - right. split; reflexivity.
Defined.

(** X23. [getSendFee] is the asset's [sendGasLimit] times the fee price
    (times [10^9] on an Ethereum chain) divided by ten to the decimals of
    the asset itself, not of the native asset of its chain. *)
Theorem getSendFee_uses_the_assets_own_decimals :
  forall (cat : Catalog) (isEthereumChain : Asset -> bool) (sendGasLimit : AssetInfo -> Z)
         (asset : Asset) (info : AssetInfo) (p : Z),
    cryptoassets cat !! asset = Some info ->
    0 <= decimals info <= 20 ->
    exists fee,
      Fees.getSendFee cat isEthereumChain sendGasLimit asset (inject_Z p) = Ok fee
      /\ (fee == inject_Z (sendGasLimit info * p
                           * (if isEthereumChain asset then 10 ^ 9 else 1))
                 / inject_Z (10 ^ decimals info))%Q.
Proof.
  intros cat isEthereumChain sendGasLimit asset info p Hinfo Hdec.
  unfold Fees.getSendFee. rewrite Hinfo.
  eexists. split; [reflexivity|].
  unfold unitToCurrency, Fees.feePriceInUnit, BN.times.
  rewrite <- (dividedBy_power _ _ Hdec).
  unfold BN.dividedBy. apply round_comp_decimalPlaces.
  unfold Qdiv. apply Qmult_comp; [|reflexivity].
  destruct (isEthereumChain asset).
  - change 1000000000%Q with (inject_Z (10 ^ 9)). rewrite !inject_Z_mult. ring.
  - rewrite !inject_Z_mult. change (inject_Z 1) with 1%Q. ring.
Qed.

Lemma getSendFee_uses_the_assets_own_decimals_witness :
  exists fee,
    Fees.getSendFee Cases.tokens Cases.isEthereumChain (fun _ => 21000) "ETH" (inject_Z 30)
    = Ok fee
    /\ (fee == 63 / 100000)%Q.
Proof.
  destruct (getSendFee_uses_the_assets_own_decimals Cases.tokens Cases.isEthereumChain
              (fun _ => 21000) "ETH"
              {| chain := "ethereum"; code := "ETH"; decimals := 18;
                 contractAddress := None |} 30) as (fee & Hrun & Hfee).
  - vm_compute. reflexivity.
  - simpl. lia.
  - exists fee. split; [exact Hrun|]. rewrite Hfee. reflexivity.
Defined.

Lemma supportedPairs_total (cat : Catalog) (providerId : string)
    (markets : list Liquality.LiqualityMarketData) :
  exists pairs,
    Liquality.supportedPairs cat providerId markets = Ok pairs
    /\ Forall2
         (fun market pair =>
            exists fromInfo,
              cryptoassets cat !! Liquality.lm_from market = Some fromInfo
              /\ is_Some (cryptoassets cat !! Liquality.lm_to market)
              /\ pair = {| Liquality.p_from := Liquality.lm_from market;
                           Liquality.p_to := Liquality.lm_to market;
                           Liquality.p_min :=
                             unitToCurrency fromInfo (Liquality.lm_min market);
                           Liquality.p_max :=
                             unitToCurrency fromInfo (Liquality.lm_max market);
                           Liquality.p_rate := Liquality.lm_rate market;
                           Liquality.p_provider := providerId |})
         (List.filter (Liquality.listed cat) markets) pairs.
Proof.
  unfold Liquality.supportedPairs.
  induction markets as [|market markets IH]; simpl.
  - exists []. split; [reflexivity | constructor].
  - destruct IH as (pairs & Hrun & Hall).
    destruct (Liquality.listed cat market) eqn:Hlisted; [|eauto].
    simpl. unfold Liquality.pairOf at 1.
    unfold Liquality.listed in Hlisted. apply andb_true_iff in Hlisted as [Hf Ht].
    apply bool_decide_eq_true in Hf as [fromInfo Hf].
    apply bool_decide_eq_true in Ht.
    rewrite Hf, Hrun.
    eexists. split; [reflexivity|]. constructor; [|exact Hall].
    exists fromInfo. auto.
Qed.

(** X24. [getSupportedPairs] never fails on the agent's answer: it
    returns, in the agent's order, one pair for each market whose two
    assets are both known to the wallet, with the bounds converted from
    base units by the decimals of the source asset, the agent's rate and
    the provider's id, and it leaves the other markets out. *)
Theorem getSupportedPairs_skips_unknown_assets :
  forall (W : Type) (cat : Catalog) (providerId : string)
         (getMarketInfo : M W (list Liquality.LiqualityMarketData))
         (st st1 : St W) (markets : list Liquality.LiqualityMarketData),
    getMarketInfo st = (Ok markets, st1) ->
    let known market :=
      bool_decide (is_Some (cryptoassets cat !! Liquality.lm_from market))
      && bool_decide (is_Some (cryptoassets cat !! Liquality.lm_to market)) in
    exists pairs,
      Liquality.getSupportedPairs cat providerId getMarketInfo st = (Ok pairs, st1)
      /\ Forall2
           (fun market pair =>
              exists fromInfo,
                cryptoassets cat !! Liquality.lm_from market = Some fromInfo
                /\ is_Some (cryptoassets cat !! Liquality.lm_to market)
                /\ pair = {| Liquality.p_from := Liquality.lm_from market;
                             Liquality.p_to := Liquality.lm_to market;
                             Liquality.p_min :=
                               unitToCurrency fromInfo (Liquality.lm_min market);
                             Liquality.p_max :=
                               unitToCurrency fromInfo (Liquality.lm_max market);
                             Liquality.p_rate := Liquality.lm_rate market;
                             Liquality.p_provider := providerId |})
           (List.filter known markets) pairs.
Proof.
  intros W cat providerId getMarketInfo st st1 markets Hinfo known.
  destruct (supportedPairs_total cat providerId markets) as (pairs & Hrun & Hall).
  exists pairs. split; [|exact Hall].
  unfold Liquality.getSupportedPairs, bind, lift. by rewrite Hinfo, Hrun.
Qed.

Lemma getSupportedPairs_skips_unknown_assets_witness :
  exists pairs pair,
    Liquality.getSupportedPairs (W := nat) Scenario.catalog "liquality" (ret Cases.markets)
      (0%nat, [])
    = (Ok pairs, (0%nat, []))
    /\ pairs = [pair]
    /\ Liquality.p_to pair = "ETH".
Proof.
  destruct (getSupportedPairs_skips_unknown_assets nat Scenario.catalog "liquality"
              (ret Cases.markets) (0%nat, []) (0%nat, []) Cases.markets eq_refl)
    as (pairs & Hrun & Hall).
  assert (Hkept : List.filter
                    (fun market =>
                       bool_decide
                         (is_Some (cryptoassets Scenario.catalog !! Liquality.lm_from market))
                       && bool_decide
                            (is_Some (cryptoassets Scenario.catalog !! Liquality.lm_to market)))
                    Cases.markets
                  = [ {| Liquality.lm_from := "BTC"; Liquality.lm_to := "ETH";
                         Liquality.lm_min := 100000%Q; Liquality.lm_max := 500000000%Q;
                         Liquality.lm_rate := 15%Q |} ])
    by (vm_compute; reflexivity).
  cbv zeta in Hall. rewrite Hkept in Hall.
  inversion Hall as [|market pair rest pairs' (fromInfo & _ & _ & Hpair) Hrest]; subst.
  inversion Hrest; subst.
  eexists _, _. split; [exact Hrun|]. split; reflexivity.
Defined.

Lemma BN_gte_spec (a b : Q) : BN.gte a b = true <-> (b <= a)%Q.
Proof. unfold BN.gte. apply Qle_bool_iff. Qed.

Lemma BN_lte_spec (a b : Q) : BN.lte a b = true <-> (a <= b)%Q.
Proof. unfold BN.lte. apply Qle_bool_iff. Qed.

(** X25. [getQuote] returns [null] exactly when no market of this
    provider for the pair holds the amount between its minimum and maximum
    (both inclusive). A quote that is returned comes from such a market:
    its [fromAmount] is the amount in base units of the source asset and its
    [toAmount] is the amount times the market's rate in base units of the
    destination asset. *)
Theorem getQuote_needs_a_market_that_holds_the_amount :
  forall (cat : Catalog) (providerId : string)
         (marketData : list Liquality.MarketData) (from to : Asset) (amount : BN.t),
    let offers (market : Liquality.MarketData) :=
      Liquality.md_provider market = providerId
      /\ Liquality.md_from market = from
      /\ Liquality.md_to market = to
      /\ (Liquality.md_min market <= amount)%Q
      /\ (amount <= Liquality.md_max market)%Q in
    (Liquality.getQuote cat providerId marketData from to amount = Ok None
     <-> forall market, market ∈ marketData -> ~ offers market)
    /\ (forall quote,
          Liquality.getQuote cat providerId marketData from to amount = Ok (Some quote) ->
          exists market fromInfo toInfo,
            market ∈ marketData /\ offers market
            /\ cryptoassets cat !! from = Some fromInfo
            /\ cryptoassets cat !! to = Some toInfo
            /\ Liquality.q_from quote = from
            /\ Liquality.q_to quote = to
            /\ (Liquality.q_fromAmount quote
                == amount * inject_Z (10 ^ decimals fromInfo))%Q
            /\ (Liquality.q_toAmount quote
                == amount * Liquality.md_rate market * inject_Z (10 ^ decimals toInfo))%Q).
Proof.
  intros cat providerId marketData from to amount offers.
  set (test := fun market : Liquality.MarketData =>
                 String.eqb (Liquality.md_provider market) providerId
                 && String.eqb (Liquality.md_to market) to
                 && String.eqb (Liquality.md_from market) from
                 && BN.gte amount (Liquality.md_min market)
                 && BN.lte amount (Liquality.md_max market)).
  assert (Htest : forall market, test market = true <-> offers market).
  { intros market. unfold test, offers.
    rewrite !andb_true_iff, !String.eqb_eq, BN_gte_spec, BN_lte_spec. tauto. }
  unfold Liquality.getQuote. fold test. split.
  - split.
    + intros Hnone market Hin Hoffer.
      destruct (List.find test marketData) as [found|] eqn:Hfind.
      * destruct (cryptoassets cat !! from); [|discriminate].
        destruct (cryptoassets cat !! to); discriminate.
      * apply Htest in Hoffer.
        rewrite (find_none _ _ Hfind market) in Hoffer; [discriminate|].
        by apply list_elem_of_In.
    + intros Hnone.
      destruct (List.find test marketData) as [found|] eqn:Hfind; [|reflexivity].
      apply find_some in Hfind as [Hin Hok]. exfalso.
      apply (Hnone found); [by apply list_elem_of_In | by apply Htest].
  - intros quote Hquote.
    destruct (List.find test marketData) as [found|] eqn:Hfind; [|discriminate].
    apply find_some in Hfind as [Hin Hok].
    destruct (cryptoassets cat !! from) as [fromInfo|]; [|discriminate].
    destruct (cryptoassets cat !! to) as [toInfo|]; [|discriminate].
    inversion Hquote; subst; clear Hquote.
    exists found, fromInfo, toInfo. simpl.
    split; [by apply list_elem_of_In|]. split; [by apply Htest|].
    repeat split; reflexivity.
Qed.

Lemma getQuote_needs_a_market_that_holds_the_amount_witness :
  Liquality.getQuote Scenario.catalog "liquality" Cases.marketData "BTC" "ETH" 7%Q = Ok None.
Proof.
  destruct (getQuote_needs_a_market_that_holds_the_amount Scenario.catalog "liquality"
              Cases.marketData "BTC" "ETH" 7%Q) as [[_ H] _].
  apply H. intros market Hin (Hprovider & _ & _ & _ & Hmax).
  apply elem_of_cons in Hin as [-> | Hin]; [discriminate|].
  apply elem_of_cons in Hin as [-> | Hin]; [|by apply elem_of_nil in Hin].
  vm_compute in Hmax. by apply Hmax.
Defined.

Lemma feesFor_lookup (fee : BN.t -> Result (option BN.t)) (feePrices : list BN.t) :
  forall acc fees,
    Liquality.feesFor fee feePrices acc = Ok fees ->
    forall k,
      (fees !! k = acc !! k /\ forall p, p ∈ feePrices -> Q2Qc p <> k)
      \/ (exists p f, p ∈ feePrices /\ Q2Qc p = k /\ fee p = Ok f /\ fees !! k = Some f).
Proof.
  induction feePrices as [|p rest IH]; intros acc fees Hrun k; simpl in Hrun.
  - left. inversion Hrun; subst. split; [reflexivity|].
    intros p Hin. by apply elem_of_nil in Hin.
  - destruct (fee p) as [f|e] eqn:Hfee; [|discriminate].
    destruct (IH _ _ Hrun k) as [[Hsame Hnone] | (p' & f' & Hin & Hk & Hf & Hlook)].
    + destruct (decide (Q2Qc p = k)) as [Heq|Hne].
      * right. exists p, f. split; [by left|]. split; [exact Heq|]. split; [exact Hfee|].
        rewrite Hsame, <- Heq. apply lookup_insert_eq.
      * left. split.
        -- rewrite Hsame. by apply lookup_insert_ne.
        -- intros p0 Hin. apply elem_of_cons in Hin as [-> | Hin]; auto.
    + right. exists p', f'. split; [by right|]. auto.
Qed.

Lemma feesFor_total (fee : BN.t -> Result (option BN.t)) (feePrices : list BN.t) :
  (forall p, p ∈ feePrices -> exists f, fee p = Ok f) ->
  forall acc, exists fees, Liquality.feesFor fee feePrices acc = Ok fees.
Proof.
  induction feePrices as [|p rest IH]; intros Hfee acc; simpl.
  - eauto.
  - destruct (Hfee p) as [f Hf]; [by left|]. rewrite Hf.
    apply IH. intros p' Hin. apply Hfee. by right.
Qed.

Lemma feesFor_ext (fee fee' : BN.t -> Result (option BN.t)) :
  (forall p, fee p = fee' p) ->
  forall feePrices acc,
    Liquality.feesFor fee feePrices acc = Liquality.feesFor fee' feePrices acc.
Proof.
  intros Hext. induction feePrices as [|p rest IH]; intros acc; simpl; [reflexivity|].
  rewrite Hext. destruct (fee' p); [apply IH | reflexivity].
Qed.

(** X26. Except for the initiation of a swap from BTC, [estimateFees]
    makes no external call and, for a known asset, never fails: the fees it
    returns hold one entry for each requested fee price and no other, and
    the entry is [getTxFee] for the units of the transaction type, plus the
    storage fee of 0.00125 when a swap from NEAR is initiated. *)
Theorem estimateFees_prices_each_requested_fee :
  forall (W : Type) (cat : Catalog) (isEthereumChain : Asset -> bool)
         (network : Network) (walletId : WalletId)
         (getTotalFees : ClientId -> list Liquality.FeeRequest -> bool
                         -> M W (gmap Qc BN.t))
         (asset : Asset) (txType : Liquality.LiqualityTxTypes)
         (quote : Liquality.SwapHistoryItem) (feePrices : list BN.t) (max : bool)
         (info : AssetInfo) (chainInfo : ChainInfo) (nativeInfo : AssetInfo) (st : St W),
    cryptoassets cat !! asset = Some info ->
    chains cat !! chain info = Some chainInfo ->
    cryptoassets cat !! nativeAsset chainInfo = Some nativeInfo ->
    ~ (txType = Liquality.SWAP_INITIATION /\ asset = "BTC") ->
    let storage (fee : option BN.t) :=
      match txType, fee with
      | Liquality.SWAP_INITIATION, Some f =>
          if String.eqb asset "NEAR" then Some (f + 0.00125)%Q else fee
      | _, _ => fee
      end in
    exists units fees,
      Liquality.feeUnits txType = Some units
      /\ Liquality.estimateFees cat isEthereumChain network walletId getTotalFees
           asset txType quote feePrices max st = (Ok fees, st)
      /\ (forall p, p ∈ feePrices ->
            exists p' fee,
              p' ∈ feePrices /\ Q2Qc p' = Q2Qc p
              /\ Fees.getTxFee cat isEthereumChain units asset p' = Ok fee
              /\ fees !! Q2Qc p = Some (storage fee))
      /\ (forall k, is_Some (fees !! k) -> exists p, p ∈ feePrices /\ Q2Qc p = k).
Proof.
  intros W cat isEthereumChain network walletId getTotalFees asset txType quote feePrices
    max info chainInfo nativeInfo st Hinfo Hchain Hnative Hnot storage.
  assert (Hunits : exists units, Liquality.feeUnits txType = Some units)
    by (destruct txType; eexists; reflexivity).
  destruct Hunits as [units Hunits]. exists units.
  assert (Hfee : forall p, exists fee,
             Fees.getTxFee cat isEthereumChain units asset p = Ok fee).
  { intros p. unfold Fees.getTxFee. rewrite Hinfo, Hchain, Hnative. eauto. }
  set (fee := fun feePrice =>
                match Fees.getTxFee cat isEthereumChain units asset feePrice with
                | Ok f => Ok (storage f)
                | Throw e => Throw e
                end).
  assert (Hrun : Liquality.estimateFees cat isEthereumChain network walletId getTotalFees
                   asset txType quote feePrices max st
                 = (Liquality.feesFor fee feePrices ∅, st)).
  { unfold Liquality.estimateFees. rewrite Hunits.
    destruct txType; simpl.
    - destruct (String.eqb asset "BTC") eqn:Hbtc.
      { apply String.eqb_eq in Hbtc. exfalso. by apply Hnot. }
      unfold lift, fee, storage.
      destruct (String.eqb asset "NEAR"); f_equal; apply feesFor_ext; intros p;
        by destruct (Fees.getTxFee cat isEthereumChain units asset p) as [[f|]|e].
    - unfold lift, fee, storage. f_equal. apply feesFor_ext. intros p.
      by destruct (Fees.getTxFee cat isEthereumChain units asset p) as [[f|]|e]. }
  destruct (feesFor_total fee feePrices) with (acc := (∅ : gmap Qc (option BN.t)))
    as [fees Hfees].
  { intros p _. unfold fee. destruct (Hfee p) as [f ->]. eauto. }
  exists fees. split; [exact Hunits|]. split; [by rewrite Hrun, Hfees|].
  split.
  - intros p Hin.
    destruct (feesFor_lookup fee feePrices _ _ Hfees (Q2Qc p))
      as [[_ Hnone] | (p' & f & Hin' & Hk & Hf & Hlook)].
    + exfalso. exact (Hnone p Hin eq_refl).
    + unfold fee in Hf.
      destruct (Fees.getTxFee cat isEthereumChain units asset p') as [f0|e] eqn:Hf0;
        [|discriminate].
      inversion Hf; subst. exists p', f0. auto.
  - intros k [v Hv].
    destruct (feesFor_lookup fee feePrices _ _ Hfees k)
      as [[Hsame _] | (p' & f & Hin' & Hk & _)].
    + rewrite Hsame in Hv. by rewrite lookup_empty in Hv.
    + eauto.
Qed.

Lemma estimateFees_prices_each_requested_fee_witness :
  exists fees fee,
    Liquality.estimateFees (W := nat) Cases.tokens Cases.isEthereumChain "mainnet" "w1"
      (fun _ _ _ => ret (∅ : gmap Qc BN.t)) "ETH" Liquality.SWAP_CLAIM
      (Scenario.htlcSwap "QUOTE") [10%Q; 20%Q] false (0%nat, [])
    = (Ok fees, (0%nat, []))
    /\ fees !! Q2Qc 20%Q = Some fee
    /\ Fees.getTxFee Cases.tokens Cases.isEthereumChain
         (list_to_map
            [ ("BTC", 143); ("ETH", 45000); ("RBTC", 45000); ("BNB", 45000);
              ("MATIC", 45000); ("NEAR", 8000000000000); ("SOL", 1);
              ("LUNA", 800000); ("UST", 800000); ("ERC20", 100000);
              ("ARBETH", 680000); ("AVAX", 45000) ]) "ETH" 20%Q = Ok fee.
Proof.
  destruct (estimateFees_prices_each_requested_fee nat Cases.tokens Cases.isEthereumChain
              "mainnet" "w1" (fun _ _ _ => ret (∅ : gmap Qc BN.t)) "ETH"
              Liquality.SWAP_CLAIM (Scenario.htlcSwap "QUOTE") [10%Q; 20%Q] false
              {| chain := "ethereum"; code := "ETH"; decimals := 18;
                 contractAddress := None |}
              {| safeConfirmations := 3; nativeAsset := "ETH";
                 formatAddress := fun a _ => a |}
              {| chain := "ethereum"; code := "ETH"; decimals := 18;
                 contractAddress := None |} (0%nat, []))
    as (units & fees & Hunits & Hrun & Hall & _).
  - vm_compute. reflexivity.
  - vm_compute. reflexivity.
  - vm_compute. reflexivity.
  - intros [H _]. discriminate.
  - injection Hunits as <-.
    destruct (Hall 20%Q) as (p' & fee & Hin & Hkey & Hfee & Hlook).
    { apply elem_of_cons. right. apply elem_of_cons. by left. }
    exists fees, fee. split; [exact Hrun|]. split; [exact Hlook|].
    apply elem_of_cons in Hin as [-> | Hin].
    { exfalso. apply (f_equal this) in Hkey. vm_compute in Hkey. discriminate. }
    apply elem_of_cons in Hin as [-> | Hin]; [exact Hfee|].
    by apply elem_of_nil in Hin.
Defined.

Lemma append_nil_r (a : string) : a +:+ "" = a.
Proof. induction a as [|x a IH]; [reflexivity|]. by rewrite append_cons, IH. Qed.

Lemma length_append (a b : string) :
  String.length (a +:+ b) = (String.length a + String.length b)%nat.
Proof. induction a as [|x a IH]; [reflexivity|]. rewrite append_cons. simpl. by rewrite IH. Qed.

Lemma prefix_append (p s : string) : String.prefix p (p +:+ s) = true.
Proof.
  induction p as [|c p IH]; [by destruct s|].
  rewrite append_cons. simpl. destruct (ascii_dec c c); [exact IH | congruence].
Qed.

Lemma prefix_split (p s : string) :
  String.prefix p s = true -> exists rest, s = p +:+ rest.
Proof.
  revert s. induction p as [|c p IH]; intros s H.
  - exists s. reflexivity.
  - destruct s as [|d s]; simpl in H; [discriminate|].
    destruct (ascii_dec c d) as [->|]; [|discriminate].
    destruct (IH s H) as [rest ->]. exists rest. reflexivity.
Qed.

Lemma substring_all (s : string) : String.substring 0 (String.length s) s = s.
Proof. induction s as [|c s IH]; [reflexivity|]. simpl. by rewrite IH. Qed.

Lemma substring_skip (p s : string) (m : nat) :
  String.substring (String.length p) m (p +:+ s) = String.substring 0 m s.
Proof. induction p as [|c p IH]; [reflexivity|]. rewrite append_cons. simpl. exact IH. Qed.

Lemma substring_short (s : string) (m : nat) :
  (String.length s <= m)%nat -> String.substring 0 m s = s.
Proof.
  revert m. induction s as [|c s IH]; intros [|m] H; simpl in *; try reflexivity; try lia.
  rewrite IH; [reflexivity | lia].
Qed.

Lemma substring_from (k m : nat) (p s : string) :
  String.length p = k ->
  String.substring (k + m) (String.length s - m) (p +:+ s)
  = String.substring m (String.length s - m) s.
Proof.
  intros <-. induction p as [|c p IH]; [reflexivity|].
  rewrite append_cons. simpl. exact IH.
Qed.

Lemma removeFirst_unfold (p s : string) :
  Address.removeFirst p s
  = if String.prefix p s
    then String.substring (String.length p) (String.length s - String.length p) s
    else match s with
         | EmptyString => EmptyString
         | String c rest => String c (Address.removeFirst p rest)
         end.
Proof. by destruct s. Qed.

Lemma removeFirst_head (p s : string) : Address.removeFirst p (p +:+ s) = s.
Proof.
  rewrite removeFirst_unfold, prefix_append, substring_skip, length_append.
  replace (String.length p + String.length s - String.length p)%nat
    with (String.length s) by lia.
  apply substring_all.
Qed.

Lemma removeFirst_absent (p s : string) :
  p <> "" ->
  (forall a b, s <> a +:+ p +:+ b) -> Address.removeFirst p s = s.
Proof.
  intros Hp. induction s as [|c s IH]; intros Hno.
  - rewrite removeFirst_unfold. destruct (String.prefix p "") eqn:Hpre; [|reflexivity].
    destruct p; [congruence | discriminate].
  - rewrite removeFirst_unfold. destruct (String.prefix p (String c s)) eqn:Hpre.
    + apply prefix_split in Hpre as [rest Hrest].
      exfalso. apply (Hno "" rest). exact Hrest.
    + f_equal. apply IH. intros a b ->. apply (Hno (String c a) b). reflexivity.
Qed.

Lemma length_substring (n m : nat) (s : string) :
  (n + m <= String.length s)%nat -> String.length (String.substring n m s) = m.
Proof.
  revert n m. induction s as [|c s IH]; intros [|n] [|m] H; simpl in *;
    try reflexivity; try lia.
  - rewrite (IH 0%nat m); [reflexivity | simpl; lia].
  - apply IH. lia.
  - apply IH. lia.
Qed.
Lemma prefix_cons_ne (c d : ascii) (p s : string) :
  c <> d -> String.prefix (String c p) (String d s) = false.
Proof.
  intros Hne.
  change (String.prefix (String c p) (String d s))
    with (if ascii_dec c d then String.prefix p s else false).
  by destruct (ascii_dec c d).
Qed.

Lemma prefix_cons_eq (c : ascii) (p s : string) :
  String.prefix (String c p) (String c s) = String.prefix p s.
Proof.
  change (String.prefix (String c p) (String c s))
    with (if ascii_dec c c then String.prefix p s else false).
  by destruct (ascii_dec c c).
Qed.

Lemma removeFirst_after (a b : string) :
  hasChar "0" a = false ->
  Address.removeFirst "0x" (a +:+ "0x" +:+ b) = a +:+ b.
Proof.
  induction a as [|c a IH]; intros Hno.
  - rewrite !append_nil_l. apply (removeFirst_head "0x" b).
  - simpl in Hno. apply orb_false_iff in Hno as [Hc Hno].
    rewrite !(append_cons c a), removeFirst_unfold.
    assert (Hpre : String.prefix "0x" (String c (a +:+ "0x" +:+ b)) = false).
    { apply prefix_cons_ne. intros <-. discriminate. }
    rewrite Hpre. by rewrite IH.
Qed.

(** X27. For an address [0x] followed by at least four characters,
    [shortenAddress] is [0x], the first four characters after it, three
    dots and the last four characters: 13 characters that start like the
    address. *)
Theorem shortenAddress_keeps_both_ends_of_a_hex_address :
  forall body : string,
    (4 <= String.length body)%nat ->
    Address.shortenAddress ("0x" +:+ body)
    = "0x" +:+ Address.firstChars 4 body +:+ "..." +:+ Address.lastChars 4 body
    /\ String.length (Address.shortenAddress ("0x" +:+ body)) = 13%nat
    /\ String.prefix ("0x" +:+ Address.firstChars 4 body) ("0x" +:+ body) = true.
Proof.
  intros body Hlen.
  assert (Hshort : Address.shortenAddress ("0x" +:+ body)
                   = "0x" +:+ Address.firstChars 4 body +:+ "..."
                       +:+ Address.lastChars 4 body).
  { unfold Address.shortenAddress, Address.startsWith.
    rewrite (prefix_append "0x" body).
    change (String.prefix "terra" ("0x" +:+ body)) with false.
    cbv iota. change (String.eqb "0x" "") with false. cbv iota.
    rewrite removeFirst_head. do 3 f_equal.
    unfold Address.lastChars. rewrite length_append.
    replace (String.length "0x" + String.length body - 4)%nat
      with (S (S (String.length body - 4))) by (simpl; lia).
    reflexivity. }
  split; [exact Hshort|]. split.
  - rewrite Hshort. rewrite !length_append.
    unfold Address.firstChars, Address.lastChars.
    rewrite !length_substring by lia. reflexivity.
  - change ("0x" +:+ Address.firstChars 4 body)
      with (String "0" (String "x" (Address.firstChars 4 body))).
    change ("0x" +:+ body) with (String "0" (String "x" body)).
    rewrite !prefix_cons_eq. unfold Address.firstChars.
    clear Hshort Hlen. generalize 4%nat as n.
    induction body as [|c body IH]; intros [|n]; try reflexivity.
    change (String.substring 0 (S n) (String c body))
      with (String c (String.substring 0 n body)).
    rewrite prefix_cons_eq. apply IH.
Qed.

Lemma shortenAddress_keeps_both_ends_of_a_hex_address_witness :
  Address.shortenAddress "0x1234567890abcdef" = "0x1234...cdef".
Proof.
  destruct (shortenAddress_keeps_both_ends_of_a_hex_address "1234567890abcdef") as [H _].
  - simpl. lia.
  - exact H.
Defined.

(** X28. For an address without [0x], [shortenAddress] is its first six
    characters, three dots and its last four characters (six for a Terra
    address); an address of at most four characters is not shortened at all
    but printed twice around the dots. *)
Theorem shortenAddress_repeats_a_short_address :
  forall address : string,
    (forall a b, address <> a +:+ "0x" +:+ b) ->
    Address.shortenAddress address
    = Address.firstChars 6 address +:+ "..."
        +:+ Address.lastChars (if Address.startsWith "terra" address then 6 else 4) address
    /\ ((String.length address <= 4)%nat ->
        Address.shortenAddress address = address +:+ "..." +:+ address).
Proof.
  intros address Hno.
  assert (Hpre : Address.startsWith "0x" address = false).
  { unfold Address.startsWith. destruct (String.prefix "0x" address) eqn:H; [|reflexivity].
    apply prefix_split in H as [rest ->]. exfalso. exact (Hno "" rest eq_refl). }
  assert (Hshort : Address.shortenAddress address
                   = Address.firstChars 6 address +:+ "..."
                       +:+ Address.lastChars
                             (if Address.startsWith "terra" address then 6 else 4) address).
  { unfold Address.shortenAddress. rewrite Hpre. cbv iota.
    change (String.eqb "" "") with true. cbv iota.
    rewrite removeFirst_absent by (first [discriminate | exact Hno]).
    reflexivity. }
  split; [exact Hshort|].
  intros Hlen. rewrite Hshort.
  assert (Hterra : Address.startsWith "terra" address = false).
  { unfold Address.startsWith. destruct (String.prefix "terra" address) eqn:H; [|reflexivity].
    apply prefix_split in H as [rest ->]. rewrite length_append in Hlen. simpl in Hlen. lia. }
  rewrite Hterra. unfold Address.firstChars, Address.lastChars.
  replace (String.length address - 4)%nat with 0%nat by lia.
  rewrite !substring_short by lia. reflexivity.
Qed.

Lemma shortenAddress_repeats_a_short_address_witness :
  Address.shortenAddress "abc" = "abc...abc".
Proof.
  destruct (shortenAddress_repeats_a_short_address "abc") as [_ H].
  - intros a b Heq.
    destruct a as [|c1 [|c2 [|c3 [|c4 a]]]]; try discriminate Heq.
    all: injection Heq as _ Heq; try discriminate Heq.
    all: injection Heq as _ Heq; try discriminate Heq.
  - apply H. simpl. lia.
Defined.

(** X29. An address that holds [0x] after a non-empty head without the
    character [0] loses that [0x]: the part before the dots is the first six
    characters of the address with the [0x] cut out, which need not be a
    prefix of the address. *)
Theorem shortenAddress_drops_an_inner_0x_from_the_head :
  forall a b : string,
    a <> "" ->
    hasChar "0" a = false ->
    let address := a +:+ "0x" +:+ b in
    Address.shortenAddress address
    = Address.firstChars 6 (a +:+ b) +:+ "..."
        +:+ Address.lastChars (if Address.startsWith "terra" address then 6 else 4) address.
Proof.
  intros a b Ha Hno address. subst address.
  unfold Address.shortenAddress.
  assert (Hpre : Address.startsWith "0x" (a +:+ "0x" +:+ b) = false).
  { destruct a as [|c a]; [congruence|].
    simpl in Hno. apply orb_false_iff in Hno as [Hc _].
    unfold Address.startsWith. rewrite (append_cons c a).
    apply prefix_cons_ne. intros <-. discriminate. }
  rewrite Hpre. cbv iota. change (String.eqb "" "") with true. cbv iota.
  by rewrite removeFirst_after.
Qed.

Lemma shortenAddress_drops_an_inner_0x_from_the_head_witness :
  Address.shortenAddress "bc1q0xabcdef" = "bc1qab...cdef".
Proof.
  apply (shortenAddress_drops_an_inner_0x_from_the_head "bc1q" "abcdef").
  - discriminate.
  - reflexivity.
Defined.

Lemma includes_spec (x : string) (l : list string) :
  UnusedAddresses.includes x l = true <-> x ∈ l.
Proof.
  unfold UnusedAddresses.includes. rewrite existsb_exists. split.
  - intros (y & Hin & Heq). apply String.eqb_eq in Heq as ->. by apply list_elem_of_In.
  - intros Hin. exists x. split; [by apply list_elem_of_In | apply String.eqb_refl].
Qed.

(** X30. The function that [getUnusedAddresses] maps over the assets
    returns the empty string, without asking the wallet and without a
    commit, for an empty asset or an account id that is not there.
    Otherwise it returns the wallet's unused address (less its first [0x]
    on an Ethereum chain) and commits the addresses of the account: that
    address alone for most chains, and for a bitcoin account the addresses
    it had, in order, with the new one added at the end unless it is there
    already, so that a list without duplicates stays without. *)
Theorem getUnusedAddresses_keeps_the_addresses_of_a_bitcoin_account :
  forall (W : Type) (getUnusedAddress : ClientId -> W -> Result string * W)
         (isEthereumChain : Asset -> bool)
         (network : Network) (walletId : WalletId) (accountId : AccountId)
         (accounts : list UnusedAddresses.Account) (asset : Asset) (w : W),
    let outcome :=
      UnusedAddresses.mapper getUnusedAddress isEthereumChain network walletId accountId
        (Some accounts) asset w in
    (asset = ""
     \/ (forall a, a ∈ accounts -> UnusedAddresses.id a <> accountId) ->
     outcome = (Ok ("", None), w))
    /\ (forall account result w',
          asset <> "" ->
          List.find (fun a => String.eqb (UnusedAddresses.id a) accountId) accounts
          = Some account ->
          getUnusedAddress (getClient network walletId asset accountId) w
          = (Ok result, w') ->
          let address :=
            if isEthereumChain asset then Address.removeFirst "0x" result else result in
          exists updated,
            outcome
            = (Ok (address,
                   Some {| UnusedAddresses.au_network := network;
                           UnusedAddresses.au_accountId := accountId;
                           UnusedAddresses.au_walletId := walletId;
                           UnusedAddresses.au_addresses := updated |}), w')
            /\ address ∈ updated
            /\ (UnusedAddresses.chain account <> "bitcoin" -> updated = [address])
            /\ (UnusedAddresses.chain account = "bitcoin" ->
                (exists new, updated = UnusedAddresses.addresses account ++ new
                             /\ (length new <= 1)%nat)
                /\ (address ∈ UnusedAddresses.addresses account ->
                    updated = UnusedAddresses.addresses account)
                /\ (NoDup (UnusedAddresses.addresses account) -> NoDup updated))).
Proof.
  intros W getUnusedAddress isEthereumChain network walletId accountId accounts asset w
    outcome. subst outcome. split.
  - intros Hskip. unfold UnusedAddresses.mapper.
    destruct (List.find _ accounts) as [account|] eqn:Hfind; [|reflexivity].
    destruct Hskip as [-> | Hnone]; [reflexivity|].
    apply find_some in Hfind as [Hin Hid]. apply String.eqb_eq in Hid.
    exfalso. apply (Hnone account); [by apply list_elem_of_In | exact Hid].
  - intros account result w' Hasset Hfind Hcall address.
    unfold UnusedAddresses.mapper. rewrite Hfind.
    pose proof (find_some _ _ Hfind) as [_ Hid]. apply String.eqb_eq in Hid.
    rewrite (proj2 (String.eqb_neq _ _) Hasset). cbn [negb]. rewrite Hid, Hcall.
    fold address. eexists. split; [reflexivity|].
    unfold UnusedAddresses.ChainId_Bitcoin.
    destruct (String.eqb (UnusedAddresses.chain account) "bitcoin") eqn:Hchain.
    + apply String.eqb_eq in Hchain.
      destruct (UnusedAddresses.includes address (UnusedAddresses.addresses account))
        eqn:Hinc; cbn [negb].
      * apply includes_spec in Hinc.
        split; [exact Hinc|]. split; [congruence|]. intros _.
        split; [exists []; split; [by rewrite app_nil_r | simpl; lia]|].
        split; [reflexivity | auto].
      * assert (Hnot : address ∉ UnusedAddresses.addresses account).
        { intros Hin. apply includes_spec in Hin. congruence. }
        split; [apply elem_of_app; right; by left|]. split; [congruence|]. intros _.
        split; [exists [address]; split; [reflexivity | simpl; lia]|].
        split; [intros Hin; contradiction|].
        intros Hnodup. apply NoDup_app. split; [exact Hnodup|].
        split; [|apply NoDup_singleton].
        intros x Hx Hx'. apply list_elem_of_singleton in Hx' as ->. contradiction.
    + apply String.eqb_neq in Hchain.
      split; [by left|]. split; [reflexivity|]. intros Hc. contradiction.
Qed.

Lemma getUnusedAddresses_keeps_the_addresses_of_a_bitcoin_account_witness :
  UnusedAddresses.mapper (fun _ w => (Ok "bc1new", S w)) Cases.isEthereumChain
    "mainnet" "w1" "acc-btc"
    (Some [ {| UnusedAddresses.id := "acc-btc"; UnusedAddresses.chain := "bitcoin";
               UnusedAddresses.addresses := ["bc1old"] |} ]) "BTC" 0%nat
  = (Ok ("bc1new",
         Some {| UnusedAddresses.au_network := "mainnet";
                 UnusedAddresses.au_accountId := "acc-btc";
                 UnusedAddresses.au_walletId := "w1";
                 UnusedAddresses.au_addresses := ["bc1old"; "bc1new"] |}), 1%nat).
Proof.
  destruct (getUnusedAddresses_keeps_the_addresses_of_a_bitcoin_account nat
              (fun _ w => (Ok "bc1new", S w)) Cases.isEthereumChain
              "mainnet" "w1" "acc-btc"
              [ {| UnusedAddresses.id := "acc-btc"; UnusedAddresses.chain := "bitcoin";
                   UnusedAddresses.addresses := ["bc1old"] |} ] "BTC" 0%nat) as [_ H].
  destruct (H {| UnusedAddresses.id := "acc-btc"; UnusedAddresses.chain := "bitcoin";
                 UnusedAddresses.addresses := ["bc1old"] |} "bc1new" 1%nat)
    as (updated & Hrun & _).
  - discriminate.
  - reflexivity.
  - reflexivity.
  - rewrite Hrun. vm_compute in Hrun. injection Hrun as <-. reflexivity.
Defined.
